(** * The Style Alchemist: prompt composition and export crop

    A shallow embedding of [src/index.tsx]: the process-wide client
    initialisation, the category classifier, [handleGenerate] (prompt
    composition, the generation call and its error handling), the crop
    arithmetic of [handleDownload], the presets and the controls, the
    preview of the uploader, and the runs in which a file read fails. *)

From Stdlib Require Import ZArith NArith QArith Qreduction Lqa Lia Bool List String Ascii DecimalString.
From Stdlib Require Import Floats Uint63.
Import ListNotations.

Set Implicit Arguments.

(* ===================================================================== *)
(** * JavaScript numbers *)
(* ===================================================================== *)

(** The crop arithmetic uses [-], [*], [/], [<] and [>] on JavaScript
    numbers.  The operations are kept abstract so that the same source-level
    definition can be read both in exact arithmetic and in IEEE binary64. *)

Class JsNumber (T : Type) : Type := {
  num_of_N : N -> T;
  num_sub : T -> T -> T;
  num_mul : T -> T -> T;
  num_div : T -> T -> T;
  num_lt : T -> T -> bool
}.

Declare Scope js_scope.
Delimit Scope js_scope with js.
Infix "-" := num_sub : js_scope.
Infix "*" := num_mul : js_scope.
Infix "/" := num_div : js_scope.
Infix "<" := num_lt : js_scope.
Notation "a > b" := (num_lt b a) : js_scope.

Module Exact.

(** Exact arithmetic: rationals extended with the two infinities and NaN,
    so that division by a zero dimension behaves as in JavaScript.  There
    is no rounding and no overflow, and every zero is the positive zero
    (dimensions are non-negative integers, so a negative zero never
    reaches a divisor here). *)
Inductive xq : Type :=
| Fin (q : Q)
| PInf
| NInf
| NaN.

Definition xq_sub (x y : xq) : xq :=
  match x, y with
  | NaN, _ | _, NaN => NaN
  | Fin a, Fin b => Fin (a - b)
  | Fin _, PInf => NInf
  | Fin _, NInf => PInf
  | PInf, PInf => NaN
  | PInf, _ => PInf
  | NInf, NInf => NaN
  | NInf, _ => NInf
  end.

Definition xq_mul (x y : xq) : xq :=
  match x, y with
  | NaN, _ | _, NaN => NaN
  | Fin a, Fin b => Fin (a * b)
  | Fin a, PInf | PInf, Fin a =>
      match a ?= 0 with Eq => NaN | Gt => PInf | Lt => NInf end
  | Fin a, NInf | NInf, Fin a =>
      match a ?= 0 with Eq => NaN | Gt => NInf | Lt => PInf end
  | PInf, PInf | NInf, NInf => PInf
  | PInf, NInf | NInf, PInf => NInf
  end.

Definition xq_div (x y : xq) : xq :=
  match x, y with
  | NaN, _ | _, NaN => NaN
  | Fin a, Fin b =>
      match b ?= 0 with
      | Eq => match a ?= 0 with Eq => NaN | Gt => PInf | Lt => NInf end
      | _ => Fin (a / b)
      end
  | Fin _, PInf | Fin _, NInf => Fin 0
  | PInf, Fin b => match b ?= 0 with Lt => NInf | _ => PInf end
  | NInf, Fin b => match b ?= 0 with Lt => PInf | _ => NInf end
  | PInf, PInf | PInf, NInf | NInf, PInf | NInf, NInf => NaN
  end.

Definition xq_lt (x y : xq) : bool :=
  match x, y with
  | Fin a, Fin b => match a ?= b with Lt => true | _ => false end
  | NInf, Fin _ | NInf, PInf | Fin _, PInf => true
  | _, _ => false
  end.

Definition xq_of_N (n : N) : xq := Fin (inject_Z (Z.of_N n)).

#[export] Instance xq_number : JsNumber xq := {
  num_of_N := xq_of_N;
  num_sub := xq_sub;
  num_mul := xq_mul;
  num_div := xq_div;
  num_lt := xq_lt
}.

(** Two exact numbers denote the same value ([Q] is not canonical). *)
Definition same (x y : xq) : Prop :=
  match x, y with
  | Fin a, Fin b => a == b
  | PInf, PInf | NInf, NInf | NaN, NaN => True
  | _, _ => False
  end.

(** JavaScript's [===] on numbers: as [same], but NaN equals nothing. *)
Definition strict_eq (x y : xq) : Prop :=
  match x, y with
  | NaN, _ | _, NaN => False
  | _, _ => same x y
  end.

End Exact.

Module Binary64.

(** IEEE 754 binary64, the representation JavaScript numbers have.  Image
    dimensions are exactly representable (they are below 2^53). *)
Definition float_of_N (n : N) : float := PrimFloat.of_uint63 (Uint63.of_Z (Z.of_N n)).

#[export] Instance float_number : JsNumber float := {
  num_of_N := float_of_N;
  num_sub := PrimFloat.sub;
  num_mul := PrimFloat.mul;
  num_div := PrimFloat.div;
  num_lt := PrimFloat.ltb
}.

End Binary64.

(* ===================================================================== *)
(** * Export crop ([handleDownload], the body of [image.onload]) *)
(* ===================================================================== *)

(** The download menu's [aspect: '1:1' | '9:16' | '16:9']. *)
Inductive Aspect : Type := A1x1 | A9x16 | A16x9.

Definition aspect_eqb (a b : Aspect) : bool :=
  match a, b with
  | A1x1, A1x1 | A9x16, A9x16 | A16x9, A16x9 => true
  | _, _ => false
  end.

Record Rect (T : Type) : Type := mkRect {
  sx : T;
  sy : T;
  sWidth : T;
  sHeight : T
}.

Section Crop.

Context {T : Type} `{JsNumber T}.
Local Open Scope js_scope.

Definition lit (n : N) : T := num_of_N n.

(** [0.3]: the literal is the correctly rounded quotient 3/10. *)
Definition lit_0_3 : T := lit 3 / lit 10.

Definition targetAspectOf (aspect : Aspect) : T :=
  if aspect_eqb aspect A16x9 then lit 16 / lit 9
  else if aspect_eqb aspect A9x16 then lit 9 / lit 16
  else lit 1.

Definition sourceAspectOf (naturalWidth naturalHeight : N) : T :=
  lit naturalWidth / lit naturalHeight.

Definition cropRect (naturalWidth naturalHeight : N) (aspect : Aspect) : Rect T :=
  let sourceWidth := lit naturalWidth in
  let sourceHeight := lit naturalHeight in
  let sourceAspect := sourceWidth / sourceHeight in
  let targetAspect := targetAspectOf aspect in
  let r0 := mkRect (lit 0) (lit 0) sourceWidth sourceHeight in
  let r1 :=
    if sourceAspect > targetAspect then
      let sWidth' := sourceHeight * targetAspect in
      mkRect ((sourceWidth - sWidth') / lit 2) (sy r0) sWidth' (sHeight r0)
    else if sourceAspect < targetAspect then
      let sHeight' := sourceWidth / targetAspect in
      mkRect (sx r0) ((sourceHeight - sHeight') / lit 2) (sWidth r0) sHeight'
    else r0 in
  if aspect_eqb aspect A16x9 && (sourceAspect < targetAspect) then
    mkRect (sx r1) ((sourceHeight - sHeight r1) * lit_0_3) (sWidth r1) (sHeight r1)
  else r1.

End Crop.


(* ===================================================================== *)
(** * JavaScript strings and values *)
(* ===================================================================== *)

Local Open Scope string_scope.

Definition nl : string := String "010"%char EmptyString.
Definition dq : string := String "034"%char EmptyString.

(** Truthiness of a [string | null] value: [null] and [''] are falsy. *)
Definition truthy (v : option string) : bool :=
  match v with
  | Some (String _ _) => true
  | _ => false
  end.

(** [a || b] on strings. *)
Definition or_else (a b : string) : string :=
  match a with
  | EmptyString => b
  | String _ _ => a
  end.

(** A template literal prints [undefined] for a missing value. *)
Definition interpolate (v : option string) : string :=
  match v with
  | Some s => s
  | None => "undefined"
  end.

(** Decimal rendering of a non-negative integer, as in [`${width}`]; the
    integers rendered are image dimensions ([unsigned long]), far below
    the 1e21 from which JavaScript prints an exponent. *)
Definition string_of_N (n : N) : string := NilEmpty.string_of_uint (N.to_uint n).

(** [s.split(sep)] for a one-character separator. *)
Fixpoint split (sep : ascii) (s : string) : list string :=
  match s with
  | EmptyString => [EmptyString]
  | String c rest =>
      if Ascii.eqb c sep then EmptyString :: split sep rest
      else match split sep rest with
           | [] => [String c EmptyString]
           | x :: xs => String c x :: xs
           end
  end.

(** [s.replace(a, b)] for one-character [a] and [b]: the first occurrence. *)
Fixpoint replace (a b : ascii) (s : string) : string :=
  match s with
  | EmptyString => EmptyString
  | String c rest => if Ascii.eqb c a then String b rest else String c (replace a b rest)
  end.

(** [s.trim()].  A string is held as the bytes of its UTF-8 encoding, as
    the literals of this file are.  The characters [trim] removes are
    ECMAScript's WhiteSpace and LineTerminator: U+0009 to U+000D and U+0020,
    one byte each, and U+00A0, U+1680, U+2000 to U+200A, U+2028, U+2029,
    U+202F, U+205F, U+3000 and U+FEFF, two or three bytes each. *)
Definition is_space (c : ascii) : bool :=
  let n := nat_of_ascii c in
  ((9 <=? n) && (n <=? 13) || (n =? 32))%nat.

(** U+00A0 is [C2 A0]. *)
Definition is_space2 (c1 c2 : ascii) : bool :=
  Ascii.eqb c1 "194"%char && Ascii.eqb c2 "160"%char.

(** U+1680 is [E1 9A 80]; U+2000 to U+200A are [E2 80 80] to [E2 80 8A];
    U+2028, U+2029 and U+202F are [E2 80 A8], [E2 80 A9] and [E2 80 AF];
    U+205F is [E2 81 9F]; U+3000 is [E3 80 80]; U+FEFF is [EF BB BF]. *)
Definition is_space3 (c1 c2 c3 : ascii) : bool :=
  let n3 := nat_of_ascii c3 in
  Ascii.eqb c1 "225"%char && Ascii.eqb c2 "154"%char && Ascii.eqb c3 "128"%char
  || Ascii.eqb c1 "226"%char && Ascii.eqb c2 "128"%char
     && ((128 <=? n3) && (n3 <=? 138) || (n3 =? 168) || (n3 =? 169) || (n3 =? 175))%nat
  || Ascii.eqb c1 "226"%char && Ascii.eqb c2 "129"%char && Ascii.eqb c3 "159"%char
  || Ascii.eqb c1 "227"%char && Ascii.eqb c2 "128"%char && Ascii.eqb c3 "128"%char
  || Ascii.eqb c1 "239"%char && Ascii.eqb c2 "187"%char && Ascii.eqb c3 "191"%char.

Fixpoint trimStart (s : string) : string :=
  match s with
  | EmptyString => EmptyString
  | String c1 rest1 =>
      if is_space c1 then trimStart rest1
      else
        match rest1 with
        | EmptyString => s
        | String c2 rest2 =>
            if is_space2 c1 c2 then trimStart rest2
            else
              match rest2 with
              | EmptyString => s
              | String c3 rest3 => if is_space3 c1 c2 c3 then trimStart rest3 else s
              end
        end
  end.

(** Nothing but white space. *)
Definition blank (s : string) : bool :=
  match trimStart s with
  | EmptyString => true
  | String _ _ => false
  end.

(** The longest prefix after which only white space follows. *)
Fixpoint trimEnd (s : string) : string :=
  match s with
  | EmptyString => EmptyString
  | String c rest => if blank s then EmptyString else String c (trimEnd rest)
  end.

Definition trim (s : string) : string := trimEnd (trimStart s).

(** [list.includes(x)] on strings. *)
Definition includes (l : list string) (x : string) : bool :=
  existsb (String.eqb x) l.

(** A thrown value: an [Error] instance with its message, or anything else
    (for instance the event an image element passes to [onerror]). *)
Inductive Thrown : Type :=
| ErrorObject (message : string)
| OtherValue.

(** How an awaited operation settles. *)
Inductive Outcome (A : Type) : Type :=
| Returns (a : A)
| Throws (e : Thrown).
Arguments Returns {A} a.
Arguments Throws {A} e.

(* ===================================================================== *)
(** * Files, prompt parts and the generation service *)
(* ===================================================================== *)

(** A [File]: its name, its MIME type, and what [FileReader.readAsDataURL]
    yields for it ([reader.result as string]). *)
Record File : Type := {
  fileName : string;
  fileType : string;
  fileDataURL : string
}.

Record Blob : Type := {
  blobType : string;
  blobDataURL : string
}.

(** [new File([blob], name, { type })]. *)
Definition newFile (blob : Blob) (name type : string) : File :=
  {| fileName := name; fileType := type; fileDataURL := blobDataURL blob |}.

(** The SDK's [Part]: every field is optional. *)
Record InlineData : Type := {
  data : option string;
  mimeType : option string
}.

Record Part : Type := {
  text : option string;
  inlineData : option InlineData
}.

Definition textPart (s : string) : Part := {| text := Some s; inlineData := None |}.
Definition inlinePart (d : InlineData) : Part := {| text := None; inlineData := Some d |}.

Inductive Modality : Type := IMAGE | TEXT.

Record GenerateContentParameters : Type := {
  model : string;
  contents : list Part;
  config : option (list Modality)
}.

Record Content : Type := { parts : option (list Part) }.
Record Candidate : Type := { content : option Content }.

(** [response_text] is the SDK's [response.text] accessor. *)
Record GenerateContentResponse : Type := {
  candidates : option (list Candidate);
  response_text : option string
}.

(** The service client: [ai.models.generateContent]. *)
Record GoogleGenAI : Type := {
  generateContent : GenerateContentParameters -> Outcome GenerateContentResponse
}.

(** The browser facilities the handlers await. *)
Record Browser : Type := {
  (** [new Image()] with [src] set: [onload] with the natural width and
      height, or [onerror]. *)
  loadImage : string -> Outcome (N * N);
  (** [fetch(url)] followed by [response.blob()]. *)
  fetchBlob : string -> Outcome Blob;
  (** The message of the [TypeError] raised by a property access on
      [undefined]; the text is the engine's. *)
  typeErrorMessage : string -> string;
  (** Whether [canvas.getContext('2d')] returns a context. *)
  hasContext2d : bool
}.

(** What a handler does to the outside world, in order. *)
Inductive Event : Type :=
| ConsoleError (label : option string) (err : Thrown)
| ReadAsDataURL (file : File)
| LoadImage (src : string)
| Fetch (url : string)
| GenerateContent (request : GenerateContentParameters)
| DrawImage (source : Rect float)
| Download (name : string).

(* ===================================================================== *)
(** * Process-wide state: the client and the configuration error *)
(* ===================================================================== *)

Record Globals : Type := {
  ai : option GoogleGenAI;
  apiKeyError : option string
}.

Definition configurationError : string :=
  "The AI Alchemist is not configured correctly. Please contact the administrator to resolve this issue.".

(** Module initialisation: [new GoogleGenAI({ apiKey })] inside [try]. *)
Definition initialize (newGoogleGenAI : option string -> Outcome GoogleGenAI)
           (API_KEY : option string) : Globals * list Event :=
  match newGoogleGenAI API_KEY with
  | Returns client => ({| ai := Some client; apiKeyError := None |}, [])
  | Throws e =>
      ({| ai := None; apiKeyError := Some configurationError |},
       [ConsoleError (Some "API Key is missing or invalid. The application will not be able to generate images. Please ensure the API_KEY environment variable is set correctly for your deployment environment.") e])
  end.

(* ===================================================================== *)
(** * System prompts *)
(* ===================================================================== *)

Definition MODEL_SHOT_SYSTEM_PROMPT : string :=
  "
## ROLE & MISSION ##
You are a world-class AI Creative Director known as " ++ dq ++ "The Alchemist." ++ dq ++ " Your purpose is to generate stunning lookbook photographs by interpreting creative direction from multiple sources.

## ZERO-TOLERANCE POLICY ON CONTENT COPYING ##
THIS IS THE MOST IMPORTANT RULE. FAILURE TO FOLLOW IT IS A COMPLETE FAILURE OF THE TASK.

- The image provided as 'AESTHETIC INSPIRATION PHOTO' is for STYLE, MOOD, AND LIGHTING ONLY.
- It is ABSOLUTELY PROHIBITED to copy, replicate, transfer, or be inspired by any PEOPLE, FACES, or specific identifiable OBJECTS from the 'AESTHETIC INSPIRATION PHOTO'.
- The generated human model MUST BE A COMPLETELY NEW, UNIQUE, AND ARTIFICIALLY GENERATED PERSON. They must not look like the person in the inspiration photo. Any resemblance is a failure.

## HIERARCHY OF CREATIVE DIRECTION ##
You will be given multiple inputs. You MUST process them in this order of priority:

1.  **HERO ITEM PHOTO:** This is the product to be featured. It is sacred.
    -   **Hero Item Integrity:** You MUST NOT alter the item's fundamental shape, type, or design. A t-shirt must remain a t-shirt. Preserve its original form factor perfectly.
    -   The item MUST be extracted perfectly and placed realistically on the generated model.
    -   The lighting on the Hero Item MUST match the final scene's lighting.

2.  **CREATIVE BRIEF (Text Prompt):** If provided, this text dictates the **subject and setting** of the scene (e.g., " ++ dq ++ "a model in a moody, dark library" ++ dq ++ "). This overrides any subject/setting from the inspiration photo.

3.  **AESTHETIC INSPIRATION PHOTO:** Use this **ONLY** as an 'Aesthetic Filter' for the final image's *feel*.
    -   **IF a Creative Brief exists:** Apply the inspiration photo's color palette, lighting, mood, and photographic genre to the scene described in the text prompt. For example, if the inspiration is a sunny beach, but the prompt is " ++ dq ++ "dark library," ++ dq ++ " you MUST generate a dark library that has the *warm light quality and color grading* of the beach photo. **DO NOT generate a beach.**
    -   **IF NO Creative Brief exists:** You may use the general setting from the inspiration photo (e.g., a forest, a city street) but you still MUST NOT copy any people, faces, or specific objects from it.

## FINAL OUTPUT ##
-   The output must be a single, hyper-realistic, professional-quality photograph.
-   The generated model should have a consistent and realistic appearance, like a professional fashion model.
".

Definition PRODUCT_SHOT_SYSTEM_PROMPT : string :=
  "
## ROLE & MISSION ##
You are a world-class AI Creative Director known as " ++ dq ++ "The Alchemist." ++ dq ++ " Your purpose is to generate stunning product photographs.

## CORE DIRECTIVE: PRODUCT SHOT ##
- You MUST generate a 'product shot' or 'still life' photograph.
- CRITICAL: DO NOT generate any human model, person, hand, or any body part. The image must be completely devoid of people.
- The 'HERO ITEM PHOTO' must be the sole focus, placed in an elegant and appropriate setting that complements its style.

## HIERARCHY OF CREATIVE DIRECTION ##
1.  **HERO ITEM PHOTO:** This is the product to be featured. It is sacred. Preserve its original form factor perfectly. The lighting on the Hero Item MUST match the final scene's lighting.
2.  **AESTHETIC INSPIRATION PHOTO:** Use this ONLY as an 'Aesthetic Filter' for the final image's feel (color palette, lighting, mood, photographic genre). DO NOT copy any objects from it.
3.  **CREATIVE BRIEF (Text Prompt):** If provided, this text dictates the setting for the product (e.g., " ++ dq ++ "placed on a rustic wooden table" ++ dq ++ " or " ++ dq ++ "on a silk cloth" ++ dq ++ ").

## FINAL OUTPUT ##
- The output must be a single, hyper-realistic, professional-quality photograph of the product.
".

(** The refinement instruction: the active system prompt, the editing
    rules, and the prior result's dimensions written out. *)
Definition editingHead : string :=
  "

## EDITING MODE: AESTHETIC TRANSFORMATION ##
You are now in editing mode. Your task is to apply a NEW creative direction to a previously generated image.

**HIERARCHY OF EDITS (MOST IMPORTANT FIRST):**

1.  **AESTHETIC INSPIRATION PHOTO:** THIS IS YOUR #1 PRIORITY. If an 'AESTHETIC INSPIRATION PHOTO' is provided, you MUST completely transform the 'IMAGE TO EDIT' to match its style, mood, color palette, lighting, and even the general setting. This overrides the original image's aesthetic entirely. (This rule is ignored if you are in Product Shot mode, where the setting is guided by the Creative Brief).

2.  **CREATIVE BRIEF (Text):** This text dictates the scene and action. It works with the 'AESTHETIC INSPIRATION PHOTO' to define the new scene.

3.  **PRESERVATION OF IDENTITY:** While transforming the aesthetic, you MUST preserve the face, body, and identity of the model from the 'IMAGE TO EDIT'. DO NOT CHANGE THE PERSON. (This rule is ignored if you are in Product Shot mode).

4.  **HERO ITEM INTEGRITY:** The 'HERO ITEM' must remain accurate, using the 'HERO ITEM REFERENCE' as a guide.

5.  **ASPECT RATIO LOCK:** The output image MUST EXACTLY MATCH the aspect ratio of the 'IMAGE TO EDIT' (original dimensions were ".

Definition editingTail : string :=
  "px).

**IGNORE THE ORIGINAL AESTHETIC:**
You are not making a 'subtle improvement'. You are performing a complete aesthetic overhaul based on the new inputs. The original 'IMAGE TO EDIT' is just a canvas for the model's identity and the hero item.
".

Definition editingPrompt (activeSystemPrompt : string) (width height : N) : string :=
  activeSystemPrompt ++ editingHead
    ++ string_of_N width ++ "x" ++ string_of_N height ++ editingTail.

(* ===================================================================== *)
(** * Application state *)
(* ===================================================================== *)

(** ['model' | 'product']. *)
Inductive ShotType : Type := ShotModel | ShotProduct.

Definition shotType_eqb (a b : ShotType) : bool :=
  match a, b with
  | ShotModel, ShotModel | ShotProduct, ShotProduct => true
  | _, _ => false
  end.

(** The [useState] cells of [App]. *)
Record AppState : Type := {
  heroItem : option File;
  inspirationPhoto : option File;
  stylePrompt : string;
  generatedImage : option string;
  isLoading : bool;
  error : option string;
  itemCategory : option string;
  isIdentifying : bool;
  isDownloadMenuOpen : bool;
  shotType : ShotType
}.

Definition with_generatedImage (v : option string) (s : AppState) : AppState :=
  {| heroItem := heroItem s; inspirationPhoto := inspirationPhoto s;
     stylePrompt := stylePrompt s; generatedImage := v;
     isLoading := isLoading s; error := error s;
     itemCategory := itemCategory s; isIdentifying := isIdentifying s;
     isDownloadMenuOpen := isDownloadMenuOpen s; shotType := shotType s |}.

Definition with_isLoading (v : bool) (s : AppState) : AppState :=
  {| heroItem := heroItem s; inspirationPhoto := inspirationPhoto s;
     stylePrompt := stylePrompt s; generatedImage := generatedImage s;
     isLoading := v; error := error s;
     itemCategory := itemCategory s; isIdentifying := isIdentifying s;
     isDownloadMenuOpen := isDownloadMenuOpen s; shotType := shotType s |}.

Definition with_error (v : option string) (s : AppState) : AppState :=
  {| heroItem := heroItem s; inspirationPhoto := inspirationPhoto s;
     stylePrompt := stylePrompt s; generatedImage := generatedImage s;
     isLoading := isLoading s; error := v;
     itemCategory := itemCategory s; isIdentifying := isIdentifying s;
     isDownloadMenuOpen := isDownloadMenuOpen s; shotType := shotType s |}.

Definition with_itemCategory (v : option string) (s : AppState) : AppState :=
  {| heroItem := heroItem s; inspirationPhoto := inspirationPhoto s;
     stylePrompt := stylePrompt s; generatedImage := generatedImage s;
     isLoading := isLoading s; error := error s;
     itemCategory := v; isIdentifying := isIdentifying s;
     isDownloadMenuOpen := isDownloadMenuOpen s; shotType := shotType s |}.

Definition with_isIdentifying (v : bool) (s : AppState) : AppState :=
  {| heroItem := heroItem s; inspirationPhoto := inspirationPhoto s;
     stylePrompt := stylePrompt s; generatedImage := generatedImage s;
     isLoading := isLoading s; error := error s;
     itemCategory := itemCategory s; isIdentifying := v;
     isDownloadMenuOpen := isDownloadMenuOpen s; shotType := shotType s |}.

Definition with_isDownloadMenuOpen (v : bool) (s : AppState) : AppState :=
  {| heroItem := heroItem s; inspirationPhoto := inspirationPhoto s;
     stylePrompt := stylePrompt s; generatedImage := generatedImage s;
     isLoading := isLoading s; error := error s;
     itemCategory := itemCategory s; isIdentifying := isIdentifying s;
     isDownloadMenuOpen := v; shotType := shotType s |}.

Definition with_shotType (v : ShotType) (s : AppState) : AppState :=
  {| heroItem := heroItem s; inspirationPhoto := inspirationPhoto s;
     stylePrompt := stylePrompt s; generatedImage := generatedImage s;
     isLoading := isLoading s; error := error s;
     itemCategory := itemCategory s; isIdentifying := isIdentifying s;
     isDownloadMenuOpen := isDownloadMenuOpen s; shotType := v |}.

(* ===================================================================== *)
(** * Awaited operations and handlers *)
(* ===================================================================== *)

(** An asynchronous computation that touches no state cell: how it settles
    and what it did. *)
Definition IO (A : Type) : Type := (Outcome A * list Event)%type.

Definition io_ret {A : Type} (a : A) : IO A := (Returns a, []).

Definition io_bind {A B : Type} (m : IO A) (k : A -> IO B) : IO B :=
  match m with
  | (Returns a, t1) => let (r, t2) := k a in (r, (t1 ++ t2)%list)
  | (Throws e, t1) => (Throws e, t1)
  end.

Definition io_throw {A : Type} (e : Thrown) : IO A := (Throws e, []).
Definition emit (ev : Event) : IO unit := (Returns tt, [ev]).
Definition await {A : Type} (o : Outcome A) : IO A := (o, []).

(** A handler: it runs from the current state cells to an outcome, the
    updated cells and the events it caused.  A handler reads the cells from
    the render it was created in (its argument) and writes through the
    setters. *)
Definition M (A : Type) : Type := AppState -> (Outcome A * AppState * list Event)%type.

Definition ret {A : Type} (a : A) : M A := fun s => (Returns a, s, []).

Definition bind {A B : Type} (m : M A) (k : A -> M B) : M B :=
  fun s =>
    match m s with
    | (Returns a, s1, t1) =>
        match k a s1 with (r, s2, t2) => (r, s2, (t1 ++ t2)%list) end
    | (Throws e, s1, t1) => (Throws e, s1, t1)
    end.

Definition throw {A : Type} (e : Thrown) : M A := fun s => (Throws e, s, []).
Definition liftIO {A : Type} (io : IO A) : M A := fun s => (fst io, s, snd io).
Definition update (f : AppState -> AppState) : M unit := fun s => (Returns tt, f s, []).

(** [try { body } catch (err) { handler } finally { fin }]. *)
Definition try_catch_finally {A : Type}
           (body : M A) (handler : Thrown -> M A) (fin : M unit) : M A :=
  fun s =>
    let '(r1, s1, t1) :=
      match body s with
      | (Throws e, s', t') =>
          match handler e s' with (r, s'', t'') => (r, s'', (t' ++ t'')%list) end
      | settled => settled
      end in
    match fin s1 with
    | (Returns _, s2, t2) => (r1, s2, (t1 ++ t2)%list)
    | (Throws e, s2, t2) => (Throws e, s2, (t1 ++ t2)%list)
    end.

Declare Scope io_scope.
Delimit Scope io_scope with io.
Notation "x <- c ;; k" := (io_bind c (fun x => k))
  (at level 61, c at next level, right associativity) : io_scope.
Notation "c ;; k" := (io_bind c (fun _ => k))
  (at level 61, right associativity) : io_scope.

Declare Scope handler_scope.
Delimit Scope handler_scope with handler.
Notation "x <- c ;; k" := (bind c (fun x => k))
  (at level 61, c at next level, right associativity) : handler_scope.
Notation "c ;; k" := (bind c (fun _ => k))
  (at level 61, right associativity) : handler_scope.

Definition setGeneratedImage (v : option string) : M unit := update (with_generatedImage v).
Definition setIsLoading (v : bool) : M unit := update (with_isLoading v).
Definition setError (v : option string) : M unit := update (with_error v).
Definition setItemCategory (v : option string) : M unit := update (with_itemCategory v).
Definition setIsIdentifying (v : bool) : M unit := update (with_isIdentifying v).
Definition setDownloadMenuOpen (v : bool) : M unit := update (with_isDownloadMenuOpen v).
Definition setShotType (v : ShotType) : M unit := update (with_shotType v).

(** Truthiness of an optional object. *)
Definition present {A : Type} (v : option A) : bool :=
  match v with
  | Some _ => true
  | None => false
  end.

(** [push]: the array after [parts.push(part)]. *)
Definition push (parts : list Part) (part : Part) : list Part := (parts ++ [part])%list.

(** [err instanceof Error ? err.message : "An unknown error occurred."] *)
Definition errorMessage (err : Thrown) : string :=
  match err with
  | ErrorObject message => message
  | OtherValue => "An unknown error occurred."
  end.

Definition accessoryCategories : list string :=
  ["Watch"; "Bracelet"; "Ring"; "Necklace"; "Earrings"; "Handbag"].

Definition noImageError : string :=
  "The Alchemist couldn't generate an image. Try refining your inputs.".

Definition classificationPrompt : string :=
  "Analyze the image and identify the primary clothing or accessory item. Respond with ONLY one of the following categories that best fits the item: T-Shirt, Top, Jacket, Pants, Dress, Watch, Bracelet, Ring, Necklace, Earrings, Hat, Shoes, Handbag. If it doesn't fit, respond with 'Other'.".

(** The headings pushed before each input. *)
Definition headingRefinement : string :=
  nl ++ nl ++ "---" ++ nl ++ nl ++ "**CREATIVE DIRECTION FOR REFINEMENT**".
Definition headingHeroReference : string := nl ++ nl ++ "**INPUT: HERO ITEM REFERENCE**".
Definition headingHeroPhoto : string :=
  nl ++ nl ++ "---" ++ nl ++ nl ++ "**INPUT: HERO ITEM PHOTO**".
Definition headingInspiration : string := nl ++ nl ++ "**INPUT: AESTHETIC INSPIRATION PHOTO**".
Definition headingImageToBeEdited : string :=
  nl ++ nl ++ "---" ++ nl ++ nl ++ "**IMAGE TO BE EDITED**".
Definition headingImageToEdit : string := nl ++ nl ++ "**INPUT: IMAGE TO EDIT**".

(** [`\n\n**INPUT: CREATIVE BRIEF**\n"${brief}"`] *)
Definition creativeBrief (brief : string) : string :=
  nl ++ nl ++ "**INPUT: CREATIVE BRIEF**" ++ nl ++ dq ++ brief ++ dq.

Definition defaultRefinePrompt : string := "Make a subtle improvement to the overall aesthetic.".

Definition actionRefine : string :=
  nl ++ nl ++ "---" ++ nl ++ nl
     ++ "**ACTION: Generate the refined image now based on the new creative direction and the image to be edited.**".

Definition actionGenerate : string :=
  nl ++ nl ++ "---" ++ nl ++ nl
     ++ "**ACTION: Generate the final image now based on all instructions and inputs provided.**".

(** The part [fileToGenerativePart] resolves to when the read completes:
    the payload is element 1 of the data URL split at its commas (what
    follows the first comma).  A [File] carries what its read yields; a
    read that fails, after which the promise is never resolved, is the
    subject of [Reading] below. *)
Definition generativePart (file : File) : Part :=
  inlinePart {| data := nth_error (split "," (fileDataURL file)) 1;
                mimeType := Some (fileType file) |}.

Definition fileToGenerativePart (file : File) : IO Part :=
  (emit (ReadAsDataURL file) ;; io_ret (generativePart file))%io.

Definition callGenerateContent (client : GoogleGenAI)
           (request : GenerateContentParameters) : IO GenerateContentResponse :=
  (emit (GenerateContent request) ;; await (generateContent client request))%io.

Section App.

Variable browser : Browser.
Variable globals : Globals.

Definition getImageDimensions (src : string) : IO (N * N) :=
  (emit (LoadImage src) ;; await (loadImage browser src))%io.

Definition fetchAsBlob (url : string) : IO Blob :=
  (emit (Fetch url) ;; await (fetchBlob browser url))%io.

(** [shotType === 'product' && itemCategory && accessoryCategories.includes(itemCategory)] *)
Definition isProductShot (st : AppState) : bool :=
  shotType_eqb (shotType st) ShotProduct
  && truthy (itemCategory st)
  && match itemCategory st with
     | Some category => includes accessoryCategories category
     | None => false
     end.

Definition activeSystemPrompt (st : AppState) : string :=
  if isProductShot st then PRODUCT_SHOT_SYSTEM_PROMPT else MODEL_SHOT_SYSTEM_PROMPT.

Definition defaultPrompt (st : AppState) : string :=
  if isProductShot st
  then "A suitable product shot scene."
  else "A suitable fashion lookbook scene.".

(** The [if (inspirationPhoto) { ... }] block of either branch. *)
Definition pushInspiration (st : AppState) (parts : list Part) : IO (list Part) :=
  match inspirationPhoto st with
  | Some photo =>
      (let parts := push parts (textPart headingInspiration) in
       part <- fileToGenerativePart photo ;;
       io_ret (push parts part))%io
  | None => io_ret parts
  end.

(** The body of [try] in [handleGenerate] up to the service call: the
    [parts] array of the request. *)
Definition composeParts (st : AppState) (hero : File) : IO (list Part) :=
  let parts : list Part := [] in
  match generatedImage st with
  | Some (String _ _ as generated) =>
      (dimensions <- getImageDimensions generated ;;
       let width := fst dimensions in
       let height := snd dimensions in
       blob <- fetchAsBlob generated ;;
       let previousLookbookFile := newFile blob "previous_lookbook.png" (blobType blob) in
       let parts := push parts (textPart (editingPrompt (activeSystemPrompt st) width height)) in
       let parts := push parts (textPart headingRefinement) in
       let parts := push parts (textPart headingHeroReference) in
       heroPart <- fileToGenerativePart hero ;;
       let parts := push parts heroPart in
       parts <- pushInspiration st parts ;;
       let parts :=
         push parts (textPart (creativeBrief (or_else (stylePrompt st) defaultRefinePrompt))) in
       let parts := push parts (textPart headingImageToBeEdited) in
       let parts := push parts (textPart headingImageToEdit) in
       previousPart <- fileToGenerativePart previousLookbookFile ;;
       let parts := push parts previousPart in
       io_ret (push parts (textPart actionRefine)))%io
  | _ =>
      (let parts := push parts (textPart (activeSystemPrompt st)) in
       let parts := push parts (textPart headingHeroPhoto) in
       heroPart <- fileToGenerativePart hero ;;
       let parts := push parts heroPart in
       parts <- pushInspiration st parts ;;
       let parts :=
         push parts (textPart (creativeBrief (or_else (stylePrompt st) (defaultPrompt st)))) in
       io_ret (push parts (textPart actionGenerate)))%io
  end.

Definition generationRequest (parts : list Part) : GenerateContentParameters :=
  {| model := "gemini-2.5-flash-image-preview";
     contents := parts;
     config := Some [IMAGE; TEXT] |}.

(** [response.candidates?.[0]?.content.parts.find(part => part.inlineData)] *)
Definition findImagePart (response : GenerateContentResponse) : IO (option Part) :=
  match candidates response with
  | None => io_ret None
  | Some cs =>
      match nth_error cs 0 with
      | None => io_ret None
      | Some candidate =>
          match content candidate with
          | None => io_throw (ErrorObject (typeErrorMessage browser "parts"))
          | Some c =>
              match parts c with
              | None => io_throw (ErrorObject (typeErrorMessage browser "find"))
              | Some ps =>
                  io_ret (find (fun part => present (inlineData part)) ps)
              end
          end
      end
  end.

Definition imageUrlOf (image : InlineData) : string :=
  "data:" ++ interpolate (mimeType image) ++ ";base64," ++ interpolate (data image).

Definition handleGenerate (st : AppState) : M unit :=
  match ai globals with
  | None =>
      (setError (apiKeyError globals) ;;
       setIsLoading false)%handler
  | Some client =>
      match heroItem st with
      | None => ret tt
      | Some hero =>
          (setIsLoading true ;;
           setError None ;;
           try_catch_finally
             (parts <- liftIO (composeParts st hero) ;;
              response <- liftIO (callGenerateContent client (generationRequest parts)) ;;
              imagePart <- liftIO (findImagePart response) ;;
              match imagePart with
              | Some {| inlineData := Some image |} =>
                  setGeneratedImage (Some (imageUrlOf image))
              | _ => throw (ErrorObject noImageError)
              end)
             (fun err =>
                liftIO (emit (ConsoleError None err)) ;;
                setError (Some (errorMessage err)))
             (setIsLoading false))%handler
      end
  end.

Definition handleStartOver : M unit :=
  (setGeneratedImage None ;; setError None)%handler.

Definition classificationRequest (imagePart : Part) : GenerateContentParameters :=
  {| model := "gemini-2.5-flash";
     contents := [textPart classificationPrompt; imagePart];
     config := None |}.

(** [identifyItemCategory], run by the effect on [heroItem]. *)
Definition identifyItemCategory (file : File) : M unit :=
  match ai globals with
  | None => setError (apiKeyError globals)
  | Some client =>
      (setIsIdentifying true ;;
       setItemCategory None ;;
       setShotType ShotModel ;;
       try_catch_finally
         (imagePart <- liftIO (fileToGenerativePart file) ;;
          response <- liftIO (callGenerateContent client (classificationRequest imagePart)) ;;
          category <- match response_text response with
                      | Some t => ret (trim t)
                      | None => throw (ErrorObject (typeErrorMessage browser "trim"))
                      end ;;
          setItemCategory (Some category))
         (fun err =>
            liftIO (emit (ConsoleError (Some "Error identifying item:") err)) ;;
            setItemCategory (Some "Other"))
         (setIsIdentifying false))%handler
  end.

Definition heroItemEffect (st : AppState) : M unit :=
  match heroItem st with
  | Some file => identifyItemCategory file
  | None => setItemCategory None
  end.

Definition aspectString (aspect : Aspect) : string :=
  match aspect with
  | A1x1 => "1:1"
  | A9x16 => "9:16"
  | A16x9 => "16:9"
  end.

(** [handleDownload]: the image starts loading and the menu closes; then
    [image.onload] crops, draws and downloads, or [image.onerror] sets the
    error. *)
Definition handleDownload (aspect : Aspect) (st : AppState) : M unit :=
  match generatedImage st with
  | Some (String _ _ as generated) =>
      (liftIO (emit (LoadImage generated)) ;;
       setDownloadMenuOpen false ;;
       match loadImage browser generated with
       | Returns (naturalWidth, naturalHeight) =>
           if hasContext2d browser then
             liftIO (emit (DrawImage (cropRect (H:=Binary64.float_number)
                                               naturalWidth naturalHeight aspect)) ;;
                     emit (Download ("lookbook-" ++ replace ":" "x" (aspectString aspect)
                                                 ++ ".png")))%io
           else ret tt
       | Throws _ =>
           setError (Some "Could not download image due to an error loading it.")
       end)%handler
  | _ => ret tt
  end.

(** What the output panel renders:
    [generatedImage ? <img> : error ? <error message> : <placeholder>]. *)
Inductive OutputPanel : Type :=
| ShowImage (src : string)
| ShowError (message : string)
| ShowPlaceholder.

Definition outputPanel (st : AppState) : OutputPanel :=
  match generatedImage st, error st with
  | Some (String _ _ as src), _ => ShowImage src
  | _, Some (String _ _ as message) => ShowError message
  | _, _ => ShowPlaceholder
  end.

End App.


(* ===================================================================== *)
(** * Reading the crop: number systems and exact values *)
(* ===================================================================== *)

Module CropSpec.
Import Exact Binary64.
Local Open Scope Q_scope.

(** JavaScript's [===] on binary64 numbers. *)
Definition float_eq (x y : float) : Prop := PrimFloat.eqb x y = true.

(** What the crop's case analysis needs of a number system: [<] is
    asymmetric, and equal numbers are not ordered. *)
Class OrderedJsNumber (T : Type) {num : JsNumber T} (eqv : T -> T -> Prop) : Prop := {
  num_lt_asym : forall x y : T, (x < y)%js = true -> (y < x)%js = false;
  num_eq_not_lt :
    forall x y : T, eqv x y -> (x < y)%js = false /\ (y < x)%js = false
}.

Definition QofN (n : N) : Q := inject_Z (Z.of_N n).

(** The target aspect as a rational. *)
Definition targetQ (aspect : Aspect) : Q :=
  match aspect with
  | A16x9 => QofN 16 / QofN 9
  | A9x16 => QofN 9 / QofN 16
  | A1x1 => QofN 1
  end.

Definition same_rect (r1 r2 : Rect xq) : Prop :=
  same (sx r1) (sx r2) /\ same (sy r1) (sy r2) /\
  same (sWidth r1) (sWidth r2) /\ same (sHeight r1) (sHeight r2).

End CropSpec.

(* ===================================================================== *)
(** * Reading a request: image segments, their headings, the panel *)
(* ===================================================================== *)

(** What an image segment of a request is for, told by the heading pushed
    just before it. *)
Inductive Role : Type := HeroItem | Inspiration | PriorResult.

Definition role_eqb (a b : Role) : bool :=
  match a, b with
  | HeroItem, HeroItem | Inspiration, Inspiration | PriorResult, PriorResult => true
  | _, _ => false
  end.

Definition roleOfHeading (heading : option string) : option Role :=
  match heading with
  | None => None
  | Some h =>
      if String.eqb h headingHeroPhoto || String.eqb h headingHeroReference
      then Some HeroItem
      else if String.eqb h headingInspiration then Some Inspiration
      else if String.eqb h headingImageToEdit then Some PriorResult
      else None
  end.

(** The role of each image segment, in order; [heading] is the text of the
    segment before the current one. *)
Fixpoint imageRoles (heading : option string) (ps : list Part) : list (option Role) :=
  match ps with
  | [] => []
  | p :: rest =>
      match inlineData p with
      | Some _ => roleOfHeading heading :: imageRoles (text p) rest
      | None => imageRoles (text p) rest
      end
  end.

Definition hasRole (r : Role) (x : option Role) : bool :=
  match x with
  | Some r' => role_eqb r r'
  | None => false
  end.

Definition countRole (r : Role) (ps : list Part) : nat :=
  List.length (filter (hasRole r) (imageRoles None ps)).

Definition imageCount (ps : list Part) : nat :=
  List.length (filter (fun p => present (inlineData p)) ps).

(** The fixed heading segments, and a request without them. *)
Definition headings : list string :=
  [headingRefinement; headingHeroReference; headingHeroPhoto;
   headingInspiration; headingImageToBeEdited; headingImageToEdit].

Definition isHeading (p : Part) : bool :=
  match text p with
  | Some t => includes headings t
  | None => false
  end.

Definition withoutHeadings (ps : list Part) : list Part :=
  filter (fun p => negb (isHeading p)) ps.

(** The requests a trace submits to the service. *)
Definition requestsOf (tr : list Event) : list GenerateContentParameters :=
  flat_map (fun ev => match ev with GenerateContent q => [q] | _ => [] end) tr.

(** Every image segment found anywhere in a response. *)
Definition imagesOfParts (ps : list Part) : list InlineData :=
  flat_map (fun p => match inlineData p with Some d => [d] | None => [] end) ps.

Definition imagesOfCandidate (c : Candidate) : list InlineData :=
  match content c with
  | Some {| parts := Some ps |} => imagesOfParts ps
  | _ => []
  end.

Definition imageSegments (response : GenerateContentResponse) : list InlineData :=
  match candidates response with
  | Some cs => flat_map imagesOfCandidate cs
  | None => []
  end.


(* ===================================================================== *)
(** * The two part lists and the states of a run *)
(* ===================================================================== *)

(** The inspiration block: the segments it appends and the file it reads. *)
Definition inspirationSegments (st : AppState) : list Part :=
match inspirationPhoto st with
| Some photo => [textPart headingInspiration; generativePart photo]
| None => []
end.

Definition inspirationReads (st : AppState) : list Event :=
match inspirationPhoto st with
| Some photo => [ReadAsDataURL photo]
| None => []
end.

Definition freshParts (st : AppState) (hero : File) : list Part :=
([textPart (activeSystemPrompt st); textPart headingHeroPhoto; generativePart hero]
   ++ inspirationSegments st
   ++ [textPart (creativeBrief (or_else (stylePrompt st) (defaultPrompt st)));
       textPart actionGenerate])%list.

Definition refinementParts (st : AppState) (hero : File)
         (width height : N) (previous : File) : list Part :=
([textPart (editingPrompt (activeSystemPrompt st) width height);
  textPart headingRefinement; textPart headingHeroReference; generativePart hero]
   ++ inspirationSegments st
   ++ [textPart (creativeBrief (or_else (stylePrompt st) defaultRefinePrompt));
       textPart headingImageToBeEdited; textPart headingImageToEdit;
       generativePart previous; textPart actionRefine])%list.

(** The states [handleGenerate] passes through. *)
Definition started (s : AppState) : AppState :=
with_error None (with_isLoading true s).

Definition failed (e : Thrown) (s : AppState) : AppState :=
with_isLoading false (with_error (Some (errorMessage e)) (started s)).

Definition succeeded (image : InlineData) (s : AppState) : AppState :=
with_isLoading false (with_generatedImage (Some (imageUrlOf image)) (started s)).


(* ===================================================================== *)
(** * Concrete runs *)
(* ===================================================================== *)

Definition sampleHero : File :=
  {| fileName := "dress.png"; fileType := "image/png";
     fileDataURL := "data:image/png;base64,aGVybw==" |}.

Definition sampleInspiration : File :=
  {| fileName := "mood.jpg"; fileType := "image/jpeg";
     fileDataURL := "data:image/jpeg;base64,bW9vZA==" |}.

Definition priorUrl : string := "data:image/png;base64,cHJpb3I=".

Definition sampleBlob : Blob := {| blobType := "image/png"; blobDataURL := priorUrl |}.

Definition engineTypeError (key : string) : string :=
  "Cannot read properties of undefined (reading '" ++ key ++ "')".

(** A browser that decodes every image as 1024 x 768. *)
Definition sampleBrowser : Browser :=
  {| loadImage := fun _ => Returns (1024%N, 768%N);
     fetchBlob := fun _ => Returns sampleBlob;
     typeErrorMessage := engineTypeError;
     hasContext2d := true |}.

(** A browser in which decoding an image fails ([onerror] passes an event). *)
Definition brokenImageBrowser : Browser :=
  {| loadImage := fun _ => Throws OtherValue;
     fetchBlob := fun _ => Returns sampleBlob;
     typeErrorMessage := engineTypeError;
     hasContext2d := true |}.

Definition imageResponse : GenerateContentResponse :=
  {| candidates :=
       Some [{| content :=
                  Some {| parts :=
                            Some [textPart "Here is your lookbook.";
                                  inlinePart {| data := Some "bmV3"; mimeType := Some "image/png" |}] |} |}];
     response_text := Some "Here is your lookbook." |}.

Definition textOnlyResponse : GenerateContentResponse :=
  {| candidates :=
       Some [{| content := Some {| parts := Some [textPart "I cannot draw that."] |} |}];
     response_text := Some "I cannot draw that." |}.

Definition imageClient : GoogleGenAI := {| generateContent := fun _ => Returns imageResponse |}.
Definition textOnlyClient : GoogleGenAI := {| generateContent := fun _ => Returns textOnlyResponse |}.
Definition throwingClient : GoogleGenAI :=
  {| generateContent := fun _ => Throws (ErrorObject "503 Service Unavailable") |}.

Definition globalsWith (client : GoogleGenAI) : Globals :=
  {| ai := Some client; apiKeyError := None |}.

(** A dress, the product shot selected, no brief, nothing generated yet. *)
Definition freshState : AppState :=
  {| heroItem := Some sampleHero; inspirationPhoto := Some sampleInspiration;
     stylePrompt := ""; generatedImage := None; isLoading := false; error := None;
     itemCategory := Some "Dress"; isIdentifying := false;
     isDownloadMenuOpen := false; shotType := ShotProduct |}.

(** The same with a generated image held: the next run is a refinement. *)
Definition refiningState : AppState := with_generatedImage (Some priorUrl) freshState.

Definition sampleRefinementParts : list Part :=
  refinementParts refiningState sampleHero 1024 768
                  (newFile sampleBlob "previous_lookbook.png" "image/png").


(* ===================================================================== *)
(** * Presets and what the controls offer *)
(* ===================================================================== *)

(** A JavaScript object used as an ordered table: its entries in order. *)
Definition Presets : Type := list (string * string).

(** [object[key]]. *)
Fixpoint property {A : Type} (key : string) (object : list (string * A)) : option A :=
  match object with
  | [] => None
  | (k, v) :: rest => if String.eqb k key then Some v else property key rest
  end.

Definition staticPresets : Presets :=
  [
   ("Vintage",
    "A photograph with a vintage, film-like quality, featuring muted colors and soft focus. The scene has a nostalgic, retro feel.");
   ("Modern",
    "A clean, minimalist photograph with sharp lines, a neutral color palette, and a focus on modern architecture or simple backgrounds.");
   ("Bohemian",
    "A warm, free-spirited photograph with earthy tones, natural light, and outdoor elements like fields or forests. The mood is relaxed and artistic.");
   ("Streetwear",
    "A dynamic, urban photograph taken on city streets, featuring graffiti, neon lights, or gritty textures. The style is edgy and contemporary.")
  ].

Definition suggestedPresets : list (string * Presets) :=
  [("Hand",
    [
     ("Close-up Hand Shot",
      "A detailed close-up shot of a model's hand, elegantly displaying the accessory against a blurred, sophisticated background.");
     ("Lifestyle Wrist Shot",
      "A lifestyle photo of a model's wrist and hand, with the accessory as the focal point, in a natural, everyday setting like a cafe.")
    ]);
   ("Neck/Face",
    [
     ("Elegant Portrait",
      "A close-up portrait of a female model, focusing on the neck and face to highlight the accessory with soft, flattering light.");
     ("Candid Profile Shot",
      "A candid-style profile shot of a model, showcasing the accessory from the side in a beautiful outdoor or indoor location.")
    ]);
   ("Apparel",
    [
     ("Full Body Look",
      "A full-body fashion shot of a model wearing the item as part of a complete, stylish outfit on a city street.");
     ("Lifestyle Context",
      "A relaxed, candid-style photo of a model wearing the clothing item in a relatable, everyday environment like a park or coffee shop.")
    ])].

(** [setStylePrompt], [setHeroItem] and [setInspirationPhoto]. *)
Definition with_stylePrompt (v : string) (s : AppState) : AppState :=
  {| heroItem := heroItem s; inspirationPhoto := inspirationPhoto s;
     stylePrompt := v; generatedImage := generatedImage s;
     isLoading := isLoading s; error := error s;
     itemCategory := itemCategory s; isIdentifying := isIdentifying s;
     isDownloadMenuOpen := isDownloadMenuOpen s; shotType := shotType s |}.

Definition with_heroItem (v : option File) (s : AppState) : AppState :=
  {| heroItem := v; inspirationPhoto := inspirationPhoto s;
     stylePrompt := stylePrompt s; generatedImage := generatedImage s;
     isLoading := isLoading s; error := error s;
     itemCategory := itemCategory s; isIdentifying := isIdentifying s;
     isDownloadMenuOpen := isDownloadMenuOpen s; shotType := shotType s |}.

Definition with_inspirationPhoto (v : option File) (s : AppState) : AppState :=
  {| heroItem := heroItem s; inspirationPhoto := v;
     stylePrompt := stylePrompt s; generatedImage := generatedImage s;
     isLoading := isLoading s; error := error s;
     itemCategory := itemCategory s; isIdentifying := isIdentifying s;
     isDownloadMenuOpen := isDownloadMenuOpen s; shotType := shotType s |}.

Definition setStylePrompt (v : string) : M unit := update (with_stylePrompt v).
Definition setHeroItem (v : option File) : M unit := update (with_heroItem v).
Definition setInspirationPhoto (v : option File) : M unit := update (with_inspirationPhoto v).

(** [getSuggestedPresets]. *)
Definition getSuggestedPresets (st : AppState) : option Presets :=
  match itemCategory st with
  | Some (String _ _ as category) =>
      if includes ["Watch"; "Bracelet"; "Ring"] category
      then property "Hand" suggestedPresets
      else if includes ["Necklace"; "Earrings"] category
      then property "Neck/Face" suggestedPresets
      else if includes ["T-Shirt"; "Top"; "Jacket"; "Pants"; "Dress"; "Hat"; "Shoes"; "Handbag"]
                       category
      then property "Apparel" suggestedPresets
      else None
  | _ => None
  end.

Definition buttonText (st : AppState) : string :=
  if truthy (generatedImage st) then "Refine Lookbook" else "Create Lookbook".

(** [itemCategory && accessoryCategories.includes(itemCategory)]: whether
    the two shot-type buttons are rendered. *)
Definition shotTypeButtonsShown (st : AppState) : bool :=
  truthy (itemCategory st)
  && match itemCategory st with
     | Some category => includes accessoryCategories category
     | None => false
     end.

(** [currentSuggestedPresets && shotType === 'model']: the suggested
    prompts rendered as buttons, if any. *)
Definition suggestedPromptsShown (st : AppState) : option Presets :=
  match getSuggestedPresets st with
  | Some presets => if shotType_eqb (shotType st) ShotModel then Some presets else None
  | None => None
  end.

(** [disabled={!heroItem || isLoading}] on the generate button. *)
Definition generateDisabled (st : AppState) : bool :=
  negb (present (heroItem st)) || isLoading st.

(** The texts a click on a preset button can put into the brief, in the
    order the buttons are rendered. *)
Definition presetPrompts (st : AppState) : list string :=
  (match suggestedPromptsShown st with
   | Some presets => map snd presets
   | None => []
   end ++ map snd staticPresets)%list.

(** A shot-type button, which exists only while the buttons are rendered. *)
Definition clickShotType (v : ShotType) (st : AppState) : M unit :=
  if shotTypeButtonsShown st then setShotType v else ret tt.

(** Selecting or removing the hero item: the cell is set, and the effect on
    [heroItem] runs in the render that follows. *)
Definition selectHeroItem (browser : Browser) (globals : Globals)
           (file : option File) : M unit :=
  (setHeroItem file ;;
   (fun s => heroItemEffect browser globals s s))%handler.

(* ===================================================================== *)
(** * The uploader's preview ([ImageUploader]) *)
(* ===================================================================== *)

(** Object URLs are told apart by the order they were issued in. *)
Definition ObjectURL : Type := nat.

(** The browser's table of object URLs: how many were issued, and which are
    still alive. *)
Record UrlStore : Type := {
  issued : nat;
  alive : list ObjectURL
}.

Definition createObjectURL (store : UrlStore) : ObjectURL * UrlStore :=
  (issued store, {| issued := S (issued store); alive := issued store :: alive store |}).

Definition revokeObjectURL (url : ObjectURL) (store : UrlStore) : UrlStore :=
  {| issued := issued store; alive := List.remove Nat.eq_dec url (alive store) |}.

(** One uploader: its [preview] cell and the URL its pending effect
    clean-up revokes. *)
Record Uploader : Type := {
  preview : option ObjectURL;
  cleanup : option ObjectURL
}.

Definition runCleanup (u : Uploader) (store : UrlStore) : UrlStore :=
  match cleanup u with
  | Some url => revokeObjectURL url store
  | None => store
  end.

(** The effect on [selectedFile]: the clean-up of the previous run first,
    then the body. *)
Definition previewEffect (selectedFile : option File)
           (state : Uploader * UrlStore) : Uploader * UrlStore :=
  let store := runCleanup (fst state) (snd state) in
  match selectedFile with
  | None => ({| preview := None; cleanup := None |}, store)
  | Some _ =>
      let (objectUrl, store') := createObjectURL store in
      ({| preview := Some objectUrl; cleanup := Some objectUrl |}, store')
  end.

(** The component unmounts: the pending clean-up runs. *)
Definition unmount (state : Uploader * UrlStore) : UrlStore :=
  runCleanup (fst state) (snd state).

(** An uploader after the given selections, oldest first. *)
Definition afterSelections (selections : list (option File))
           (state : Uploader * UrlStore) : Uploader * UrlStore :=
  fold_left (fun st selected => previewEffect selected st) selections state.

Definition mounted (store : UrlStore) : Uploader * UrlStore :=
  ({| preview := None; cleanup := None |}, store).

(* ===================================================================== *)
(** * Reading data URLs and traces *)
(* ===================================================================== *)

(** Whether a string holds the character. *)
Fixpoint holds (c : ascii) (s : string) : bool :=
  match s with
  | EmptyString => false
  | String c' rest => Ascii.eqb c' c || holds c rest
  end.

(** The draw and download events of a trace. *)
Definition exportsOf (tr : list Event) : list Event :=
  filter (fun ev => match ev with DrawImage _ | Download _ => true | _ => false end) tr.

(** The thirteen labels the classification prompt lists, in its order. *)
Definition listedCategories : list string :=
  ["T-Shirt"; "Top"; "Jacket"; "Pants"; "Dress"; "Watch"; "Bracelet"; "Ring";
   "Necklace"; "Earrings"; "Hat"; "Shoes"; "Handbag"].

(** The file name of an export, spelled out. *)
Definition exportName (aspect : Aspect) : string :=
  match aspect with
  | A1x1 => "lookbook-1x1.png"
  | A9x16 => "lookbook-9x16.png"
  | A16x9 => "lookbook-16x9.png"
  end.

(** What holds of an uploader between two runs of its effect: the pending
    clean-up revokes the previewed URL, that URL is the only one of its own
    still alive, and every issued URL is older than the next one. *)
Definition tidy (others : list ObjectURL) (state : Uploader * UrlStore) : Prop :=
  cleanup (fst state) = preview (fst state)
  /\ alive (snd state)
     = (match preview (fst state) with Some url => [url] | None => [] end
          ++ others)%list
  /\ Forall (fun url => url < issued (snd state))%nat (alive (snd state))
  /\ match preview (fst state) with Some url => ~ In url others | None => True end.

(* ===================================================================== *)
(** * More sample values *)
(* ===================================================================== *)

(** A browser that decodes images but cannot fetch them. *)
Definition fetchFailingBrowser : Browser :=
  {| loadImage := fun _ => Returns (1024%N, 768%N);
     fetchBlob := fun _ => Throws (ErrorObject "Failed to fetch");
     typeErrorMessage := engineTypeError;
     hasContext2d := true |}.

(** A response whose first candidate is text only and whose second carries
    an image. *)
Definition laterCandidateResponse : GenerateContentResponse :=
  {| candidates :=
       Some [{| content := Some {| parts := Some [textPart "Two options follow."] |} |};
             {| content :=
                  Some {| parts :=
                            Some [inlinePart {| data := Some "bmV3";
                                                mimeType := Some "image/png" |}] |} |}];
     response_text := Some "Two options follow." |}.

Definition laterCandidateClient : GoogleGenAI :=
  {| generateContent := fun _ => Returns laterCandidateResponse |}.

(** A portrait result, 1080 x 1920. *)
Definition portraitBrowser : Browser :=
  {| loadImage := fun _ => Returns (1080%N, 1920%N);
     fetchBlob := fun _ => Returns sampleBlob;
     typeErrorMessage := engineTypeError;
     hasContext2d := true |}.

(** Another component's URL is alive when the uploader mounts. *)
Definition busyStore : UrlStore := {| issued := 1; alive := [0%nat] |}.

(* ===================================================================== *)
(** * Image segments with their roles *)
(* ===================================================================== *)

(** The image segments of a part list, in order, each with the role the
    heading before it gives it; [heading] is the text of the segment before
    the current one. *)
Fixpoint labelledImages (heading : option string) (ps : list Part)
  : list (option Role * InlineData) :=
  match ps with
  | [] => []
  | p :: rest =>
      match inlineData p with
      | Some image => (roleOfHeading heading, image) :: labelledImages (text p) rest
      | None => labelledImages (text p) rest
      end
  end.

(* ===================================================================== *)
(** * A key the constructor accepts and the service rejects *)
(* ===================================================================== *)

Definition keyRejected : string :=
  "API key not valid. Please pass a valid API key.".

(** A client made with a mistyped or revoked key: every call is rejected by
    the service. *)
Definition rejectedKeyClient : GoogleGenAI :=
  {| generateContent := fun _ => Throws (ErrorObject keyRejected) |}.

(** A constructor that checks only that a key is there: it throws without
    one and accepts any other, valid or not. *)
Definition presenceCheckingConstructor (apiKey : option string) : Outcome GoogleGenAI :=
  match apiKey with
  | Some (String _ _) => Returns rejectedKeyClient
  | _ => Throws (ErrorObject "An API Key must be set when running in a browser")
  end.

(* ===================================================================== *)
(** * Well-formed strings *)
(* ===================================================================== *)

Definition between (lo hi : nat) (c : ascii) : bool :=
  ((lo <=? nat_of_ascii c) && (nat_of_ascii c <=? hi))%nat.

(** Whether the bytes are the UTF-8 encoding of a sequence of Unicode
    scalar values, that is, whether they stand for a JavaScript string
    (one without unpaired surrogates): shortest encodings only, nothing
    above U+10FFFF, no surrogate. *)
Fixpoint utf8 (s : string) : bool :=
  match s with
  | EmptyString => true
  | String c1 rest1 =>
      if between 0 127 c1 then utf8 rest1
      else
        match rest1 with
        | EmptyString => false
        | String c2 rest2 =>
            if between 194 223 c1 then between 128 191 c2 && utf8 rest2
            else
              match rest2 with
              | EmptyString => false
              | String c3 rest3 =>
                  if between 224 239 c1 then
                    (if between 224 224 c1 then between 160 191 c2
                     else if between 237 237 c1 then between 128 159 c2
                          else between 128 191 c2)
                    && between 128 191 c3 && utf8 rest3
                  else
                    match rest3 with
                    | EmptyString => false
                    | String c4 rest4 =>
                        between 240 244 c1
                        && (if between 240 240 c1 then between 144 191 c2
                            else if between 244 244 c1 then between 128 143 c2
                                 else between 128 191 c2)
                        && between 128 191 c3 && between 128 191 c4 && utf8 rest4
                    end
              end
        end
  end.

(** U+00A0 and U+FEFF as UTF-8. *)
Definition noBreakSpace : string := String "194" (String "160" EmptyString).
Definition byteOrderMark : string := String "239" (String "187" (String "191" EmptyString)).

(** A classifier whose answer has Unicode white space around the label. *)
Definition paddedWatchResponse : GenerateContentResponse :=
  {| candidates := None;
     response_text := Some (byteOrderMark ++ " Watch" ++ noBreakSpace ++ nl) |}.

Definition paddedWatchClient : GoogleGenAI :=
  {| generateContent := fun _ => Returns paddedWatchResponse |}.

(* ===================================================================== *)
(** * File reads that fail *)
(* ===================================================================== *)

(** [fileToGenerativePart] wraps the read in a promise that has no [reject]:
    [onloadend] calls [resolve((reader.result as string).split(',')[1])].
    After a failed read [reader.result] is [null], so the call of [split]
    raises a [TypeError] inside the event handler, [resolve] is never
    called, and every [await] on the promise stays pending: neither
    [catch] nor [finally] of the caller runs.  The handlers are given here
    once more with that path in them; the definitions above are the case
    in which every read yields the file's data URL. *)
Module Reading.

(** How an [await] ends: the promise settles, or it stays pending for
    ever. *)
Inductive Promise (A : Type) : Type :=
| Settled (outcome : Outcome A)
| Pending.
Arguments Settled {A} outcome.
Arguments Pending {A}.

(** An asynchronous computation that touches no state cell. *)
Definition Async (A : Type) : Type := (Promise A * list Event)%type.

Definition settled {A : Type} (io : IO A) : Async A := (Settled (fst io), snd io).

Definition async_ret {A : Type} (a : A) : Async A := (Settled (Returns a), []).

Definition never {A : Type} : Async A := (Pending, []).

Definition async_bind {A B : Type} (m : Async A) (k : A -> Async B) : Async B :=
  match m with
  | (Settled (Returns a), t1) => let (r, t2) := k a in (r, (t1 ++ t2)%list)
  | (Settled (Throws e), t1) => (Settled (Throws e), t1)
  | (Pending, t1) => (Pending, t1)
  end.

(** A handler whose run may stay pending. *)
Definition Handler (A : Type) : Type :=
  AppState -> (Promise A * AppState * list Event)%type.

Definition run {A : Type} (m : M A) : Handler A :=
  fun s => match m s with (r, s', t) => (Settled r, s', t) end.

Definition liftAsync {A : Type} (io : Async A) : Handler A :=
  fun s => (fst io, s, snd io).

Definition handler_bind {A B : Type} (m : Handler A) (k : A -> Handler B) : Handler B :=
  fun s =>
    match m s with
    | (Settled (Returns a), s1, t1) =>
        match k a s1 with (r, s2, t2) => (r, s2, (t1 ++ t2)%list) end
    | (Settled (Throws e), s1, t1) => (Settled (Throws e), s1, t1)
    | (Pending, s1, t1) => (Pending, s1, t1)
    end.

(** [try { body } catch (err) { handler } finally { fin }]: a pending
    [await] in [body] is followed by nothing. *)
Definition try_catch_finally {A : Type}
           (body : Handler A) (handler : Thrown -> Handler A) (fin : Handler unit)
  : Handler A :=
  fun s =>
    let '(r1, s1, t1) :=
      match body s with
      | (Settled (Throws e), s', t') =>
          match handler e s' with (r, s'', t'') => (r, s'', (t' ++ t'')%list) end
      | other => other
      end in
    match r1 with
    | Pending => (Pending, s1, t1)
    | Settled o1 =>
        match fin s1 with
        | (Settled (Returns _), s2, t2) => (Settled o1, s2, (t1 ++ t2)%list)
        | (Settled (Throws e), s2, t2) => (Settled (Throws e), s2, (t1 ++ t2)%list)
        | (Pending, s2, t2) => (Pending, s2, (t1 ++ t2)%list)
        end
    end.

Declare Scope async_scope.
Delimit Scope async_scope with async.
Notation "x <- c ;; k" := (async_bind c (fun x => k))
  (at level 61, c at next level, right associativity) : async_scope.
Notation "c ;; k" := (async_bind c (fun _ => k))
  (at level 61, right associativity) : async_scope.

Declare Scope pending_scope.
Delimit Scope pending_scope with pending.
Notation "x <- c ;; k" := (handler_bind c (fun x => k))
  (at level 61, c at next level, right associativity) : pending_scope.
Notation "c ;; k" := (handler_bind c (fun _ => k))
  (at level 61, right associativity) : pending_scope.

Section App.

Variable browser : Browser.
Variable globals : Globals.

(** [reader.result] when [onloadend] fires: the data URL, or [null] after a
    failed read. *)
Variable result : File -> option string.

Definition fileToGenerativePart (file : File) : Async Part :=
  (settled (emit (ReadAsDataURL file)) ;;
   match result file with
   | Some url =>
       async_ret (inlinePart {| data := nth_error (split "," url) 1;
                                mimeType := Some (fileType file) |})
   | None => never
   end)%async.

Definition pushInspiration (st : AppState) (parts : list Part) : Async (list Part) :=
  match inspirationPhoto st with
  | Some photo =>
      (let parts := push parts (textPart headingInspiration) in
       part <- fileToGenerativePart photo ;;
       async_ret (push parts part))%async
  | None => async_ret parts
  end.

Definition composeParts (st : AppState) (hero : File) : Async (list Part) :=
  let parts : list Part := [] in
  match generatedImage st with
  | Some (String _ _ as generated) =>
      (dimensions <- settled (getImageDimensions browser generated) ;;
       let width := fst dimensions in
       let height := snd dimensions in
       blob <- settled (fetchAsBlob browser generated) ;;
       let previousLookbookFile := newFile blob "previous_lookbook.png" (blobType blob) in
       let parts := push parts (textPart (editingPrompt (activeSystemPrompt st) width height)) in
       let parts := push parts (textPart headingRefinement) in
       let parts := push parts (textPart headingHeroReference) in
       heroPart <- fileToGenerativePart hero ;;
       let parts := push parts heroPart in
       parts <- pushInspiration st parts ;;
       let parts :=
         push parts (textPart (creativeBrief (or_else (stylePrompt st) defaultRefinePrompt))) in
       let parts := push parts (textPart headingImageToBeEdited) in
       let parts := push parts (textPart headingImageToEdit) in
       previousPart <- fileToGenerativePart previousLookbookFile ;;
       let parts := push parts previousPart in
       async_ret (push parts (textPart actionRefine)))%async
  | _ =>
      (let parts := push parts (textPart (activeSystemPrompt st)) in
       let parts := push parts (textPart headingHeroPhoto) in
       heroPart <- fileToGenerativePart hero ;;
       let parts := push parts heroPart in
       parts <- pushInspiration st parts ;;
       let parts :=
         push parts (textPart (creativeBrief (or_else (stylePrompt st) (defaultPrompt st)))) in
       async_ret (push parts (textPart actionGenerate)))%async
  end.

Definition handleGenerate (st : AppState) : Handler unit :=
  match ai globals with
  | None =>
      (run (setError (apiKeyError globals)) ;;
       run (setIsLoading false))%pending
  | Some client =>
      match heroItem st with
      | None => run (ret tt)
      | Some hero =>
          (run (setIsLoading true) ;;
           run (setError None) ;;
           try_catch_finally
             (parts <- liftAsync (composeParts st hero) ;;
              response <- liftAsync (settled (callGenerateContent
                                                client (generationRequest parts))) ;;
              imagePart <- liftAsync (settled (findImagePart browser response)) ;;
              match imagePart with
              | Some {| inlineData := Some image |} =>
                  run (setGeneratedImage (Some (imageUrlOf image)))
              | _ => run (throw (ErrorObject noImageError))
              end)
             (fun err =>
                liftAsync (settled (emit (ConsoleError None err))) ;;
                run (setError (Some (errorMessage err))))
             (run (setIsLoading false)))%pending
      end
  end.

Definition identifyItemCategory (file : File) : Handler unit :=
  match ai globals with
  | None => run (setError (apiKeyError globals))
  | Some client =>
      (run (setIsIdentifying true) ;;
       run (setItemCategory None) ;;
       run (setShotType ShotModel) ;;
       try_catch_finally
         (imagePart <- liftAsync (fileToGenerativePart file) ;;
          response <- liftAsync (settled (callGenerateContent
                                            client (classificationRequest imagePart))) ;;
          category <- match response_text response with
                      | Some t => run (ret (trim t))
                      | None => run (throw (ErrorObject (typeErrorMessage browser "trim")))
                      end ;;
          run (setItemCategory (Some category)))
         (fun err =>
            liftAsync (settled (emit (ConsoleError (Some "Error identifying item:") err))) ;;
            run (setItemCategory (Some "Other")))
         (run (setIsIdentifying false)))%pending
  end.

Definition heroItemEffect (st : AppState) : Handler unit :=
  match heroItem st with
  | Some file => identifyItemCategory file
  | None => run (setItemCategory None)
  end.

End App.

End Reading.

(** Every read yields the file's own data URL. *)
Definition readsComplete : File -> option string := fun file => Some (fileDataURL file).

(** A reader for which the given file cannot be read. *)
Definition unreadable (broken : File) : File -> option string :=
  fun file =>
    if String.eqb (fileName file) (fileName broken) then None
    else Some (fileDataURL file).
(* ===================================================================== *)
(** * Properties of the export crop *)
(* ===================================================================== *)

Module CropFacts.
Import Exact Binary64 CropSpec.
Local Open Scope Q_scope.

(** ** The two number systems are ordered *)

Lemma xq_lt_fin (a b : Q) : (Fin a < Fin b)%js = true <-> a < b.
Proof.
  simpl. unfold xq_lt. rewrite Qlt_alt.
  destruct (a ?= b); split; congruence.
Qed.

Lemma xq_lt_fin_false (a b : Q) : (Fin a < Fin b)%js = false <-> b <= a.
Proof.
  simpl. rewrite Qle_alt. unfold xq_lt. rewrite <- (Qcompare_antisym a b).
  destruct (a ?= b); simpl; split; congruence.
Qed.

Lemma xq_lt_asym (x y : xq) : (x < y)%js = true -> (y < x)%js = false.
Proof.
  destruct x as [a| | |], y as [b| | |]; simpl; try congruence.
  rewrite <- (Qcompare_antisym a b).
  destruct (a ?= b); simpl; congruence.
Qed.

Lemma strict_eq_not_lt (x y : xq) :
  strict_eq x y -> (x < y)%js = false /\ (y < x)%js = false.
Proof.
  destruct x as [a| | |], y as [b| | |]; simpl; try tauto.
  intros E. rewrite <- (Qcompare_antisym a b).
  apply Qeq_alt in E. rewrite E. split; reflexivity.
Qed.

Lemma SFcompare_antisym (f1 f2 : spec_float) :
  SFcompare f2 f1 = option_map CompOpp (SFcompare f1 f2).
Proof.
  destruct f1 as [s1 | s1 | | s1 m1 e1], f2 as [s2 | s2 | | s2 m2 e2]; simpl;
    try reflexivity;
    try (destruct s1; reflexivity); try (destruct s2; reflexivity);
    try (destruct s1, s2; reflexivity).
  destruct s1, s2; simpl; try reflexivity;
    rewrite (Z.compare_antisym e1 e2);
    destruct (e1 ?= e2)%Z; simpl; try reflexivity;
      pose proof (Pos.compare_cont_antisym m1 m2 Eq) as Hswap; simpl in Hswap;
      rewrite <- Hswap; try rewrite CompOpp_involutive; reflexivity.
Qed.

Lemma float_ltb_asym (x y : float) : (x < y)%js = true -> (y < x)%js = false.
Proof.
  simpl. rewrite !FloatAxioms.ltb_spec. unfold SFltb.
  rewrite (SFcompare_antisym (Prim2SF x) (Prim2SF y)).
  destruct (SFcompare (Prim2SF x) (Prim2SF y)) as [[| |] |]; simpl; congruence.
Qed.

Lemma float_eq_not_ltb (x y : float) :
  float_eq x y -> (x < y)%js = false /\ (y < x)%js = false.
Proof.
  unfold float_eq. simpl. rewrite FloatAxioms.eqb_spec, !FloatAxioms.ltb_spec. unfold SFeqb, SFltb.
  rewrite (SFcompare_antisym (Prim2SF x) (Prim2SF y)).
  destruct (SFcompare (Prim2SF x) (Prim2SF y)) as [[| |] |]; simpl;
    intros; split; congruence.
Qed.

Lemma exact_ordered : OrderedJsNumber strict_eq.
Proof. split; [exact xq_lt_asym | exact strict_eq_not_lt]. Qed.

Lemma binary64_ordered : OrderedJsNumber float_eq.
Proof. split; [exact float_ltb_asym | exact float_eq_not_ltb]. Qed.

(** [0.3]: in binary64 the quotient 3/10 is the literal's value. *)
Example binary64_0_3 : lit_0_3 (T:=float) = 0x1.3333333333333p-2%float.
Proof. vm_compute. reflexivity. Qed.

(** ** The branches of the crop, in any ordered number system *)

(** The crop with the intermediate rectangles inlined. *)
Lemma cropRect_unfold {T : Type} `{JsNumber T}
      (naturalWidth naturalHeight : N) (aspect : Aspect) :
  cropRect naturalWidth naturalHeight aspect =
  (let sa := sourceAspectOf naturalWidth naturalHeight in
   let ta := targetAspectOf aspect in
   let w := lit naturalWidth in
   let h := lit naturalHeight in
   let r1 :=
     if sa > ta then mkRect ((w - h * ta) / lit 2) (lit 0) (h * ta) h
     else if sa < ta then mkRect (lit 0) ((h - w / ta) / lit 2) w (w / ta)
     else mkRect (lit 0) (lit 0) w h in
   if aspect_eqb aspect A16x9 && (sa < ta) then
     mkRect (sx r1) ((h - sHeight r1) * lit_0_3) (sWidth r1) (sHeight r1)
   else r1)%js.
Proof. reflexivity. Qed.

Section Branches.

Context {T : Type} {num : JsNumber T} {eqv : T -> T -> Prop}.
Context {ordered : OrderedJsNumber eqv}.

Lemma crop_wider (w h : N) (aspect : Aspect) :
  (sourceAspectOf w h > targetAspectOf aspect)%js = true ->
  cropRect w h aspect =
  mkRect ((lit w - lit h * targetAspectOf aspect) / lit 2)%js (lit 0)
         (lit h * targetAspectOf aspect)%js (lit h).
Proof.
  intros Hgt. rewrite cropRect_unfold. cbv zeta.
  rewrite Hgt, (num_lt_asym _ _ Hgt), andb_false_r. reflexivity.
Qed.

Lemma crop_taller_centered (w h : N) (aspect : Aspect) :
  (sourceAspectOf w h < targetAspectOf aspect)%js = true ->
  aspect <> A16x9 ->
  cropRect w h aspect =
  mkRect (lit 0) ((lit h - lit w / targetAspectOf aspect) / lit 2)%js
         (lit w) (lit w / targetAspectOf aspect)%js.
Proof.
  intros Hlt Hne. rewrite cropRect_unfold. cbv zeta.
  rewrite Hlt, (num_lt_asym _ _ Hlt).
  destruct aspect; try contradiction; reflexivity.
Qed.

Lemma crop_taller_16x9 (w h : N) :
  (sourceAspectOf w h < lit 16 / lit 9)%js = true ->
  cropRect w h A16x9 =
  mkRect (lit 0) ((lit h - lit w / (lit 16 / lit 9)) * (lit 3 / lit 10))%js
         (lit w) (lit w / (lit 16 / lit 9))%js.
Proof.
  intros Hlt. rewrite cropRect_unfold. cbv zeta.
  change (targetAspectOf A16x9) with (lit 16 / lit 9)%js.
  rewrite Hlt, (num_lt_asym _ _ Hlt). reflexivity.
Qed.

Lemma crop_same_aspect (w h : N) (aspect : Aspect) :
  eqv (sourceAspectOf w h) (targetAspectOf aspect) ->
  cropRect w h aspect = mkRect (lit 0) (lit 0) (lit w) (lit h).
Proof.
  intros E. apply num_eq_not_lt in E. destruct E as [E1 E2].
  rewrite cropRect_unfold. cbv zeta.
  rewrite E1, E2, andb_false_r. reflexivity.
Qed.

End Branches.

(** ** Exact arithmetic *)

Local Abbreviation crop := (cropRect (T:=xq)).
Local Abbreviation J := (lit (T:=xq)).

Lemma targetAspectOf_fin (aspect : Aspect) :
  targetAspectOf aspect = Fin (targetQ aspect).
Proof. destruct aspect; reflexivity. Qed.

Lemma targetQ_pos (aspect : Aspect) : 0 < targetQ aspect.
Proof. destruct aspect; reflexivity. Qed.

Lemma QofN_pos (n : N) : (0 < n)%N -> 0 < QofN n.
Proof.
  intros Hn. unfold QofN, Qlt. simpl. lia.
Qed.

Lemma lit_fin (n : N) : J n = Fin (QofN n).
Proof. reflexivity. Qed.

Lemma num_sub_fin (a b : Q) : (Fin a - Fin b)%js = Fin (a - b).
Proof. reflexivity. Qed.

Lemma num_mul_fin (a b : Q) : (Fin a * Fin b)%js = Fin (a * b).
Proof. reflexivity. Qed.

Lemma num_div_fin (a b : Q) : 0 < b -> (Fin a / Fin b)%js = Fin (a / b).
Proof.
  intros Hb. simpl. unfold xq_div.
  apply Qgt_alt in Hb. rewrite Hb. reflexivity.
Qed.

Lemma sourceAspectOf_fin (w h : N) :
  (0 < h)%N -> sourceAspectOf w h = Fin (QofN w / QofN h).
Proof.
  intros Hh. unfold sourceAspectOf. rewrite !lit_fin.
  apply num_div_fin. now apply QofN_pos.
Qed.

Lemma Qhalf (x : Q) : x / 2 == x * (1 # 2).
Proof. field. Qed.

Lemma Qthree_tenths : 3 / 10 == 3 # 10.
Proof. reflexivity. Qed.

(** With positive dimensions the crop is a finite rectangle, decided by
    comparing [w] with [h * t] (no division by a variable). *)
Lemma crop_finite (w h : N) (aspect : Aspect) :
  (0 < h)%N ->
  crop w h aspect =
  if Qlt_le_dec (QofN h * targetQ aspect) (QofN w) then
    mkRect (Fin ((QofN w - QofN h * targetQ aspect) / 2)) (Fin 0)
           (Fin (QofN h * targetQ aspect)) (Fin (QofN h))
  else if Qlt_le_dec (QofN w) (QofN h * targetQ aspect) then
    mkRect (Fin 0)
           (Fin (if aspect_eqb aspect A16x9
                 then (QofN h - QofN w / targetQ aspect) * (3 / 10)
                 else (QofN h - QofN w / targetQ aspect) / 2))
           (Fin (QofN w)) (Fin (QofN w / targetQ aspect))
  else mkRect (Fin 0) (Fin 0) (Fin (QofN w)) (Fin (QofN h)).
Proof.
  intros Hh.
  set (W := QofN w). set (Hq := QofN h). set (t := targetQ aspect).
  pose proof (QofN_pos Hh) as HH. fold Hq in HH.
  pose proof (targetQ_pos aspect) as Ht. fold t in Ht.
  rewrite cropRect_unfold. cbv zeta.
  rewrite sourceAspectOf_fin by assumption.
  rewrite targetAspectOf_fin. fold W Hq t.
  rewrite !lit_fin. fold W Hq.
  destruct (Qlt_le_dec (Hq * t) W) as [Hgt | Hle].
  - assert (G : t < W / Hq).
    { apply Qlt_shift_div_l; [assumption | lra]. }
    apply xq_lt_fin in G. rewrite G.
    rewrite (xq_lt_asym _ _ G), andb_false_r.
    rewrite num_mul_fin, num_sub_fin, num_div_fin by reflexivity.
    reflexivity.
  - assert (G : (Fin t < Fin (W / Hq))%js = false).
    { apply xq_lt_fin_false. apply Qle_shift_div_r; [assumption | lra]. }
    rewrite G.
    destruct (Qlt_le_dec W (Hq * t)) as [Hlt | Hge].
    + assert (L : (Fin (W / Hq) < Fin t)%js = true).
      { apply xq_lt_fin. apply Qlt_shift_div_r; [assumption | lra]. }
      rewrite L, andb_true_r.
      rewrite !num_div_fin by assumption.
      rewrite !num_sub_fin.
      destruct (aspect_eqb aspect A16x9); simpl sHeight; simpl sx; simpl sWidth.
      * unfold lit_0_3. rewrite !lit_fin.
        rewrite num_div_fin by reflexivity.
        rewrite num_sub_fin, num_mul_fin. reflexivity.
      * rewrite num_div_fin by reflexivity. reflexivity.
    + assert (L : (Fin (W / Hq) < Fin t)%js = false).
      { apply xq_lt_fin_false. apply Qle_shift_div_l; [assumption | lra]. }
      rewrite L, andb_false_r. reflexivity.
Qed.

(** ** The two worked examples, evaluated in binary64 *)

Example crop_1920x1080_square_binary64 :
  cropRect (T:=float) 1920 1080 A1x1 = mkRect 420%float 0%float 1080%float 1080%float.
Proof. vm_compute. reflexivity. Qed.

Example crop_1080x1920_landscape_binary64 :
  cropRect (T:=float) 1080 1920 A16x9
  = mkRect 0%float 393.75%float 1080%float 607.5%float.
Proof. vm_compute. reflexivity. Qed.

(** C2. For natural dimensions [w] x [h] and a target aspect [t]: when
    [w / h > t] the crop keeps the full height, has width [h * t] and is
    centred horizontally at [sx = (w - h * t) / 2] with [sy = 0]; when
    [w / h < t] and the target is not 16:9 it keeps the full width, has
    height [w / t] and is centred vertically at [sy = (h - w / t) / 2]
    with [sx = 0]; when [w / h] equals [t] it is the whole source
    rectangle.  This holds in every ordered number system, and both exact
    arithmetic and binary64 are ordered.  A 1920 x 1080 source cropped to
    1:1 gives [sWidth = 1080], [sx = 420], [sy = 0], [sHeight = 1080], in
    exact arithmetic and in binary64. *)
Theorem crop_rectangle_by_aspect :
  (forall (T : Type) (num : JsNumber T) (eqv : T -> T -> Prop),
      OrderedJsNumber eqv ->
      forall (w h : N) (aspect : Aspect),
        ((sourceAspectOf w h > targetAspectOf aspect)%js = true ->
         cropRect w h aspect =
         mkRect ((lit w - lit h * targetAspectOf aspect) / lit 2)%js (lit 0)
                (lit h * targetAspectOf aspect)%js (lit h))
        /\ ((sourceAspectOf w h < targetAspectOf aspect)%js = true ->
            aspect <> A16x9 ->
            cropRect w h aspect =
            mkRect (lit 0) ((lit h - lit w / targetAspectOf aspect) / lit 2)%js
                   (lit w) (lit w / targetAspectOf aspect)%js)
        /\ (eqv (sourceAspectOf w h) (targetAspectOf aspect) ->
            cropRect w h aspect = mkRect (lit 0) (lit 0) (lit w) (lit h)))
  /\ OrderedJsNumber strict_eq
  /\ OrderedJsNumber float_eq
  /\ same_rect (crop 1920 1080 A1x1)
               (mkRect (Fin 420) (Fin 0) (Fin 1080) (Fin 1080))
  /\ cropRect (T:=float) 1920 1080 A1x1
     = mkRect 420%float 0%float 1080%float 1080%float.
Proof.
  split; [| split; [| split; [| split]]].
  - intros T num eqv ordered w h aspect. repeat split.
    + apply crop_wider.
    + apply crop_taller_centered.
    + apply crop_same_aspect.
  - exact exact_ordered.
  - exact binary64_ordered.
  - vm_compute. repeat split; reflexivity.
  - exact crop_1920x1080_square_binary64.
Qed.

(** The first branch of [crop_rectangle_by_aspect], in binary64, at
    1920 x 1080 and 1:1. *)
Lemma crop_rectangle_by_aspect_witness :
  cropRect (T:=float) 1920 1080 A1x1 =
  mkRect ((lit 1920 - lit 1080 * targetAspectOf A1x1) / lit 2)%js (lit 0)
         (lit 1080 * targetAspectOf A1x1)%js (lit 1080).
Proof.
  exact (proj1 (proj1 crop_rectangle_by_aspect float float_number float_eq
                      (proj1 (proj2 (proj2 crop_rectangle_by_aspect)))
                      1920%N 1080%N A1x1)
               eq_refl).
Defined.

(** C4. When [w / h < 16/9], cropping to 16:9 keeps the full width, has
    height [w / (16/9)] and starts at [sy = (h - sHeight) * 0.3], not at
    the centred offset; this holds in every ordered number system.  A
    1080 x 1920 source gives [sHeight = 607.5] and [sy = 393.75] (the
    centred offset would be 656.25), in exact arithmetic and in binary64. *)
Theorem crop_16x9_biased_upward :
  (forall (T : Type) (num : JsNumber T) (eqv : T -> T -> Prop),
      OrderedJsNumber eqv ->
      forall w h : N,
        (sourceAspectOf w h < lit 16 / lit 9)%js = true ->
        cropRect w h A16x9 =
        mkRect (lit 0) ((lit h - lit w / (lit 16 / lit 9)) * (lit 3 / lit 10))%js
               (lit w) (lit w / (lit 16 / lit 9))%js)
  /\ same (sHeight (crop 1080 1920 A16x9)) (Fin 607.5)
  /\ same (sy (crop 1080 1920 A16x9)) (Fin 393.75)
  /\ same ((J 1920 - sHeight (crop 1080 1920 A16x9)) / J 2)%js (Fin 656.25)
  /\ ~ same (sy (crop 1080 1920 A16x9)) (Fin 656.25)
  /\ cropRect (T:=float) 1080 1920 A16x9
     = mkRect 0%float 393.75%float 1080%float 607.5%float.
Proof.
  split; [| split; [| split; [| split; [| split]]]].
  - intros T num eqv ordered w h Hlt. apply (crop_taller_16x9 w h Hlt).
  - vm_compute. reflexivity.
  - vm_compute. reflexivity.
  - vm_compute. reflexivity.
  - vm_compute. discriminate.
  - exact crop_1080x1920_landscape_binary64.
Qed.

(** The general equation of [crop_16x9_biased_upward], in binary64, at
    1080 x 1920. *)
Lemma crop_16x9_biased_upward_witness :
  cropRect (T:=float) 1080 1920 A16x9 =
  mkRect (lit 0) ((lit 1920 - lit 1080 / (lit 16 / lit 9)) * (lit 3 / lit 10))%js
         (lit 1080) (lit 1080 / (lit 16 / lit 9))%js.
Proof.
  exact (proj1 crop_16x9_biased_upward float float_number float_eq
               (proj1 (proj2 (proj2 crop_rectangle_by_aspect)))
               1080%N 1920%N eq_refl).
Defined.

(** C9. For positive natural dimensions and each of the three target
    aspects, the crop rectangle is finite and lies inside the source:
    [0 <= sx], [0 <= sy], [sx + sWidth <= w], [sy + sHeight <= h],
    [0 < sWidth] and [0 < sHeight], in exact rational arithmetic. *)
Theorem crop_within_source (w h : N) (aspect : Aspect) :
  (0 < w)%N -> (0 < h)%N ->
  exists x y cw ch : Q,
    crop w h aspect = mkRect (Fin x) (Fin y) (Fin cw) (Fin ch) /\
    0 <= x /\ 0 <= y /\
    x + cw <= QofN w /\ y + ch <= QofN h /\
    0 < cw /\ 0 < ch.
Proof.
  intros Hw Hh.
  pose proof (QofN_pos Hw) as HW.
  pose proof (QofN_pos Hh) as HH.
  pose proof (targetQ_pos aspect) as Ht.
  rewrite (crop_finite w aspect Hh).
  set (W := QofN w) in *. set (Hq := QofN h) in *. set (t := targetQ aspect) in *.
  clearbody W Hq t.
  assert (Hprod : 0 < Hq * t) by (apply Qmult_lt_0_compat; assumption).
  destruct (Qlt_le_dec (Hq * t) W) as [Hgt | Hle].
  - do 4 eexists. split; [reflexivity |].
    set (p := Hq * t) in *. clearbody p.
    rewrite (Qhalf (W - p)).
    repeat split; lra.
  - assert (Hdiv : 0 < W / t) by (apply Qlt_shift_div_l; lra).
    assert (Hfit : W / t <= Hq).
    { apply Qle_shift_div_r; [assumption | lra]. }
    destruct (Qlt_le_dec W (Hq * t)) as [Hlt | Hge].
    + do 4 eexists. split; [reflexivity |].
      set (d := W / t) in *. clearbody d.
      destruct (aspect_eqb aspect A16x9);
        [rewrite Qthree_tenths | rewrite (Qhalf (Hq - d))];
        repeat split; lra.
    + do 4 eexists. split; [reflexivity |].
      repeat split; lra.
Qed.

Lemma crop_within_source_witness :
  exists x y cw ch : Q,
    crop 1080 1920 A16x9 = mkRect (Fin x) (Fin y) (Fin cw) (Fin ch) /\
    0 <= x /\ 0 <= y /\
    x + cw <= QofN 1080 /\ y + ch <= QofN 1920 /\
    0 < cw /\ 0 < ch.
Proof.
  apply (@crop_within_source 1080 1920 A16x9); reflexivity.
Defined.

End CropFacts.


(* ===================================================================== *)
(** * Properties of prompt composition and of the handlers *)
(* ===================================================================== *)

(** Traces are compared up to the empty segments the binds append. *)
Ltac trace_norm :=
  repeat first [rewrite app_nil_r | rewrite <- app_assoc | progress simpl].

Section Composition.

Variable browser : Browser.
Variable globals : Globals.

Local Abbreviation composeParts := (composeParts browser).
Local Abbreviation handleGenerate := (handleGenerate browser globals).

Lemma truthy_cases (v : option string) :
  (truthy v = true /\ exists c s, v = Some (String c s)) \/
  (truthy v = false /\ (v = None \/ v = Some EmptyString)).
Proof.
  destruct v as [[| c s] |]; simpl; eauto 6.
Qed.

Lemma pushInspiration_run (st : AppState) (ps : list Part) :
  pushInspiration st ps = (Returns (ps ++ inspirationSegments st)%list, inspirationReads st).
Proof.
  unfold pushInspiration, inspirationSegments, inspirationReads, push.
  destruct (inspirationPhoto st); simpl.
  - rewrite <- app_assoc. reflexivity.
  - rewrite app_nil_r. reflexivity.
Qed.

Lemma composeParts_fresh (st : AppState) (hero : File) :
  truthy (generatedImage st) = false ->
  composeParts st hero
  = (Returns (freshParts st hero), (ReadAsDataURL hero :: inspirationReads st)%list).
Proof.
  intros Hf. unfold composeParts.
  assert (E : forall (A : Type) (a : string -> A) (b : A),
             match generatedImage st with
             | Some (String _ _ as g) => a g
             | _ => b
             end = b).
  { intros A a b. destruct (generatedImage st) as [[| c s] |]; simpl in Hf;
      congruence. }
  rewrite E. simpl. rewrite pushInspiration_run. simpl.
  unfold freshParts, push. rewrite <- app_assoc. simpl.
  rewrite app_nil_r. reflexivity.
Qed.

Lemma composeParts_refinement (st : AppState) (hero : File) (c : ascii) (s : string) :
  generatedImage st = Some (String c s) ->
  composeParts st hero =
  match loadImage browser (String c s) with
  | Throws e => (Throws e, [LoadImage (String c s)])
  | Returns (width, height) =>
      match fetchBlob browser (String c s) with
      | Throws e => (Throws e, [LoadImage (String c s); Fetch (String c s)])
      | Returns blob =>
          (Returns (refinementParts st hero width height
                      (newFile blob "previous_lookbook.png" (blobType blob))),
           ([LoadImage (String c s); Fetch (String c s); ReadAsDataURL hero]
              ++ inspirationReads st
              ++ [ReadAsDataURL (newFile blob "previous_lookbook.png" (blobType blob))])%list)
      end
  end.
Proof.
  intros Hg. unfold composeParts. rewrite Hg.
  unfold getImageDimensions, fetchAsBlob.
  destruct (loadImage browser (String c s)) as [[width height] | e]; simpl;
    [| reflexivity].
  destruct (fetchBlob browser (String c s)) as [blob | e]; simpl;
    [| reflexivity].
  rewrite pushInspiration_run. simpl.
  unfold refinementParts, push.
  repeat (rewrite <- app_assoc; simpl).
  rewrite ?app_nil_r. reflexivity.
Qed.

Lemma findImagePart_silent (response : GenerateContentResponse) :
  snd (findImagePart browser response) = [].
Proof.
  unfold findImagePart.
  destruct (candidates response) as [[| candidate cs] |]; simpl; try reflexivity.
  destruct (content candidate) as [[[ps |]] |]; reflexivity.
Qed.

(** How a run of [handleGenerate] settles once the client and the hero item
    are there, by the outcome of each awaited step. *)
Lemma handleGenerate_run (client : GoogleGenAI) (hero : File) (st s : AppState) :
  ai globals = Some client ->
  heroItem st = Some hero ->
  handleGenerate st s =
  match composeParts st hero with
  | (Throws e, t) => (Returns tt, failed e s, (t ++ [ConsoleError None e])%list)
  | (Returns ps, t) =>
      match generateContent client (generationRequest ps) with
      | Throws e =>
          (Returns tt, failed e s,
           (t ++ [GenerateContent (generationRequest ps); ConsoleError None e])%list)
      | Returns response =>
          match fst (findImagePart browser response) with
          | Throws e =>
              (Returns tt, failed e s,
               (t ++ [GenerateContent (generationRequest ps); ConsoleError None e])%list)
          | Returns (Some {| inlineData := Some image |}) =>
              (Returns tt, succeeded image s,
               (t ++ [GenerateContent (generationRequest ps)])%list)
          | Returns _ =>
              (Returns tt, failed (ErrorObject noImageError) s,
               (t ++ [GenerateContent (generationRequest ps);
                      ConsoleError None (ErrorObject noImageError)])%list)
          end
      end
  end.
Proof.
  intros Hai Hhero. unfold handleGenerate. rewrite Hai, Hhero.
  unfold bind, try_catch_finally, liftIO, callGenerateContent, setIsLoading,
    setError, setGeneratedImage, update, throw, failed, succeeded, started.
  simpl.
  destruct (composeParts st hero) as [[ps | e] t]; simpl.
  - destruct (generateContent client (generationRequest ps)) as [response | e]; simpl.
    + pose proof (findImagePart_silent response) as Hsilent.
      destruct (findImagePart browser response) as [[[[txt [image |]] |] | e] t'];
        simpl in Hsilent; subst t'; simpl; trace_norm; reflexivity.
    + trace_norm. reflexivity.
  - trace_norm. reflexivity.
Qed.

Lemma requestsOf_app (t1 t2 : list Event) :
  requestsOf (t1 ++ t2) = (requestsOf t1 ++ requestsOf t2)%list.
Proof. apply flat_map_app. Qed.

Lemma requestsOf_In (q : GenerateContentParameters) (tr : list Event) :
  In (GenerateContent q) tr <-> In q (requestsOf tr).
Proof.
  unfold requestsOf. rewrite in_flat_map. split.
  - intros Hin. exists (GenerateContent q). split; [assumption | left; reflexivity].
  - intros [ev [Hin Hq]]. destruct ev; simpl in Hq; try contradiction.
    destruct Hq as [-> | []]. assumption.
Qed.

Lemma inspirationReads_no_request (st : AppState) :
  requestsOf (inspirationReads st) = [].
Proof. unfold inspirationReads. destruct (inspirationPhoto st); reflexivity. Qed.

(** Composition either stops at a rejected await, or yields one of the two
    part lists; it submits nothing itself. *)
Lemma composeParts_cases (st : AppState) (hero : File) :
  requestsOf (snd (composeParts st hero)) = [] /\
  ((exists e, fst (composeParts st hero) = Throws e) \/
   (truthy (generatedImage st) = false /\
    fst (composeParts st hero) = Returns (freshParts st hero)) \/
   (truthy (generatedImage st) = true /\
    exists width height previous,
      fst (composeParts st hero)
      = Returns (refinementParts st hero width height previous))).
Proof.
  destruct (truthy_cases (generatedImage st)) as [[Ht [c [s Hg]]] | [Hf _]].
  - rewrite (@composeParts_refinement st hero c s Hg).
    destruct (loadImage browser (String c s)) as [[width height] | e].
    + destruct (fetchBlob browser (String c s)) as [blob | e].
      * split.
        -- simpl. rewrite requestsOf_app, inspirationReads_no_request. reflexivity.
        -- right. right. split; [assumption |]. simpl. eauto.
      * split; [reflexivity | left; simpl; eauto].
    + split; [reflexivity | left; simpl; eauto].
  - rewrite (@composeParts_fresh st hero Hf). split.
    + simpl. apply inspirationReads_no_request.
    + right. left. split; [assumption | reflexivity].
Qed.

(** A run of [handleGenerate] submits at most one request, and its parts
    are the composed ones. *)
Lemma handleGenerate_requests (st s s' : AppState) (r : Outcome unit) (tr : list Event) :
  handleGenerate st s = (r, s', tr) ->
  requestsOf tr = [] \/
  exists hero ps,
    heroItem st = Some hero /\
    fst (composeParts st hero) = Returns ps /\
    requestsOf tr = [generationRequest ps].
Proof.
  intros Hrun.
  destruct (ai globals) as [client |] eqn:Hai.
  - destruct (heroItem st) as [hero |] eqn:Hhero.
    + rewrite (@handleGenerate_run client hero st s Hai Hhero) in Hrun.
      destruct (composeParts_cases st hero) as [Hquiet _].
      destruct (composeParts st hero) as [[ps | e] t] eqn:Hc; simpl in Hquiet.
      * right. exists hero, ps. rewrite Hc.
        split; [reflexivity | split; [reflexivity |]].
        destruct (generateContent client (generationRequest ps)) as [response | e].
        -- destruct (fst (findImagePart browser response)) as [[[txt [image |]] |] | e];
             inversion Hrun; subst; rewrite requestsOf_app, Hquiet; reflexivity.
        -- inversion Hrun; subst. rewrite requestsOf_app, Hquiet. reflexivity.
      * left. inversion Hrun; subst. rewrite requestsOf_app, Hquiet. reflexivity.
    + left. unfold handleGenerate in Hrun. rewrite Hai, Hhero in Hrun.
      inversion Hrun. reflexivity.
  - left. unfold handleGenerate in Hrun. rewrite Hai in Hrun.
    inversion Hrun. reflexivity.
Qed.

Lemma roles_fresh (st : AppState) (hero : File) :
  imageRoles None (freshParts st hero)
  = (Some HeroItem
       :: (if present (inspirationPhoto st) then [Some Inspiration] else []))%list.
Proof.
  unfold freshParts, inspirationSegments.
  destruct (inspirationPhoto st); reflexivity.
Qed.

Lemma roles_refinement (st : AppState) (hero previous : File) (width height : N) :
  imageRoles None (refinementParts st hero width height previous)
  = (Some HeroItem
       :: (if present (inspirationPhoto st) then [Some Inspiration] else [])
       ++ [Some PriorResult])%list.
Proof.
  unfold refinementParts, inspirationSegments.
  destruct (inspirationPhoto st); reflexivity.
Qed.

Lemma imageCount_fresh (st : AppState) (hero : File) :
  imageCount (freshParts st hero)
  = (1 + (if present (inspirationPhoto st) then 1 else 0))%nat.
Proof.
  unfold freshParts, inspirationSegments.
  destruct (inspirationPhoto st); reflexivity.
Qed.

Lemma imageCount_refinement (st : AppState) (hero previous : File) (width height : N) :
  imageCount (refinementParts st hero width height previous)
  = (1 + (if present (inspirationPhoto st) then 1 else 0) + 1)%nat.
Proof.
  unfold refinementParts, inspirationSegments.
  destruct (inspirationPhoto st); reflexivity.
Qed.

Lemma labelledImages_fresh (st : AppState) (hero : File) :
  labelledImages None (freshParts st hero)
  = ((Some HeroItem,
      {| data := nth_error (split "," (fileDataURL hero)) 1;
         mimeType := Some (fileType hero) |})
       :: match inspirationPhoto st with
          | Some photo =>
              [(Some Inspiration,
                {| data := nth_error (split "," (fileDataURL photo)) 1;
                   mimeType := Some (fileType photo) |})]
          | None => []
          end)%list.
Proof.
  unfold freshParts, inspirationSegments.
  destruct (inspirationPhoto st); reflexivity.
Qed.

Lemma labelledImages_refinement
      (st : AppState) (hero : File) (width height : N) (blob : Blob) :
  labelledImages None
    (refinementParts st hero width height
                     (newFile blob "previous_lookbook.png" (blobType blob)))
  = ((Some HeroItem,
      {| data := nth_error (split "," (fileDataURL hero)) 1;
         mimeType := Some (fileType hero) |})
       :: match inspirationPhoto st with
          | Some photo =>
              [(Some Inspiration,
                {| data := nth_error (split "," (fileDataURL photo)) 1;
                   mimeType := Some (fileType photo) |})]
          | None => []
          end
       ++ [(Some PriorResult,
            {| data := nth_error (split "," (blobDataURL blob)) 1;
               mimeType := Some (blobType blob) |})])%list.
Proof.
  unfold refinementParts, inspirationSegments.
  destruct (inspirationPhoto st); reflexivity.
Qed.

(** C1. Every request [handleGenerate] submits (fresh or refinement, either
    shot type, with or without inspiration or brief) carries exactly one
    hero-item image segment, one inspiration image segment exactly when an
    inspiration photo is set, and one prior-result image segment exactly
    when a generated image is held (a refinement); it has no other image
    segment.  The segments are the inputs themselves: the one under a
    hero-item heading holds the payload and the MIME type of [heroItem],
    the one under the inspiration heading those of [inspirationPhoto], and
    the one under the image-to-edit heading those of the blob fetched from
    the generated image's URL; the payload is what follows the first comma
    of the data URL. *)
Theorem request_image_segments
        (st s s' : AppState) (r : Outcome unit) (tr : list Event)
        (request : GenerateContentParameters) :
  handleGenerate st s = (r, s', tr) ->
  In (GenerateContent request) tr ->
  countRole HeroItem (contents request) = 1%nat
  /\ countRole Inspiration (contents request)
     = (if present (inspirationPhoto st) then 1 else 0)%nat
  /\ countRole PriorResult (contents request)
     = (if truthy (generatedImage st) then 1 else 0)%nat
  /\ imageCount (contents request)
     = (countRole HeroItem (contents request)
        + countRole Inspiration (contents request)
        + countRole PriorResult (contents request))%nat
  /\ exists (hero : File) (prior : list (option Role * InlineData)),
      heroItem st = Some hero
      /\ labelledImages None (contents request)
         = ((Some HeroItem,
             {| data := nth_error (split "," (fileDataURL hero)) 1;
                mimeType := Some (fileType hero) |})
              :: match inspirationPhoto st with
                 | Some photo =>
                     [(Some Inspiration,
                       {| data := nth_error (split "," (fileDataURL photo)) 1;
                          mimeType := Some (fileType photo) |})]
                 | None => []
                 end
              ++ prior)%list
      /\ (truthy (generatedImage st) = false -> prior = [])
      /\ (forall generated : string,
             truthy (generatedImage st) = true ->
             generatedImage st = Some generated ->
             exists blob : Blob,
               fetchBlob browser generated = Returns blob
               /\ prior = [(Some PriorResult,
                            {| data := nth_error (split "," (blobDataURL blob)) 1;
                               mimeType := Some (blobType blob) |})]).
Proof.
  intros Hrun Hin. apply requestsOf_In in Hin.
  destruct (@handleGenerate_requests st s s' r tr Hrun)
    as [Hnone | [hero [ps [Hhero [Hps Hone]]]]].
  - rewrite Hnone in Hin. contradiction.
  - rewrite Hone in Hin. destruct Hin as [<- | []]. simpl contents.
    destruct (truthy_cases (generatedImage st)) as [[Ht [c [g Hg]]] | [Hf _]].
    + rewrite (@composeParts_refinement st hero c g Hg) in Hps.
      destruct (loadImage browser (String c g)) as [[width height] | e];
        [| discriminate Hps].
      destruct (fetchBlob browser (String c g)) as [blob | e] eqn:Hfetch;
        [| discriminate Hps].
      simpl in Hps. inversion Hps; subst ps. rewrite Ht.
      unfold countRole. rewrite imageCount_refinement, roles_refinement.
      split; [| split; [| split; [| split]]];
        try (destruct (present (inspirationPhoto st)); reflexivity).
      exists hero.
      exists [(Some PriorResult,
               {| data := nth_error (split "," (blobDataURL blob)) 1;
                  mimeType := Some (blobType blob) |})].
      split; [exact Hhero |]. split; [apply labelledImages_refinement |].
      split; [intros Hfalse; discriminate Hfalse |].
      intros generated _ Hgenerated. rewrite Hg in Hgenerated.
      inversion Hgenerated; subst generated.
      exists blob. split; [exact Hfetch | reflexivity].
    + rewrite (@composeParts_fresh st hero Hf) in Hps.
      simpl in Hps. inversion Hps; subst ps. rewrite Hf.
      unfold countRole. rewrite imageCount_fresh, roles_fresh.
      split; [| split; [| split; [| split]]];
        try (destruct (present (inspirationPhoto st)); reflexivity).
      exists hero, []. split; [exact Hhero |].
      split; [rewrite app_nil_r; apply labelledImages_fresh |].
      split; [reflexivity |].
      intros generated Htrue. discriminate Htrue.
Qed.

Lemma includes_In (l : list string) (x : string) :
  includes l x = true <-> In x l.
Proof.
  unfold includes. rewrite existsb_exists. split.
  - intros [y [Hin Heq]]. apply String.eqb_eq in Heq. subst y. assumption.
  - intros Hin. exists x. split; [assumption | apply String.eqb_refl].
Qed.

Lemma system_prompts_differ : MODEL_SHOT_SYSTEM_PROMPT <> PRODUCT_SHOT_SYSTEM_PROMPT.
Proof.
  intros Heq.
  assert (Hneq : String.eqb MODEL_SHOT_SYSTEM_PROMPT PRODUCT_SHOT_SYSTEM_PROMPT = false)
    by (vm_compute; reflexivity).
  rewrite Heq, String.eqb_refl in Hneq. discriminate.
Qed.




(** C3. A refinement (a generated image is held, its dimensions are read
    back, it is fetched, and the files are read: a [File] carries what its
    read yields) emits, in this order: the editing instruction
    built on the active system prompt with the decoded width and height
    written into it as decimal numerals, the hero-item image, the
    inspiration image when one is set, the brief (or the default "subtle
    improvement" sentence when the brief is empty), the prior result read
    back as an image part (the payload and the MIME type of the fetched
    blob), and the final action directive; the only other segments are the
    fixed headings pushed before the inputs. *)
Theorem refinement_segment_order
        (st : AppState) (hero : File) (c : ascii) (s : string)
        (width height : N) (blob : Blob) :
  generatedImage st = Some (String c s) ->
  loadImage browser (String c s) = Returns (width, height) ->
  fetchBlob browser (String c s) = Returns blob ->
  exists (ps : list Part) (widthDigits heightDigits : string),
    composeParts st hero
    = (Returns ps,
       ([LoadImage (String c s); Fetch (String c s); ReadAsDataURL hero]
          ++ match inspirationPhoto st with
             | Some photo => [ReadAsDataURL photo]
             | None => []
             end
          ++ [ReadAsDataURL {| fileName := "previous_lookbook.png";
                               fileType := blobType blob;
                               fileDataURL := blobDataURL blob |}])%list)
    /\ NilEmpty.uint_of_string widthDigits = Some (N.to_uint width)
    /\ NilEmpty.uint_of_string heightDigits = Some (N.to_uint height)
    /\ ps = ([textPart (activeSystemPrompt st ++ editingHead
                         ++ widthDigits ++ "x" ++ heightDigits
                         ++ editingTail);
              textPart headingRefinement;
              textPart headingHeroReference;
              inlinePart {| data := nth_error (split "," (fileDataURL hero)) 1;
                            mimeType := Some (fileType hero) |}]
               ++ match inspirationPhoto st with
                  | Some photo =>
                      [textPart headingInspiration;
                       inlinePart {| data := nth_error (split "," (fileDataURL photo)) 1;
                                     mimeType := Some (fileType photo) |}]
                  | None => []
                  end
               ++ [textPart (creativeBrief
                               (if String.eqb (stylePrompt st) ""
                                then "Make a subtle improvement to the overall aesthetic."
                                else stylePrompt st));
                   textPart headingImageToBeEdited;
                   textPart headingImageToEdit;
                   inlinePart {| data := nth_error (split "," (blobDataURL blob)) 1;
                                 mimeType := Some (blobType blob) |};
                   textPart actionRefine])%list
    /\ withoutHeadings ps
       = ([textPart (activeSystemPrompt st ++ editingHead
                       ++ widthDigits ++ "x" ++ heightDigits
                       ++ editingTail);
           inlinePart {| data := nth_error (split "," (fileDataURL hero)) 1;
                         mimeType := Some (fileType hero) |}]
            ++ match inspirationPhoto st with
               | Some photo =>
                   [inlinePart {| data := nth_error (split "," (fileDataURL photo)) 1;
                                  mimeType := Some (fileType photo) |}]
               | None => []
               end
            ++ [textPart (creativeBrief
                            (if String.eqb (stylePrompt st) ""
                             then "Make a subtle improvement to the overall aesthetic."
                             else stylePrompt st));
                inlinePart {| data := nth_error (split "," (blobDataURL blob)) 1;
                              mimeType := Some (blobType blob) |};
                textPart actionRefine])%list.
Proof.
  intros Hg Hload Hfetch.
  assert (Hbrief : or_else (stylePrompt st) defaultRefinePrompt
                   = if String.eqb (stylePrompt st) ""
                     then "Make a subtle improvement to the overall aesthetic."
                     else stylePrompt st).
  { destruct (stylePrompt st); reflexivity. }
  exists (refinementParts st hero width height
                          (newFile blob "previous_lookbook.png" (blobType blob))),
    (string_of_N width), (string_of_N height).
  split; [| split; [| split; [| split]]].
  - rewrite (@composeParts_refinement st hero c s Hg), Hload, Hfetch.
    unfold inspirationReads. reflexivity.
  - apply NilEmpty.usu.
  - apply NilEmpty.usu.
  - unfold refinementParts, inspirationSegments, editingPrompt.
    rewrite Hbrief. destruct (inspirationPhoto st); reflexivity.
  - unfold refinementParts, inspirationSegments, editingPrompt, activeSystemPrompt.
    rewrite Hbrief.
    destruct (isProductShot st); destruct (inspirationPhoto st);
      destruct (String.eqb (stylePrompt st) ""); reflexivity.
Qed.


End Composition.

Section Handlers.

Variable browser : Browser.
Variable globals : Globals.

Local Abbreviation composeParts := (composeParts browser).
Local Abbreviation handleGenerate := (handleGenerate browser globals).

Lemma imagesOfParts_nil_find (ps : list Part) :
  imagesOfParts ps = [] ->
  find (fun part => present (inlineData part)) ps = None.
Proof.
  induction ps as [| p ps IH]; simpl; intros Hnil; [reflexivity |].
  destruct (inlineData p); simpl in *; [discriminate | auto].
Qed.

(** A response without any image segment makes the lookup come back empty
    or raise a [TypeError]; it never yields a part. *)
Lemma findImagePart_no_image (response : GenerateContentResponse) :
  imageSegments response = [] ->
  fst (findImagePart browser response) = Returns None \/
  exists key, fst (findImagePart browser response)
              = Throws (ErrorObject (typeErrorMessage browser key)).
Proof.
  unfold imageSegments, findImagePart. intros Hnil.
  destruct (candidates response) as [[| candidate cs] |]; simpl; auto.
  simpl in Hnil. apply app_eq_nil in Hnil. destruct Hnil as [Hfirst _].
  unfold imagesOfCandidate in Hfirst.
  destruct (content candidate) as [[[ps |]] |]; simpl; eauto.
  left. rewrite (imagesOfParts_nil_find ps Hfirst). reflexivity.
Qed.

(** What the panel renders after a failed run. *)
Lemma panel_failed_fresh (e : Thrown) (s : AppState) :
  truthy (generatedImage s) = false ->
  errorMessage e <> "" ->
  outputPanel (failed e s) = ShowError (errorMessage e).
Proof.
  intros Hf Hne. unfold outputPanel. simpl.
  destruct (generatedImage s) as [[| c g] |]; simpl in Hf; try discriminate;
    destruct (errorMessage e); congruence.
Qed.

Lemma panel_failed_refinement (e : Thrown) (s : AppState) (c : ascii) (g : string) :
  generatedImage s = Some (String c g) ->
  outputPanel (failed e s) = ShowImage (String c g).
Proof.
  intros Hg. unfold outputPanel. simpl. rewrite Hg. reflexivity.
Qed.

(** Whatever [handleGenerate] stores as the generated image is truthy, so
    a held image and a refinement are the same thing. *)
Lemma imageUrlOf_truthy (image : InlineData) :
  truthy (Some (imageUrlOf image)) = true.
Proof. reflexivity. Qed.

Lemma handleGenerate_generatedImage
      (st s s' : AppState) (r : Outcome unit) (tr : list Event) :
  handleGenerate st s = (r, s', tr) ->
  generatedImage s' = generatedImage s \/ truthy (generatedImage s') = true.
Proof.
  intros Hrun.
  destruct (ai globals) as [client |] eqn:Hai.
  - destruct (heroItem st) as [hero |] eqn:Hhero.
    + rewrite (@handleGenerate_run browser globals client hero st s Hai Hhero) in Hrun.
      destruct (composeParts st hero) as [[ps | e] t].
      * destruct (generateContent client (generationRequest ps)) as [response | e].
        -- destruct (fst (findImagePart browser response)) as [[[txt [image |]] |] | e];
             inversion Hrun; subst; auto.
        -- inversion Hrun; subst; auto.
      * inversion Hrun; subst; auto.
    + unfold handleGenerate in Hrun. rewrite Hai, Hhero in Hrun.
      inversion Hrun; subst; auto.
  - unfold handleGenerate in Hrun. rewrite Hai in Hrun.
    inversion Hrun; subst; auto.
Qed.

(** Starting over clears the image and the error together. *)
Lemma handleStartOver_clears (s : AppState) :
  exists s' : AppState,
    handleStartOver s = (Returns tt, s', [])
    /\ generatedImage s' = None /\ error s' = None.
Proof. eexists. split; [reflexivity | split; reflexivity]. Qed.

(** Without a client the classifier sets the configuration error and calls
    nothing. *)
Lemma identifyItemCategory_without_client (file : File) (s : AppState) :
  ai globals = None ->
  identifyItemCategory browser globals file s
  = (Returns tt, with_error (apiKeyError globals) s, []).
Proof.
  intros Hai. unfold identifyItemCategory. rewrite Hai. reflexivity.
Qed.

(** A response without text fails the same way as a throwing call. *)
Lemma classification_without_text_defaults_to_Other
      (client : GoogleGenAI) (file : File) (s : AppState)
      (response : GenerateContentResponse) :
  ai globals = Some client ->
  generateContent client (classificationRequest (generativePart file)) = Returns response ->
  response_text response = None ->
  exists (s' : AppState) (tr : list Event),
    identifyItemCategory browser globals file s = (Returns tt, s', tr)
    /\ itemCategory s' = Some "Other"
    /\ error s' = error s.
Proof.
  intros Hai Hcall Htext. eexists. eexists. split.
  - unfold identifyItemCategory. rewrite Hai.
    unfold bind, try_catch_finally, liftIO, callGenerateContent, fileToGenerativePart,
      setIsIdentifying, setItemCategory, setShotType, update, throw.
    simpl. rewrite Hcall. simpl. rewrite Htext. simpl. reflexivity.
  - split; reflexivity.
Qed.

(** A download draws the binary64 crop of the decoded image. *)
Lemma handleDownload_run
      (aspect : Aspect) (st s : AppState) (c : ascii) (g : string)
      (naturalWidth naturalHeight : N) :
  generatedImage st = Some (String c g) ->
  loadImage browser (String c g) = Returns (naturalWidth, naturalHeight) ->
  hasContext2d browser = true ->
  handleDownload browser aspect st s
  = (Returns tt, with_isDownloadMenuOpen false s,
     [LoadImage (String c g);
      DrawImage (cropRect (H:=Binary64.float_number) naturalWidth naturalHeight aspect);
      Download ("lookbook-" ++ replace ":" "x" (aspectString aspect) ++ ".png")]).
Proof.
  intros Hg Hload Hctx. unfold handleDownload. rewrite Hg.
  unfold bind, liftIO, setDownloadMenuOpen, update. simpl.
  rewrite Hload, Hctx. reflexivity.
Qed.

(** C5. When the classification call throws, the handler settles normally
    with the item category set to exactly "Other"; the error state is left
    as it was and the output panel renders what it rendered before. *)
Theorem classification_failure_defaults_to_Other
        (client : GoogleGenAI) (file : File) (s : AppState) (e : Thrown) :
  ai globals = Some client ->
  generateContent client (classificationRequest (generativePart file)) = Throws e ->
  exists s' : AppState,
    identifyItemCategory browser globals file s
    = (Returns tt, s',
       [ReadAsDataURL file;
        GenerateContent (classificationRequest (generativePart file));
        ConsoleError (Some "Error identifying item:") e])
    /\ itemCategory s' = Some "Other"
    /\ error s' = error s
    /\ outputPanel s' = outputPanel s
    /\ isIdentifying s' = false.
Proof.
  intros Hai Hthrow. eexists. split.
  - unfold identifyItemCategory. rewrite Hai.
    unfold bind, try_catch_finally, liftIO, callGenerateContent, fileToGenerativePart,
      setIsIdentifying, setItemCategory, setShotType, update.
    simpl. rewrite Hthrow. simpl. reflexivity.
  - repeat split.
Qed.

(** C6, as the code has it.  When the response to a generation call holds
    no image segment, the handler settles normally as a failure: the error
    state is set to a message (the fixed "couldn't generate an image"
    message unless the response is malformed and the lookup raises), the
    stored generated image is unchanged and loading ends.  With no
    generated image held (a fresh generation) the output panel shows the
    message. *)
Theorem no_image_in_response_is_failure
        (client : GoogleGenAI) (hero : File) (st : AppState)
        (ps : list Part) (t : list Event) (response : GenerateContentResponse) :
  ai globals = Some client ->
  heroItem st = Some hero ->
  composeParts st hero = (Returns ps, t) ->
  generateContent client (generationRequest ps) = Returns response ->
  imageSegments response = [] ->
  exists (s' : AppState) (message : string),
    handleGenerate st st
    = (Returns tt, s',
       (t ++ [GenerateContent (generationRequest ps);
              ConsoleError None (ErrorObject message)])%list)
    /\ error s' = Some message
    /\ generatedImage s' = generatedImage st
    /\ isLoading s' = false
    /\ (fst (findImagePart browser response) = Returns None -> message = noImageError)
    /\ (truthy (generatedImage st) = false -> message <> "" ->
        outputPanel s' = ShowError message).
Proof.
  intros Hai Hhero Hcompose Hcall Hnone.
  rewrite (@handleGenerate_run browser globals client hero st st Hai Hhero).
  rewrite Hcompose, Hcall.
  destruct (findImagePart_no_image response Hnone) as [Hfind | [key Hfind]];
    rewrite Hfind.
  - exists (failed (ErrorObject noImageError) st), noImageError.
    repeat split.
    intros Hf Hne. apply (panel_failed_fresh (ErrorObject noImageError) st Hf Hne).
  - exists (failed (ErrorObject (typeErrorMessage browser key)) st),
      (typeErrorMessage browser key).
    repeat split.
    + intros Hdiff. discriminate Hdiff.
    + intros Hf Hne.
      apply (panel_failed_fresh (ErrorObject (typeErrorMessage browser key)) st Hf Hne).
Qed.

(** C8, as the code has it.  When reading back the prior result's
    dimensions fails during a refinement, the handler settles normally: the
    error state is set to the rejection's message ("An unknown error
    occurred." when the rejection is not an [Error]), the prior result stays
    stored, loading ends, and nothing is submitted to the service: the only
    effects are the image load and the console log. *)
Theorem refinement_decode_failure
        (client : GoogleGenAI) (hero : File) (st : AppState)
        (c : ascii) (g : string) (e : Thrown) :
  ai globals = Some client ->
  heroItem st = Some hero ->
  generatedImage st = Some (String c g) ->
  loadImage browser (String c g) = Throws e ->
  exists s' : AppState,
    handleGenerate st st
    = (Returns tt, s', [LoadImage (String c g); ConsoleError None e])
    /\ requestsOf [LoadImage (String c g); ConsoleError None e] = []
    /\ error s' = Some (errorMessage e)
    /\ generatedImage s' = Some (String c g)
    /\ isLoading s' = false.
Proof.
  intros Hai Hhero Hg Hload.
  rewrite (@handleGenerate_run browser globals client hero st st Hai Hhero).
  rewrite (@composeParts_refinement browser st hero c g Hg), Hload.
  exists (failed e st). repeat split.
  simpl. exact Hg.
Qed.

End Handlers.

(** C7, as the code has it.  When constructing the client throws at
    start-up, so that no client exists (the code tests nothing but [!ai]),
    every run of [handleGenerate], from any state, settles at once with the
    error state set to the one configuration message and loading off; it
    causes no event at all: no request, no fetch, no file read, no part
    composed.  With no generated image held the output panel shows that
    message. *)
Theorem missing_credential_fails_closed
        (browser : Browser)
        (newGoogleGenAI : option string -> Outcome GoogleGenAI)
        (API_KEY : option string) (e : Thrown) (st s : AppState) :
  newGoogleGenAI API_KEY = Throws e ->
  handleGenerate browser (fst (initialize newGoogleGenAI API_KEY)) st s
  = (Returns tt, with_isLoading false (with_error (Some configurationError) s), [])
  /\ error (with_isLoading false (with_error (Some configurationError) s))
     = Some configurationError
  /\ (truthy (generatedImage s) = false ->
      outputPanel (with_isLoading false (with_error (Some configurationError) s))
      = ShowError configurationError).
Proof.
  intros Hthrow. unfold initialize. rewrite Hthrow. simpl.
  repeat split.
  intros Hf. unfold outputPanel. simpl.
  destruct (generatedImage s) as [[| c g] |]; simpl in Hf; try discriminate; reflexivity.
Qed.

(* ===================================================================== *)
(** * The theorems at concrete runs *)
(* ===================================================================== *)

Lemma request_image_segments_witness :
  exists request : GenerateContentParameters,
    requestsOf (snd (handleGenerate sampleBrowser (globalsWith imageClient)
                                    refiningState refiningState))
    = [request]
    /\ countRole HeroItem (contents request) = 1%nat
    /\ countRole Inspiration (contents request) = 1%nat
    /\ countRole PriorResult (contents request) = 1%nat
    /\ imageCount (contents request) = 3%nat
    /\ labelledImages None (contents request)
       = [(Some HeroItem, {| data := Some "aGVybw=="; mimeType := Some "image/png" |});
          (Some Inspiration, {| data := Some "bW9vZA=="; mimeType := Some "image/jpeg" |});
          (Some PriorResult, {| data := Some "cHJpb3I="; mimeType := Some "image/png" |})].
Proof.
  exists (generationRequest sampleRefinementParts).
  split; [vm_compute; reflexivity |].
  assert (Hrun : handleGenerate sampleBrowser (globalsWith imageClient)
                                refiningState refiningState
                 = (Returns tt,
                    snd (fst (handleGenerate sampleBrowser (globalsWith imageClient)
                                             refiningState refiningState)),
                    snd (handleGenerate sampleBrowser (globalsWith imageClient)
                                        refiningState refiningState)))
    by (vm_compute; reflexivity).
  assert (Hin : In (GenerateContent (generationRequest sampleRefinementParts))
                   (snd (handleGenerate sampleBrowser (globalsWith imageClient)
                                        refiningState refiningState)))
    by (vm_compute; tauto).
  destruct (@request_image_segments
              sampleBrowser (globalsWith imageClient) refiningState refiningState
              _ _ _ (generationRequest sampleRefinementParts) Hrun Hin)
    as [Hhero [Hinspiration [Hprior [Hcount [hero [prior [Hitem [Hlabelled [_ Hfetched]]]]]]]]].
  destruct (Hfetched priorUrl eq_refl eq_refl) as [blob [Hblob Hsegment]].
  simpl in Hitem, Hblob.
  injection Hitem as Hitem. injection Hblob as Hblob.
  subst hero blob prior.
  split; [exact Hhero |]. split; [exact Hinspiration |]. split; [exact Hprior |].
  split; [rewrite Hcount, Hhero, Hinspiration, Hprior; reflexivity |].
  exact Hlabelled.
Defined.

Lemma refinement_segment_order_witness :
  fst (composeParts sampleBrowser refiningState sampleHero)
  = Returns
      [textPart (MODEL_SHOT_SYSTEM_PROMPT ++ editingHead ++ "1024x768" ++ editingTail);
       textPart "

---

**CREATIVE DIRECTION FOR REFINEMENT**";
       textPart "

**INPUT: HERO ITEM REFERENCE**";
       inlinePart {| data := Some "aGVybw=="; mimeType := Some "image/png" |};
       textPart "

**INPUT: AESTHETIC INSPIRATION PHOTO**";
       inlinePart {| data := Some "bW9vZA=="; mimeType := Some "image/jpeg" |};
       textPart ("

**INPUT: CREATIVE BRIEF**
" ++ dq ++ "Make a subtle improvement to the overall aesthetic." ++ dq);
       textPart "

---

**IMAGE TO BE EDITED**";
       textPart "

**INPUT: IMAGE TO EDIT**";
       inlinePart {| data := Some "cHJpb3I="; mimeType := Some "image/png" |};
       textPart "

---

**ACTION: Generate the refined image now based on the new creative direction and the image to be edited.**"].
Proof.
  destruct (@refinement_segment_order
              sampleBrowser refiningState sampleHero "d"%char
              "ata:image/png;base64,cHJpb3I=" 1024 768 sampleBlob
              eq_refl eq_refl eq_refl)
    as [ps [widthDigits [heightDigits [Hrun [Hwidth [Hheight [Hps _]]]]]]].
  apply NilEmpty.sus in Hwidth. apply NilEmpty.sus in Hheight.
  rewrite Hrun, Hps, <- Hwidth, <- Hheight. vm_compute. reflexivity.
Defined.


Lemma classification_failure_defaults_to_Other_witness :
  exists s' : AppState,
    identifyItemCategory sampleBrowser (globalsWith throwingClient) sampleHero freshState
    = (Returns tt, s',
       [ReadAsDataURL sampleHero;
        GenerateContent (classificationRequest (generativePart sampleHero));
        ConsoleError (Some "Error identifying item:") (ErrorObject "503 Service Unavailable")])
    /\ itemCategory s' = Some "Other"
    /\ error s' = error freshState
    /\ outputPanel s' = outputPanel freshState
    /\ isIdentifying s' = false.
Proof.
  exact (@classification_failure_defaults_to_Other
           sampleBrowser (globalsWith throwingClient) throwingClient sampleHero freshState
           (ErrorObject "503 Service Unavailable") eq_refl eq_refl).
Defined.

Lemma missing_credential_fails_closed_witness :
  handleGenerate sampleBrowser
                 (fst (initialize (fun _ => Throws (ErrorObject "An API Key must be set."))
                                  None))
                 freshState freshState
  = (Returns tt, with_isLoading false (with_error (Some configurationError) freshState), []).
Proof.
  exact (proj1 (@missing_credential_fails_closed
                  sampleBrowser (fun _ => Throws (ErrorObject "An API Key must be set."))
                  None (ErrorObject "An API Key must be set.")
                  freshState freshState eq_refl)).
Defined.

(** C7 as stated fails for a key that is there but not valid: the
    constructor accepts it, so the client exists; a generation attempt then
    reads the files, composes the parts and submits the request, and the
    error it ends with is the service's and not the configuration
    message. *)
Lemma accepted_invalid_key_reaches_the_service :
  ai (fst (initialize presenceCheckingConstructor (Some "revoked-key")))
  = Some rejectedKeyClient
  /\ handleGenerate sampleBrowser
                    (fst (initialize presenceCheckingConstructor (Some "revoked-key")))
                    freshState freshState
     = (Returns tt,
        with_isLoading false (with_error (Some keyRejected) freshState),
        [ReadAsDataURL sampleHero;
         ReadAsDataURL sampleInspiration;
         GenerateContent (generationRequest (freshParts freshState sampleHero));
         ConsoleError None (ErrorObject keyRejected)])
  /\ List.length (freshParts freshState sampleHero) = 7%nat
  /\ keyRejected <> configurationError.
Proof.
  split; [reflexivity |]. split; [vm_compute; reflexivity |].
  split; [reflexivity |]. intros Heq. vm_compute in Heq. discriminate Heq.
Qed.

Lemma no_image_in_response_is_failure_witness :
  exists s' : AppState,
    fst (handleGenerate sampleBrowser (globalsWith textOnlyClient) freshState freshState)
    = (Returns tt, s')
    /\ error s' = Some noImageError
    /\ generatedImage s' = None
    /\ outputPanel s' = ShowError noImageError.
Proof.
  destruct (@no_image_in_response_is_failure
              sampleBrowser (globalsWith textOnlyClient) textOnlyClient sampleHero freshState
              (freshParts freshState sampleHero)
              (ReadAsDataURL sampleHero :: inspirationReads freshState)%list
              textOnlyResponse eq_refl eq_refl eq_refl eq_refl eq_refl)
    as [s' [message [Hrun [Herror [Hkept [_ [Hmessage Hfresh]]]]]]].
  pose proof (Hmessage eq_refl) as Hfixed. subst message.
  exists s'. split; [rewrite Hrun; reflexivity |].
  split; [exact Herror |]. split; [exact Hkept |].
  apply Hfresh; [reflexivity | discriminate].
Defined.

(** C6 as stated fails on a refinement: the response holds no image
    segment, the request went out, and yet the output panel shows no error
    but the unchanged prior result. *)
Lemma no_image_on_refinement_shows_prior_result :
  (exists ps : list Part,
      fst (composeParts sampleBrowser refiningState sampleHero) = Returns ps
      /\ In (GenerateContent (generationRequest ps))
            (snd (handleGenerate sampleBrowser (globalsWith textOnlyClient)
                                 refiningState refiningState))
      /\ generateContent textOnlyClient (generationRequest ps) = Returns textOnlyResponse)
  /\ imageSegments textOnlyResponse = []
  /\ outputPanel
       (snd (fst (handleGenerate sampleBrowser (globalsWith textOnlyClient)
                                 refiningState refiningState)))
     = ShowImage priorUrl
  /\ outputPanel refiningState = ShowImage priorUrl
  /\ ~ (exists message : string,
           outputPanel
             (snd (fst (handleGenerate sampleBrowser (globalsWith textOnlyClient)
                                       refiningState refiningState)))
           = ShowError message).
Proof.
  split; [| split; [| split; [| split]]].
  - exists sampleRefinementParts. split; [vm_compute; reflexivity |].
    split; [vm_compute; tauto | reflexivity].
  - reflexivity.
  - vm_compute. reflexivity.
  - reflexivity.
  - intros [message Hshown]. vm_compute in Hshown. discriminate Hshown.
Qed.

Lemma refinement_decode_failure_witness :
  exists s' : AppState,
    handleGenerate brokenImageBrowser (globalsWith imageClient) refiningState refiningState
    = (Returns tt, s', [LoadImage priorUrl; ConsoleError None OtherValue])
    /\ requestsOf [LoadImage priorUrl; ConsoleError None OtherValue] = []
    /\ error s' = Some "An unknown error occurred."
    /\ generatedImage s' = Some priorUrl
    /\ isLoading s' = false.
Proof.
  exact (@refinement_decode_failure
           brokenImageBrowser (globalsWith imageClient) imageClient sampleHero refiningState
           "d"%char "ata:image/png;base64,cHJpb3I=" OtherValue
           eq_refl eq_refl eq_refl eq_refl).
Defined.

(** C8 as stated fails: decoding the prior result is rejected during a
    refinement, the error state is set, and yet the output panel shows no
    error but the prior result. *)
Lemma decode_failure_shows_prior_result :
  truthy (generatedImage refiningState) = true
  /\ loadImage brokenImageBrowser priorUrl = Throws OtherValue
  /\ error (snd (fst (handleGenerate brokenImageBrowser (globalsWith imageClient)
                                     refiningState refiningState)))
     = Some "An unknown error occurred."
  /\ outputPanel
       (snd (fst (handleGenerate brokenImageBrowser (globalsWith imageClient)
                                 refiningState refiningState)))
     = ShowImage priorUrl
  /\ ~ (exists message : string,
           outputPanel
             (snd (fst (handleGenerate brokenImageBrowser (globalsWith imageClient)
                                       refiningState refiningState)))
           = ShowError message).
Proof.
  split; [| split; [| split; [| split]]]; try (vm_compute; reflexivity).
  intros [message Hshown]. vm_compute in Hshown. discriminate Hshown.
Qed.

(* ===================================================================== *)
(** * More on the export crop *)
(* ===================================================================== *)

Module CropMore.
Import Exact Binary64 CropSpec CropFacts.
Local Open Scope Q_scope.

Local Abbreviation crop := (cropRect (T:=xq)).

Lemma QofN_nonneg (n : N) : 0 <= QofN n.
Proof. unfold QofN, Qle. simpl. lia. Qed.

(** A source of height zero: the aspect is [Infinity] or [NaN]. *)
Lemma crop_zero_height (w : N) (aspect : Aspect) :
  crop w 0 aspect =
  match w with
  | N0 => mkRect (Fin 0) (Fin 0) (Fin 0) (Fin 0)
  | Npos _ =>
      mkRect (Fin ((QofN w - 0 * targetQ aspect) / 2)) (Fin 0)
             (Fin (0 * targetQ aspect)) (Fin 0)
  end.
Proof.
  destruct w as [| p].
  - destruct aspect; reflexivity.
  - destruct aspect; reflexivity.
Qed.

(** With a positive height the crop, by the comparison of [w] with
    [h * t]; [w] may be zero. *)
Lemma crop_cases (w h : N) (aspect : Aspect) :
  (0 < h)%N ->
  (QofN h * targetQ aspect < QofN w /\
   crop w h aspect
   = mkRect (Fin ((QofN w - QofN h * targetQ aspect) / 2)) (Fin 0)
            (Fin (QofN h * targetQ aspect)) (Fin (QofN h)))
  \/ (QofN w < QofN h * targetQ aspect /\
      crop w h aspect
      = mkRect (Fin 0)
               (Fin (if aspect_eqb aspect A16x9
                     then (QofN h - QofN w / targetQ aspect) * (3 / 10)
                     else (QofN h - QofN w / targetQ aspect) / 2))
               (Fin (QofN w)) (Fin (QofN w / targetQ aspect)))
  \/ (QofN w == QofN h * targetQ aspect /\
      crop w h aspect = mkRect (Fin 0) (Fin 0) (Fin (QofN w)) (Fin (QofN h))).
Proof.
  intros Hh. rewrite (crop_finite w aspect Hh).
  destruct (Qlt_le_dec (QofN h * targetQ aspect) (QofN w)) as [Hgt | Hle].
  - left. split; [assumption | reflexivity].
  - destruct (Qlt_le_dec (QofN w) (QofN h * targetQ aspect)) as [Hlt | Hge].
    + right. left. split; [assumption | reflexivity].
    + right. right. split; [lra | reflexivity].
Qed.

(** The crop is a finite rectangle inside the source for every pair of
    natural dimensions, zero included: in exact arithmetic neither [NaN]
    nor an infinity reaches [drawImage], although the aspect of a source of
    height zero is [Infinity] or [NaN]. *)
Theorem crop_finite_inside_any_source (w h : N) (aspect : Aspect) :
  exists x y cw ch : Q,
    crop w h aspect = mkRect (Fin x) (Fin y) (Fin cw) (Fin ch) /\
    0 <= x /\ 0 <= y /\ 0 <= cw /\ 0 <= ch /\
    x + cw <= QofN w /\ y + ch <= QofN h.
Proof.
  pose proof (QofN_nonneg w) as HW.
  pose proof (targetQ_pos aspect) as Ht.
  destruct h as [| p].
  - rewrite crop_zero_height. destruct w as [| q].
    + do 4 eexists. split; [reflexivity |]. repeat split; apply Qle_refl.
    + do 4 eexists. split; [reflexivity |].
      set (W := QofN (N.pos q)) in *. set (t := targetQ aspect) in *. clearbody W t.
      rewrite (Qhalf (W - 0 * t)).
      change (QofN 0) with 0. repeat split; lra.
  - assert (Hh : (0 < N.pos p)%N) by reflexivity.
    pose proof (QofN_pos Hh) as HH.
    destruct (crop_cases w aspect Hh) as [[Hgt ->] | [[Hlt ->] | [Heq ->]]];
      set (W := QofN w) in *; set (Hq := QofN (N.pos p)) in *;
      set (t := targetQ aspect) in *; clearbody W Hq t.
    + assert (Hprod : 0 < Hq * t) by (apply Qmult_lt_0_compat; assumption).
      do 4 eexists. split; [reflexivity |].
      set (q := Hq * t) in *. clearbody q.
      rewrite (Qhalf (W - q)). repeat split; lra.
    + assert (Hdiv : 0 <= W / t) by (apply Qle_shift_div_l; lra).
      assert (Hfit : W / t <= Hq).
      { apply Qle_shift_div_r; [assumption | lra]. }
      do 4 eexists. split; [reflexivity |].
      set (d := W / t) in *. clearbody d.
      destruct (aspect_eqb aspect A16x9);
        [rewrite Qthree_tenths | rewrite (Qhalf (Hq - d))];
        repeat split; lra.
    + do 4 eexists. split; [reflexivity |]. repeat split; lra.
Qed.

(** In exact arithmetic, for positive dimensions, the width and the height
    of the crop are in exactly the requested ratio.  In binary64, which is
    what the code computes, rounding can break the equality: there are
    positive dimensions (1536 x 672) whose 16:9 crop has a width that
    divided by its height is not the 16/9 it was cropped to. *)
Theorem crop_has_target_aspect :
  (forall (w h : N) (aspect : Aspect),
      (0 < w)%N -> (0 < h)%N ->
      exists cw ch : Q,
        sWidth (crop w h aspect) = Fin cw /\
        sHeight (crop w h aspect) = Fin ch /\
        cw / ch == targetQ aspect)
  /\ (exists w h : N,
         (0 < w)%N /\ (0 < h)%N /\
         PrimFloat.eqb
           (PrimFloat.div (sWidth (cropRect (T:=float) w h A16x9))
                          (sHeight (cropRect (T:=float) w h A16x9)))
           (targetAspectOf (T:=float) A16x9)
         = false).
Proof.
  split.
  - intros w h aspect Hw Hh.
    pose proof (QofN_pos Hw) as HW.
    pose proof (QofN_pos Hh) as HH.
    pose proof (targetQ_pos aspect) as Ht.
    destruct (crop_cases w aspect Hh) as [[Hgt ->] | [[Hlt ->] | [Heq ->]]];
      do 2 eexists; (split; [reflexivity | split; [reflexivity |]]); simpl.
    + field. lra.
    + field. split; lra.
    + rewrite Heq. field. lra.
  - exists 1536%N, 672%N. split; [reflexivity |]. split; [reflexivity |].
    vm_compute. reflexivity.
Qed.

Lemma crop_has_target_aspect_witness :
  exists cw ch : Q,
    sWidth (crop 1920 1080 A9x16) = Fin cw /\
    sHeight (crop 1920 1080 A9x16) = Fin ch /\
    cw / ch == targetQ A9x16.
Proof.
  exact (proj1 crop_has_target_aspect 1920%N 1080%N A9x16 eq_refl eq_refl).
Defined.

(** Where the crop sits.  In every ordered number system, binary64
    included: horizontally the crop spans the full width from 0 or its
    offset is [(sourceWidth - sWidth) / 2]; vertically it spans the full
    height from 0, or its offset is [(sourceHeight - sHeight) * 0.3] for
    16:9 and [(sourceHeight - sHeight) / 2] for the other two aspects.  In
    exact arithmetic the two formulas give the offsets in every case, the
    full-width and full-height ones included, and for every pair of
    dimensions. *)
Theorem crop_placement :
  (forall (T : Type) (num : JsNumber T) (eqv : T -> T -> Prop)
          (ordered : OrderedJsNumber eqv) (w h : N) (aspect : Aspect),
      ((sx (cropRect w h aspect) = lit 0 /\ sWidth (cropRect w h aspect) = lit w)
       \/ sx (cropRect w h aspect)
          = ((lit w - sWidth (cropRect w h aspect)) / lit 2)%js)
      /\ ((sy (cropRect w h aspect) = lit 0 /\ sHeight (cropRect w h aspect) = lit h)
          \/ (aspect = A16x9
              /\ sy (cropRect w h aspect)
                 = ((lit h - sHeight (cropRect w h aspect)) * lit_0_3)%js)
          \/ (aspect <> A16x9
              /\ sy (cropRect w h aspect)
                 = ((lit h - sHeight (cropRect w h aspect)) / lit 2)%js)))
  /\ (forall (w h : N) (aspect : Aspect),
         exists x y cw ch : Q,
           crop w h aspect = mkRect (Fin x) (Fin y) (Fin cw) (Fin ch) /\
           x == (QofN w - cw) / 2 /\
           y == (QofN h - ch) * (if aspect_eqb aspect A16x9 then 3 # 10 else 1 # 2)).
Proof.
  split.
  - intros T num eqv ordered w h aspect.
    rewrite cropRect_unfold. cbv zeta.
    destruct (sourceAspectOf w h > targetAspectOf aspect)%js eqn:Hgt.
    + rewrite (num_lt_asym _ _ Hgt), andb_false_r. split.
      * right. reflexivity.
      * left. split; reflexivity.
    + destruct (sourceAspectOf w h < targetAspectOf aspect)%js eqn:Hlt.
      * destruct aspect; simpl; (split; [left; split; reflexivity |]); right.
        -- right. split; [discriminate | reflexivity].
        -- right. split; [discriminate | reflexivity].
        -- left. split; reflexivity.
      * rewrite andb_false_r. split; left; split; reflexivity.
  - intros w h aspect. destruct h as [| p].
    + rewrite crop_zero_height. destruct w as [| q].
      * do 4 eexists. split; [reflexivity |].
        destruct (aspect_eqb aspect A16x9); split; reflexivity.
      * do 4 eexists. split; [reflexivity |].
        change (QofN 0) with 0. split; [reflexivity |].
        destruct (aspect_eqb aspect A16x9); reflexivity.
    + assert (Hh : (0 < N.pos p)%N) by reflexivity.
      pose proof (targetQ_pos aspect) as Ht.
      destruct (crop_cases w aspect Hh) as [[Hgt ->] | [[Hlt ->] | [Heq ->]]];
        do 4 eexists; (split; [reflexivity |]).
      * split; [reflexivity |].
        destruct (aspect_eqb aspect A16x9); ring.
      * split; [field |].
        destruct (aspect_eqb aspect A16x9); field; lra.
      * split; [field |].
        destruct (aspect_eqb aspect A16x9); ring.
Qed.

Lemma crop_placement_witness :
  sx (cropRect (T:=float) 1920 1080 A1x1)
  = PrimFloat.div (PrimFloat.sub (lit 1920) (sWidth (cropRect (T:=float) 1920 1080 A1x1)))
                  (lit 2)
  /\ sy (cropRect (T:=float) 1080 1920 A16x9)
     = PrimFloat.mul (PrimFloat.sub (lit 1920)
                                    (sHeight (cropRect (T:=float) 1080 1920 A16x9)))
                     lit_0_3.
Proof.
  destruct (proj1 crop_placement float float_number float_eq binary64_ordered
                  1920%N 1080%N A1x1) as [[[Hzero _] | Hcentred] _].
  - vm_compute in Hzero. discriminate Hzero.
  - split; [exact Hcentred |].
    destruct (proj1 crop_placement float float_number float_eq binary64_ordered
                    1080%N 1920%N A16x9) as [_ [[Hzero _] | [[_ Hbiased] | [Hother _]]]].
    + vm_compute in Hzero. discriminate Hzero.
    + exact Hbiased.
    + contradiction Hother. reflexivity.
Defined.

(** In every ordered number system, binary64 included, the crop keeps one
    side of the source whole: it spans the full width from [sx = 0], or the
    full height from [sy = 0]. *)
Theorem crop_keeps_a_full_side
        (T : Type) (num : JsNumber T) (eqv : T -> T -> Prop)
        (ordered : OrderedJsNumber eqv) (w h : N) (aspect : Aspect) :
  (sx (cropRect w h aspect) = lit 0 /\ sWidth (cropRect w h aspect) = lit w)
  \/ (sy (cropRect w h aspect) = lit 0 /\ sHeight (cropRect w h aspect) = lit h).
Proof.
  rewrite cropRect_unfold. cbv zeta.
  destruct (sourceAspectOf w h > targetAspectOf aspect)%js eqn:Hgt.
  - rewrite (num_lt_asym _ _ Hgt), andb_false_r. right. split; reflexivity.
  - destruct (sourceAspectOf w h < targetAspectOf aspect)%js eqn:Hlt.
    + left. destruct (aspect_eqb aspect A16x9); split; reflexivity.
    + rewrite andb_false_r. left. split; reflexivity.
Qed.

Lemma crop_keeps_a_full_side_witness :
  (sx (cropRect (T:=float) 1080 1920 A16x9) = lit 0
   /\ sWidth (cropRect (T:=float) 1080 1920 A16x9) = lit 1080)
  \/ (sy (cropRect (T:=float) 1080 1920 A16x9) = lit 0
      /\ sHeight (cropRect (T:=float) 1080 1920 A16x9) = lit 1920).
Proof.
  exact (@crop_keeps_a_full_side float float_number float_eq binary64_ordered
                                 1080%N 1920%N A16x9).
Defined.

End CropMore.

(* ===================================================================== *)
(** * Runs in which a file read fails *)
(* ===================================================================== *)

Section ReadingRuns.

Variable browser : Browser.
Variable globals : Globals.
Variable result : File -> option string.

Lemma reading_fileToGenerativePart (file : File) :
  Reading.fileToGenerativePart result file
  = match result file with
    | Some url =>
        (Reading.Settled
           (Returns (inlinePart {| data := nth_error (split "," url) 1;
                                   mimeType := Some (fileType file) |})),
         [ReadAsDataURL file])
    | None => (Reading.Pending, [ReadAsDataURL file])
    end.
Proof.
  unfold Reading.fileToGenerativePart. destruct (result file); reflexivity.
Qed.

Lemma reading_pushInspiration (st : AppState) (ps : list Part) :
  Reading.pushInspiration result st ps
  = match inspirationPhoto st with
    | None => (Reading.Settled (Returns ps), [])
    | Some photo =>
        match result photo with
        | Some url =>
            (Reading.Settled
               (Returns (ps ++ [textPart headingInspiration;
                                inlinePart {| data := nth_error (split "," url) 1;
                                              mimeType := Some (fileType photo) |}])%list),
             [ReadAsDataURL photo])
        | None => (Reading.Pending, [ReadAsDataURL photo])
        end
    end.
Proof.
  unfold Reading.pushInspiration.
  destruct (inspirationPhoto st) as [photo |]; [| reflexivity].
  rewrite reading_fileToGenerativePart.
  destruct (result photo); simpl; [| reflexivity].
  unfold push. rewrite <- app_assoc. reflexivity.
Qed.


(** How a run settles, or does not, once the client and the hero item are
    there. *)
Lemma reading_handleGenerate_run
      (client : GoogleGenAI) (hero : File) (st s : AppState) :
  ai globals = Some client ->
  heroItem st = Some hero ->
  Reading.handleGenerate browser globals result st s =
  match Reading.composeParts browser result st hero with
  | (Reading.Pending, t) => (Reading.Pending, started s, t)
  | (Reading.Settled (Throws e), t) =>
      (Reading.Settled (Returns tt), failed e s, (t ++ [ConsoleError None e])%list)
  | (Reading.Settled (Returns ps), t) =>
      match generateContent client (generationRequest ps) with
      | Throws e =>
          (Reading.Settled (Returns tt), failed e s,
           (t ++ [GenerateContent (generationRequest ps); ConsoleError None e])%list)
      | Returns response =>
          match fst (findImagePart browser response) with
          | Throws e =>
              (Reading.Settled (Returns tt), failed e s,
               (t ++ [GenerateContent (generationRequest ps); ConsoleError None e])%list)
          | Returns (Some {| inlineData := Some image |}) =>
              (Reading.Settled (Returns tt), succeeded image s,
               (t ++ [GenerateContent (generationRequest ps)])%list)
          | Returns _ =>
              (Reading.Settled (Returns tt), failed (ErrorObject noImageError) s,
               (t ++ [GenerateContent (generationRequest ps);
                      ConsoleError None (ErrorObject noImageError)])%list)
          end
      end
  end.
Proof.
  intros Hai Hhero. unfold Reading.handleGenerate. rewrite Hai, Hhero.
  unfold Reading.handler_bind, Reading.try_catch_finally, Reading.liftAsync,
    Reading.run, Reading.settled, callGenerateContent, setIsLoading,
    setError, setGeneratedImage, update, throw, failed, succeeded, started.
  simpl.
  destruct (Reading.composeParts browser result st hero) as [[[ps | e] |] t]; simpl.
  - destruct (generateContent client (generationRequest ps)) as [response | e]; simpl.
    + pose proof (findImagePart_silent browser response) as Hsilent.
      destruct (findImagePart browser response) as [[[[txt [image |]] |] | e] t'];
        simpl in Hsilent; subst t'; simpl; trace_norm; reflexivity.
    + trace_norm. reflexivity.
  - trace_norm. reflexivity.
  - reflexivity.
Qed.

End ReadingRuns.

Section ReadsComplete.

Variable browser : Browser.
Variable globals : Globals.

(** When every read yields the file's data URL, composition and the two
    handlers run as the ones without the pending path do. *)
Lemma reading_composeParts_complete (st : AppState) (hero : File) :
  Reading.composeParts browser readsComplete st hero
  = Reading.settled (composeParts browser st hero).
Proof.
  assert (Hinspiration : forall ps,
             Reading.pushInspiration readsComplete st ps
             = Reading.settled (pushInspiration st ps)).
  { intros ps. rewrite reading_pushInspiration, pushInspiration_run.
    unfold inspirationSegments, inspirationReads, readsComplete, Reading.settled.
    destruct (inspirationPhoto st); simpl; [| rewrite app_nil_r]; reflexivity. }
  unfold Reading.composeParts, composeParts.
  destruct (generatedImage st) as [[| c g] |].
  - unfold Reading.fileToGenerativePart at 1. unfold readsComplete at 1. simpl.
    rewrite Hinspiration. destruct (pushInspiration st _) as [[ps | e] t]; reflexivity.
  - unfold getImageDimensions, fetchAsBlob. simpl.
    destruct (loadImage browser (String c g)) as [[width height] | e]; simpl;
      [| reflexivity].
    destruct (fetchBlob browser (String c g)) as [blob | e]; simpl; [| reflexivity].
    rewrite Hinspiration. destruct (pushInspiration st _) as [[ps | e] t]; reflexivity.
  - unfold Reading.fileToGenerativePart at 1. unfold readsComplete at 1. simpl.
    rewrite Hinspiration. destruct (pushInspiration st _) as [[ps | e] t]; reflexivity.
Qed.

Lemma reading_handleGenerate_complete (st s : AppState) :
  Reading.handleGenerate browser globals readsComplete st s
  = Reading.run (handleGenerate browser globals st) s.
Proof.
  destruct (ai globals) as [client |] eqn:Hai.
  - destruct (heroItem st) as [hero |] eqn:Hhero.
    + unfold Reading.run.
      rewrite (@handleGenerate_run browser globals client hero st s Hai Hhero).
      rewrite (@reading_handleGenerate_run browser globals readsComplete client hero st s Hai Hhero).
      rewrite reading_composeParts_complete. unfold Reading.settled.
      destruct (composeParts browser st hero) as [[ps | e] t]; simpl; [| reflexivity].
      destruct (generateContent client (generationRequest ps)) as [response | e];
        [| reflexivity].
      destruct (fst (findImagePart browser response)) as [[[txt [image |]] |] | e];
        reflexivity.
    + unfold Reading.handleGenerate, handleGenerate, Reading.run.
      rewrite Hai, Hhero. reflexivity.
  - unfold Reading.handleGenerate, handleGenerate, Reading.run.
    rewrite Hai. reflexivity.
Qed.

Lemma reading_identifyItemCategory_complete (file : File) (s : AppState) :
  Reading.identifyItemCategory browser globals readsComplete file s
  = Reading.run (identifyItemCategory browser globals file) s.
Proof.
  unfold Reading.identifyItemCategory, identifyItemCategory, Reading.run.
  destruct (ai globals) as [client |]; [| reflexivity].
  unfold Reading.handler_bind, Reading.try_catch_finally, Reading.liftAsync,
    Reading.run, Reading.settled, bind, try_catch_finally, liftIO,
    callGenerateContent, fileToGenerativePart,
    setIsIdentifying, setItemCategory, setShotType, update, throw.
  rewrite reading_fileToGenerativePart. unfold readsComplete. simpl.
  destruct (generateContent client _) as [response | e]; simpl; [| reflexivity].
  destruct (response_text response); reflexivity.
Qed.

End ReadsComplete.

(* ===================================================================== *)
(** * More on [handleGenerate] *)
(* ===================================================================== *)

Section GenerateMore.

Variable browser : Browser.
Variable globals : Globals.

Variable result : File -> option string.


(** A run of [handleGenerate] submits at most one request, never retrying;
    and it submits one only with a client and a hero item, always to the
    image model and asking for image and text. *)
Theorem handleGenerate_submits_at_most_once
        (st s s' : AppState) (r : Outcome unit) (tr : list Event) :
  handleGenerate browser globals st s = (r, s', tr) ->
  (List.length (requestsOf tr) <= 1)%nat
  /\ forall q : GenerateContentParameters,
      In (GenerateContent q) tr ->
      ai globals <> None
      /\ heroItem st <> None
      /\ model q = "gemini-2.5-flash-image-preview"
      /\ config q = Some [IMAGE; TEXT].
Proof.
  intros Hrun.
  destruct (@handleGenerate_requests browser globals st s s' r tr Hrun)
    as [Hnone | [hero [ps [Hhero [_ Hone]]]]].
  - split; [rewrite Hnone; simpl; lia |].
    intros q Hin. apply requestsOf_In in Hin. rewrite Hnone in Hin. contradiction.
  - split; [rewrite Hone; simpl; lia |].
    intros q Hin. apply requestsOf_In in Hin. rewrite Hone in Hin.
    destruct Hin as [<- | []].
    split; [| split; [congruence | split; reflexivity]].
    intros Hai. unfold handleGenerate in Hrun. rewrite Hai in Hrun.
    inversion Hrun; subst. discriminate Hone.
Qed.

(** When the first candidate of the response carries an image part, the
    first such part becomes the generated image, stored as the data URL
    [data:<mimeType>;base64,<data>]; an error left by an earlier run is
    cleared, loading ends, the panel shows the new image, the button now
    reads "Refine Lookbook", and the next composition is a refinement that
    starts by decoding that very URL. *)
Theorem generation_success
        (client : GoogleGenAI) (hero : File) (st : AppState)
        (ps : list Part) (t : list Event) (response : GenerateContentResponse)
        (candidate : Candidate) (others : list Candidate)
        (answer : list Part) (found : Part) (image : InlineData) :
  ai globals = Some client ->
  heroItem st = Some hero ->
  composeParts browser st hero = (Returns ps, t) ->
  generateContent client (generationRequest ps) = Returns response ->
  candidates response = Some (candidate :: others) ->
  content candidate = Some {| parts := Some answer |} ->
  find (fun part => present (inlineData part)) answer = Some found ->
  inlineData found = Some image ->
  exists s' : AppState,
    handleGenerate browser globals st st
    = (Returns tt, s', (t ++ [GenerateContent (generationRequest ps)])%list)
    /\ generatedImage s'
       = Some ("data:" ++ interpolate (mimeType image)
                       ++ ";base64," ++ interpolate (data image))
    /\ error s' = None
    /\ isLoading s' = false
    /\ outputPanel s'
       = ShowImage ("data:" ++ interpolate (mimeType image)
                            ++ ";base64," ++ interpolate (data image))
    /\ buttonText s' = "Refine Lookbook"
    /\ forall next : File,
        exists rest : list Event,
          snd (composeParts browser s' next)
          = LoadImage ("data:" ++ interpolate (mimeType image)
                               ++ ";base64," ++ interpolate (data image)) :: rest.
Proof.
  intros Hai Hhero Hcompose Hcall Hcandidates Hcontent Hfind Himage.
  assert (Hlookup : fst (findImagePart browser response) = Returns (Some found)).
  { unfold findImagePart. rewrite Hcandidates. simpl. rewrite Hcontent. simpl.
    rewrite Hfind. reflexivity. }
  rewrite (@handleGenerate_run browser globals client hero st st Hai Hhero).
  rewrite Hcompose, Hcall, Hlookup.
  destruct found as [txt inline]. simpl in Himage. subst inline.
  exists (succeeded image st).
  split; [reflexivity |]. repeat split.
  intros next.
  assert (Hg : generatedImage (succeeded image st)
               = Some (String "d" ("ata:" ++ interpolate (mimeType image)
                                          ++ ";base64," ++ interpolate (data image))))
    by reflexivity.
  rewrite (@composeParts_refinement browser (succeeded image st) next _ _ Hg).
  destruct (loadImage browser _) as [[width height] | e]; [| eexists; reflexivity].
  destruct (fetchBlob browser _) as [blob | e]; eexists; reflexivity.
Qed.

(** Only the first candidate is looked at: when it carries no image part
    the run fails, whatever the later candidates hold.  The error state is
    set, the stored image is untouched and the request went out once. *)
Theorem image_in_later_candidate_is_ignored
        (client : GoogleGenAI) (hero : File) (st : AppState)
        (ps : list Part) (t : list Event) (response : GenerateContentResponse)
        (candidate : Candidate) (others : list Candidate) (answer : list Part) :
  ai globals = Some client ->
  heroItem st = Some hero ->
  composeParts browser st hero = (Returns ps, t) ->
  generateContent client (generationRequest ps) = Returns response ->
  candidates response = Some (candidate :: others) ->
  content candidate = Some {| parts := Some answer |} ->
  imagesOfParts answer = [] ->
  exists s' : AppState,
    handleGenerate browser globals st st
    = (Returns tt, s',
       (t ++ [GenerateContent (generationRequest ps);
              ConsoleError None (ErrorObject noImageError)])%list)
    /\ error s' = Some noImageError
    /\ generatedImage s' = generatedImage st
    /\ isLoading s' = false.
Proof.
  intros Hai Hhero Hcompose Hcall Hcandidates Hcontent Hnone.
  assert (Hlookup : fst (findImagePart browser response) = Returns None).
  { unfold findImagePart. rewrite Hcandidates. simpl. rewrite Hcontent. simpl.
    rewrite (imagesOfParts_nil_find answer Hnone). reflexivity. }
  rewrite (@handleGenerate_run browser globals client hero st st Hai Hhero).
  rewrite Hcompose, Hcall, Hlookup.
  exists (failed (ErrorObject noImageError) st). repeat split.
Qed.

(** When the service call itself is rejected, the run fails with the
    rejection's message in the error state (or "An unknown error occurred."
    for a value that is not an [Error]); the stored image is untouched,
    loading ends, and the one request is not repeated. *)
Theorem service_failure_is_reported
        (client : GoogleGenAI) (hero : File) (st : AppState)
        (ps : list Part) (t : list Event) (e : Thrown) :
  ai globals = Some client ->
  heroItem st = Some hero ->
  composeParts browser st hero = (Returns ps, t) ->
  generateContent client (generationRequest ps) = Throws e ->
  exists s' : AppState,
    handleGenerate browser globals st st
    = (Returns tt, s',
       (t ++ [GenerateContent (generationRequest ps); ConsoleError None e])%list)
    /\ requestsOf (t ++ [GenerateContent (generationRequest ps); ConsoleError None e])
       = [generationRequest ps]
    /\ error s' = Some (errorMessage e)
    /\ generatedImage s' = generatedImage st
    /\ isLoading s' = false.
Proof.
  intros Hai Hhero Hcompose Hcall.
  rewrite (@handleGenerate_run browser globals client hero st st Hai Hhero).
  rewrite Hcompose, Hcall.
  exists (failed e st). split; [reflexivity |]. split; [| repeat split].
  destruct (composeParts_cases browser st hero) as [Hquiet _].
  rewrite Hcompose in Hquiet. simpl in Hquiet.
  rewrite requestsOf_app, Hquiet. reflexivity.
Qed.

(** When the prior result decodes but cannot be fetched during a
    refinement, the run fails before anything is composed: the error state
    is set, the prior result stays stored, and the trace holds the image
    load, the fetch and the console log only: no file is read and no
    request is submitted. *)
Theorem refinement_fetch_failure
        (client : GoogleGenAI) (hero : File) (st : AppState)
        (c : ascii) (g : string) (dimensions : N * N) (e : Thrown) :
  ai globals = Some client ->
  heroItem st = Some hero ->
  generatedImage st = Some (String c g) ->
  loadImage browser (String c g) = Returns dimensions ->
  fetchBlob browser (String c g) = Throws e ->
  exists s' : AppState,
    handleGenerate browser globals st st
    = (Returns tt, s',
       [LoadImage (String c g); Fetch (String c g); ConsoleError None e])
    /\ error s' = Some (errorMessage e)
    /\ generatedImage s' = Some (String c g)
    /\ isLoading s' = false.
Proof.
  intros Hai Hhero Hg Hload Hfetch.
  rewrite (@handleGenerate_run browser globals client hero st st Hai Hhero).
  rewrite (@composeParts_refinement browser st hero c g Hg), Hload.
  destruct dimensions as [width height]. rewrite Hfetch.
  exists (failed e st). repeat split. simpl. exact Hg.
Qed.


End GenerateMore.

(* ===================================================================== *)
(** * Shot type, fresh composition and the brief *)
(* ===================================================================== *)

Section ComposeMore.

Variable browser : Browser.

(** The product-shot system prompt is the active one exactly when the shot
    type is 'product' and the category is one of the six accessory
    categories; the product default brief goes with it. *)
Theorem product_template_iff (st : AppState) :
  (activeSystemPrompt st = PRODUCT_SHOT_SYSTEM_PROMPT
   <-> shotType st = ShotProduct
       /\ exists category,
           itemCategory st = Some category /\ In category accessoryCategories)
  /\ (activeSystemPrompt st = PRODUCT_SHOT_SYSTEM_PROMPT
      <-> defaultPrompt st = "A suitable product shot scene.").
Proof.
  assert (Htest : isProductShot st = true
                  <-> shotType st = ShotProduct
                      /\ exists category,
                          itemCategory st = Some category
                          /\ In category accessoryCategories).
  { unfold isProductShot. split.
    - intros H. apply andb_prop in H. destruct H as [H Hinc].
      apply andb_prop in H. destruct H as [Hshot _].
      split; [destruct (shotType st); simpl in Hshot; congruence |].
      destruct (itemCategory st) as [category |]; [| discriminate].
      exists category. split; [reflexivity | apply includes_In; assumption].
    - intros [Hshot [category [Hcat Hin]]]. rewrite Hshot, Hcat.
      apply includes_In in Hin. rewrite Hin.
      destruct category as [| c rest]; [| reflexivity].
      simpl in Hin. discriminate Hin. }
  unfold activeSystemPrompt, defaultPrompt.
  destruct (isProductShot st); split; split; intros H.
  - apply Htest. reflexivity.
  - reflexivity.
  - reflexivity.
  - reflexivity.
  - exfalso. exact (system_prompts_differ H).
  - apply Htest in H. discriminate H.
  - exfalso. exact (system_prompts_differ H).
  - discriminate H.
Qed.

(** The two shot-type buttons are rendered exactly when choosing 'product'
    would select the product template: the render and [handleGenerate] test
    the category the same way.  A click on the product button then takes
    effect, and without the buttons no click can change the shot type. *)
Theorem shot_buttons_match_product_test (st s : AppState) :
  (shotTypeButtonsShown st = isProductShot (with_shotType ShotProduct st))
  /\ (shotTypeButtonsShown st = true ->
      clickShotType ShotProduct st s = (Returns tt, with_shotType ShotProduct s, []))
  /\ (shotTypeButtonsShown st = false ->
      forall v : ShotType, clickShotType v st s = (Returns tt, s, [])).
Proof.
  split; [reflexivity |]. unfold clickShotType.
  split; intros Hshown; [| intros v]; rewrite Hshown; reflexivity.
Qed.

(** Every preset button, static or suggested, puts a non-empty text into
    the brief; the next composition, fresh or refinement, then quotes that
    text and no default sentence. *)
Theorem preset_fills_the_brief
        (st s : AppState) (prompt : string) (hero : File) (ps : list Part) :
  In prompt (presetPrompts st) ->
  fst (composeParts browser (with_stylePrompt prompt st) hero) = Returns ps ->
  prompt <> ""
  /\ setStylePrompt prompt s = (Returns tt, with_stylePrompt prompt s, [])
  /\ In (textPart (creativeBrief prompt)) ps.
Proof.
  intros Hin Hps.
  assert (Hne : prompt <> "").
  { unfold presetPrompts, suggestedPromptsShown, getSuggestedPresets in Hin.
    apply in_app_or in Hin. destruct Hin as [Hin | Hin].
    - destruct (itemCategory st) as [[| c rest] |]; try contradiction.
      destruct (includes _ (String c rest));
        [| destruct (includes _ (String c rest));
           [| destruct (includes _ (String c rest))]];
        simpl in Hin; destruct (shotType_eqb (shotType st) ShotModel);
          simpl in Hin; intuition (subst; discriminate).
    - simpl in Hin. intuition (subst; discriminate). }
  split; [exact Hne |]. split; [reflexivity |].
  assert (Hbrief : forall d, or_else prompt d = prompt).
  { intros d. destruct prompt; [contradiction Hne; reflexivity | reflexivity]. }
  destruct (composeParts_cases browser (with_stylePrompt prompt st) hero)
    as [_ [[e He] | [[_ Hfresh] | [_ [width [height [previous Hrefine]]]]]]].
  - congruence.
  - rewrite Hfresh in Hps. inversion Hps; subst ps.
    unfold freshParts. simpl stylePrompt. rewrite Hbrief.
    apply in_or_app. right. apply in_or_app. right. left. reflexivity.
  - rewrite Hrefine in Hps. inversion Hps; subst ps.
    unfold refinementParts. simpl stylePrompt. rewrite Hbrief.
    apply in_or_app. right. apply in_or_app. right. left. reflexivity.
Qed.

Variable result : File -> option string.

(** A fresh composition (no generated image held) emits, in this order: the
    active system prompt, the hero-item image, the inspiration image when
    one is set, the brief (or the default sentence of the shot type when
    the brief is empty) and the final action directive; the only other
    segments are the fixed headings.  Each image part holds what follows
    the first comma of what the read yielded, and the file's MIME type.  It
    reads the supplied files and nothing else; when one of these reads
    fails, the composition stays pending at that read. *)
Theorem fresh_segment_order (st : AppState) (hero : File) :
  truthy (generatedImage st) = false ->
  Reading.composeParts browser result st hero
  = match result hero with
    | None => (Reading.Pending, [ReadAsDataURL hero])
    | Some heroUrl =>
        match inspirationPhoto st with
        | None =>
            (Reading.Settled
               (Returns
                  [textPart (activeSystemPrompt st);
                   textPart headingHeroPhoto;
                   inlinePart {| data := nth_error (split "," heroUrl) 1;
                                 mimeType := Some (fileType hero) |};
                   textPart (creativeBrief
                               (if String.eqb (stylePrompt st) ""
                                then if isProductShot st
                                     then "A suitable product shot scene."
                                     else "A suitable fashion lookbook scene."
                                else stylePrompt st));
                   textPart actionGenerate]),
             [ReadAsDataURL hero])
        | Some photo =>
            match result photo with
            | None => (Reading.Pending, [ReadAsDataURL hero; ReadAsDataURL photo])
            | Some photoUrl =>
                (Reading.Settled
                   (Returns
                      [textPart (activeSystemPrompt st);
                       textPart headingHeroPhoto;
                       inlinePart {| data := nth_error (split "," heroUrl) 1;
                                     mimeType := Some (fileType hero) |};
                       textPart headingInspiration;
                       inlinePart {| data := nth_error (split "," photoUrl) 1;
                                     mimeType := Some (fileType photo) |};
                       textPart (creativeBrief
                                   (if String.eqb (stylePrompt st) ""
                                    then if isProductShot st
                                         then "A suitable product shot scene."
                                         else "A suitable fashion lookbook scene."
                                    else stylePrompt st));
                       textPart actionGenerate]),
                 [ReadAsDataURL hero; ReadAsDataURL photo])
            end
        end
    end.
Proof.
  intros Hf.
  assert (Hbrief : or_else (stylePrompt st) (defaultPrompt st)
                   = if String.eqb (stylePrompt st) ""
                     then if isProductShot st
                          then "A suitable product shot scene."
                          else "A suitable fashion lookbook scene."
                     else stylePrompt st).
  { unfold defaultPrompt. destruct (stylePrompt st); reflexivity. }
  unfold Reading.composeParts.
  assert (E : forall (A : Type) (a : string -> A) (b : A),
             match generatedImage st with
             | Some (String _ _ as g) => a g
             | _ => b
             end = b).
  { intros A a b. destruct (generatedImage st) as [[| c g] |]; simpl in Hf;
      congruence. }
  rewrite E, Hbrief, reading_fileToGenerativePart.
  destruct (result hero) as [heroUrl |]; simpl; [| reflexivity].
  rewrite reading_pushInspiration.
  destruct (inspirationPhoto st) as [photo |]; simpl; [| reflexivity].
  destruct (result photo) as [photoUrl |]; reflexivity.
Qed.

End ComposeMore.

(* ===================================================================== *)
(** * More on the classifier and the hero item *)
(* ===================================================================== *)

Section ClassifyMore.

Variable browser : Browser.
Variable globals : Globals.

Variable result : File -> option string.

(** With a client, identifying an item goes one of two ways (the service
    call resolves or rejects).  When the read of the file completes, the
    run settles normally whatever the service does: exactly one request
    goes out, to the text model with the
    fixed instruction and the item's image (what follows the first comma
    of what the read yielded, and the file's MIME type); the category ends
    up set (never null), the shot type is back to 'model' so the product
    template is not active, identification is no longer in progress, and
    the error state and the generated image are untouched.  When the read
    fails, the run never settles: no request goes out, the category stays
    null and identification stays in progress for ever. *)
Theorem identification_settles_or_awaits_the_read
        (client : GoogleGenAI) (file : File) (s : AppState) :
  ai globals = Some client ->
  match result file with
  | Some url =>
      exists (s' : AppState) (tr : list Event) (category : string),
        Reading.identifyItemCategory browser globals result file s
        = (Reading.Settled (Returns tt), s', tr)
        /\ requestsOf tr
           = [{| model := "gemini-2.5-flash";
                 contents := [textPart classificationPrompt;
                              inlinePart {| data := nth_error (split "," url) 1;
                                            mimeType := Some (fileType file) |}];
                 config := None |}]
        /\ itemCategory s' = Some category
        /\ shotType s' = ShotModel
        /\ isProductShot s' = false
        /\ isIdentifying s' = false
        /\ error s' = error s
        /\ generatedImage s' = generatedImage s
  | None =>
      exists s' : AppState,
        Reading.identifyItemCategory browser globals result file s
        = (Reading.Pending, s', [ReadAsDataURL file])
        /\ itemCategory s' = None
        /\ isIdentifying s' = true
        /\ shotType s' = ShotModel
        /\ error s' = error s
        /\ generatedImage s' = generatedImage s
  end.
Proof.
  intros Hai. unfold Reading.identifyItemCategory. rewrite Hai.
  unfold Reading.handler_bind, Reading.try_catch_finally, Reading.liftAsync,
    Reading.run, Reading.settled, callGenerateContent,
    setIsIdentifying, setItemCategory, setShotType, update, throw.
  rewrite reading_fileToGenerativePart.
  destruct (result file) as [url |]; simpl.
  - destruct (generateContent client _) as [response | e]; simpl.
    + destruct (response_text response) as [t |]; simpl;
        do 3 eexists; (split; [reflexivity |]); repeat split.
    + do 3 eexists. split; [reflexivity |]. repeat split.
  - eexists. split; [reflexivity |]. repeat split.
Qed.

(** When the read completes and the service answers with text (a
    well-formed string, held as UTF-8), the category is that text with the
    white space around it removed and nothing else done to it; a blank
    answer leaves an empty category, for which neither the shot-type
    buttons nor suggested prompts are offered. *)
Theorem classification_stores_trimmed_text
        (client : GoogleGenAI) (file : File) (s : AppState) (url : string)
        (response : GenerateContentResponse) (answer : string) :
  ai globals = Some client ->
  result file = Some url ->
  utf8 answer = true ->
  generateContent
    client
    (classificationRequest (inlinePart {| data := nth_error (split "," url) 1;
                                          mimeType := Some (fileType file) |}))
  = Returns response ->
  response_text response = Some answer ->
  exists s' : AppState,
    Reading.identifyItemCategory browser globals result file s
    = (Reading.Settled (Returns tt), s',
       [ReadAsDataURL file;
        GenerateContent
          (classificationRequest (inlinePart {| data := nth_error (split "," url) 1;
                                                mimeType := Some (fileType file) |}))])
    /\ itemCategory s' = Some (trim answer)
    /\ (trim answer = "" ->
        shotTypeButtonsShown s' = false /\ getSuggestedPresets s' = None).
Proof.
  intros Hai Hread _ Hcall Htext. eexists. split; [| split].
  - unfold Reading.identifyItemCategory. rewrite Hai.
    unfold Reading.handler_bind, Reading.try_catch_finally, Reading.liftAsync,
      Reading.run, Reading.settled, callGenerateContent,
      setIsIdentifying, setItemCategory, setShotType, update.
    rewrite reading_fileToGenerativePart, Hread.
    unfold classificationRequest in *.
    simpl in Hcall. simpl. rewrite Hcall. simpl. rewrite Htext. simpl. reflexivity.
  - reflexivity.
  - intros Hblank. unfold shotTypeButtonsShown, getSuggestedPresets. simpl.
    rewrite Hblank. split; reflexivity.
Qed.

(** Removing the hero item calls nothing and clears the category: the
    generate button is disabled, the shot-type buttons and the suggested
    prompts disappear and the product template is inactive, although the
    shot type itself is left as it was. *)
Theorem removing_the_hero_item (s : AppState) :
  exists s' : AppState,
    selectHeroItem browser globals None s = (Returns tt, s', [])
    /\ heroItem s' = None
    /\ itemCategory s' = None
    /\ shotType s' = shotType s
    /\ generateDisabled s' = true
    /\ shotTypeButtonsShown s' = false
    /\ getSuggestedPresets s' = None
    /\ isProductShot s' = false.
Proof.
  eexists. split; [reflexivity |]. repeat split.
  unfold isProductShot. simpl. apply andb_false_r.
Qed.

End ClassifyMore.

(** When constructing the client threw at start-up, selecting a hero item
    classifies nothing: the hero item is stored, the error state is set to
    the configuration message, no file is read and no request goes out; the
    category and the shot type are not reset. *)
Theorem missing_credential_blocks_classification
        (browser : Browser)
        (newGoogleGenAI : option string -> Outcome GoogleGenAI)
        (API_KEY : option string) (e : Thrown) (file : File) (s : AppState) :
  newGoogleGenAI API_KEY = Throws e ->
  selectHeroItem browser (fst (initialize newGoogleGenAI API_KEY)) (Some file) s
  = (Returns tt, with_error (Some configurationError) (with_heroItem (Some file) s), [])
  /\ itemCategory (with_error (Some configurationError) (with_heroItem (Some file) s))
     = itemCategory s
  /\ shotType (with_error (Some configurationError) (with_heroItem (Some file) s))
     = shotType s.
Proof.
  intros Hthrow. unfold initialize. rewrite Hthrow. repeat split.
Qed.

(* ===================================================================== *)
(** * Data URLs *)
(* ===================================================================== *)

Lemma split_without_separator (c : ascii) (s : string) :
  holds c s = false -> split c s = [s].
Proof.
  induction s as [| a s IH]; simpl; intros Hno; [reflexivity |].
  apply orb_false_elim in Hno. destruct Hno as [Ha Hs].
  rewrite Ha, (IH Hs). reflexivity.
Qed.

Lemma split_at_first_separator (c : ascii) (before after : string) :
  holds c before = false ->
  split c (before ++ String c after) = before :: split c after.
Proof.
  induction before as [| a before IH]; simpl; intros Hno.
  - rewrite Ascii.eqb_refl. reflexivity.
  - apply orb_false_elim in Hno. destruct Hno as [Ha Hs].
    rewrite Ha, (IH Hs). reflexivity.
Qed.

Lemma holds_app (c : ascii) (s1 s2 : string) :
  holds c (s1 ++ s2) = holds c s1 || holds c s2.
Proof.
  induction s1 as [| a s1 IH]; simpl; [reflexivity |].
  rewrite IH. apply orb_assoc.
Qed.

Lemma string_app_assoc (s1 s2 s3 : string) : (s1 ++ s2) ++ s3 = s1 ++ s2 ++ s3.
Proof.
  induction s1 as [| a s1 IH]; simpl; [reflexivity | rewrite IH; reflexivity].
Qed.

(** A data URL with a comma-free MIME type and payload splits in two. *)
Lemma data_url_split (mime payload : string) :
  holds "," mime = false ->
  holds "," payload = false ->
  split "," ("data:" ++ mime ++ ";base64," ++ payload)
  = ["data:" ++ mime ++ ";base64"; payload].
Proof.
  intros Hmime Hpayload.
  assert (Hshape : "data:" ++ mime ++ ";base64," ++ payload
                   = ("data:" ++ mime ++ ";base64") ++ String "," payload).
  { rewrite !string_app_assoc. reflexivity. }
  rewrite Hshape, split_at_first_separator.
  - rewrite (split_without_separator _ _ Hpayload). reflexivity.
  - rewrite !holds_app, Hmime. reflexivity.
Qed.

(** A file of the result's MIME type that reads back as the data URL
    [handleGenerate] stored gives, through [fileToGenerativePart], the very
    image part the service returned, provided neither the MIME type nor the
    payload holds a comma.  A file whose data URL holds no comma at all
    gives a part whose payload is undefined. *)
Theorem result_url_round_trip :
  (forall (name mime payload : string),
      holds "," mime = false ->
      holds "," payload = false ->
      generativePart
        {| fileName := name; fileType := mime;
           fileDataURL := imageUrlOf {| data := Some payload; mimeType := Some mime |} |}
      = inlinePart {| data := Some payload; mimeType := Some mime |})
  /\ (forall (name type url : string),
         holds "," url = false ->
         generativePart {| fileName := name; fileType := type; fileDataURL := url |}
         = inlinePart {| data := None; mimeType := Some type |}).
Proof.
  split.
  - intros name mime payload Hmime Hpayload.
    unfold generativePart, imageUrlOf.
    cbn [fileDataURL fileType interpolate data mimeType].
    rewrite (data_url_split _ _ Hmime Hpayload). reflexivity.
  - intros name type url Hno.
    unfold generativePart. cbn [fileDataURL fileType].
    rewrite (split_without_separator _ _ Hno). reflexivity.
Qed.

Lemma result_url_round_trip_witness :
  generativePart
    {| fileName := "previous_lookbook.png"; fileType := "image/png";
       fileDataURL := imageUrlOf {| data := Some "bmV3"; mimeType := Some "image/png" |} |}
  = inlinePart {| data := Some "bmV3"; mimeType := Some "image/png" |}.
Proof.
  exact (proj1 result_url_round_trip "previous_lookbook.png" "image/png" "bmV3"
               eq_refl eq_refl).
Defined.

(* ===================================================================== *)
(** * Suggested prompts *)
(* ===================================================================== *)

(** Suggested prompts exist exactly for the thirteen labels listed in the
    classification prompt, compared as written: 'Other', an empty or
    missing category and any other answer get none.  Every category that
    brings up the shot-type buttons has suggested prompts, and they are
    rendered only while the shot type is 'model'.  The labels are the ones
    the prompt enumerates, separated by commas. *)
Theorem suggested_prompts_iff_listed (st : AppState) :
  (getSuggestedPresets st <> None
   <-> exists category,
        itemCategory st = Some category /\ In category listedCategories)
  /\ (shotTypeButtonsShown st = true -> getSuggestedPresets st <> None)
  /\ (suggestedPromptsShown st <> None
      <-> getSuggestedPresets st <> None /\ shotType st = ShotModel)
  /\ classificationPrompt
     = "Analyze the image and identify the primary clothing or accessory item. Respond with ONLY one of the following categories that best fits the item: "
         ++ String.concat ", " listedCategories
         ++ ". If it doesn't fit, respond with 'Other'.".
Proof.
  assert (Hlisted : getSuggestedPresets st <> None
                    <-> exists category,
                         itemCategory st = Some category
                         /\ In category listedCategories).
  { unfold getSuggestedPresets. split.
    - intros Hsome. destruct (itemCategory st) as [[| c rest] |];
        try (contradiction Hsome; reflexivity).
      exists (String c rest). split; [reflexivity |].
      destruct (includes ["Watch"; "Bracelet"; "Ring"] (String c rest)) eqn:Hhand.
      { apply includes_In in Hhand. simpl in Hhand. simpl. tauto. }
      destruct (includes ["Necklace"; "Earrings"] (String c rest)) eqn:Hneck.
      { apply includes_In in Hneck. simpl in Hneck. simpl. tauto. }
      destruct (includes ["T-Shirt"; "Top"; "Jacket"; "Pants"; "Dress"; "Hat";
                          "Shoes"; "Handbag"] (String c rest)) eqn:Happarel.
      { apply includes_In in Happarel. simpl in Happarel. simpl. tauto. }
      contradiction Hsome. reflexivity.
    - intros [category [Hcat Hin]]. rewrite Hcat.
      simpl in Hin.
      repeat (destruct Hin as [<- | Hin]; [discriminate |]).
      contradiction. }
  split; [exact Hlisted |]. split.
  - intros Hshown. apply Hlisted. unfold shotTypeButtonsShown in Hshown.
    apply andb_prop in Hshown. destruct Hshown as [_ Hinc].
    destruct (itemCategory st) as [category |]; [| discriminate].
    exists category. split; [reflexivity |].
    apply includes_In in Hinc. simpl in Hinc. simpl. tauto.
  - split; [| reflexivity]. unfold suggestedPromptsShown.
    destruct (getSuggestedPresets st) as [presets |].
    + destruct (shotType st); simpl; split.
      * intros _. split; [discriminate | reflexivity].
      * intros _. discriminate.
      * intros H. contradiction H. reflexivity.
      * intros [_ H]. discriminate H.
    + split; [intros H; contradiction H; reflexivity | intros [H _]; exact H].
Qed.

(* ===================================================================== *)
(** * The uploader's object URLs *)
(* ===================================================================== *)

Lemma remove_absent (url : ObjectURL) (urls : list ObjectURL) :
  ~ In url urls -> List.remove Nat.eq_dec url urls = urls.
Proof. intros Hnot. apply notin_remove. exact Hnot. Qed.

Lemma previewEffect_tidy (others : list ObjectURL) (selected : option File)
      (state : Uploader * UrlStore) :
  tidy others state -> tidy others (previewEffect selected state).
Proof.
  destruct state as [[shown pending] [count urls]].
  unfold tidy, previewEffect, runCleanup. simpl.
  intros [Hpending [Halive [Hold Hfresh]]]. subst pending.
  assert (Hothers : Forall (fun url => url < count)%nat others).
  { rewrite Halive in Hold. apply Forall_app in Hold. tauto. }
  assert (Hrest : match shown with
                  | Some url => List.remove Nat.eq_dec url urls
                  | None => urls
                  end = others).
  { destruct shown as [url |]; subst urls; simpl.
    - destruct (Nat.eq_dec url url) as [_ | Hne]; [| contradiction Hne; reflexivity].
      apply remove_absent. exact Hfresh.
    - reflexivity. }
  destruct selected as [file |]; destruct shown as [url |]; simpl;
    unfold revokeObjectURL; simpl; simpl in Hrest; rewrite Hrest;
      repeat split; try assumption.
  - constructor; [lia |].
    eapply Forall_impl; [| exact Hothers]. simpl. intros; lia.
  - intros Hin. rewrite Forall_forall in Hothers. apply Hothers in Hin. lia.
  - constructor; [lia |].
    eapply Forall_impl; [| exact Hothers]. simpl. intros; lia.
  - intros Hin. rewrite Forall_forall in Hothers. apply Hothers in Hin. lia.
Qed.

(** The preview never leaks an object URL.  After any sequence of
    selections and removals, the only URL of this uploader still alive is
    the one being previewed (none when no file is selected); the URLs
    other components hold are untouched; and unmounting revokes the last
    one. *)
Theorem preview_urls_never_leak
        (selections : list (option File)) (store : UrlStore) :
  Forall (fun url => url < issued store)%nat (alive store) ->
  alive (snd (afterSelections selections (mounted store)))
  = (match preview (fst (afterSelections selections (mounted store))) with
     | Some url => [url]
     | None => []
     end ++ alive store)%list
  /\ (last selections None = None ->
      alive (snd (afterSelections selections (mounted store))) = alive store)
  /\ alive (unmount (afterSelections selections (mounted store))) = alive store.
Proof.
  intros Hold.
  assert (Htidy : forall state,
             tidy (alive store) state ->
             tidy (alive store) (afterSelections selections state)).
  { unfold afterSelections. induction selections as [| selected rest IH];
      simpl; intros state Hstate; [exact Hstate |].
    apply IH. apply previewEffect_tidy. exact Hstate. }
  assert (Hstart : tidy (alive store) (mounted store)).
  { unfold tidy, mounted. simpl. repeat split. exact Hold. }
  pose proof (Htidy _ Hstart) as [Hpending [Halive [_ Hfresh]]].
  split; [exact Halive |]. split.
  - intros Hlast. rewrite Halive.
    replace (preview (fst (afterSelections selections (mounted store))))
      with (@None ObjectURL); [reflexivity |].
    destruct selections as [| first rest] using rev_ind; [reflexivity |].
    rewrite last_last in Hlast. subst first.
    unfold afterSelections. rewrite fold_left_app. reflexivity.
  - unfold unmount, runCleanup. rewrite Hpending.
    destruct (preview (fst (afterSelections selections (mounted store)))) as [url |].
    + unfold revokeObjectURL. simpl. rewrite Halive. simpl.
      destruct (Nat.eq_dec url url) as [_ | Hne]; [| contradiction Hne; reflexivity].
      apply remove_absent. exact Hfresh.
    + rewrite Halive. reflexivity.
Qed.

(* ===================================================================== *)
(** * Downloads *)
(* ===================================================================== *)

Section DownloadMore.

Variable browser : Browser.

(** When the stored image loads and a canvas context is available, a
    download draws exactly the crop rectangle of the natural dimensions and
    saves one file, named after the aspect with the colon replaced by 'x'
    (so the name holds no colon); the only state change is the closed
    menu, and the image stays displayed. *)
Theorem download_exports_the_crop
        (aspect : Aspect) (s : AppState) (c : ascii) (g : string)
        (naturalWidth naturalHeight : N) :
  generatedImage s = Some (String c g) ->
  loadImage browser (String c g) = Returns (naturalWidth, naturalHeight) ->
  hasContext2d browser = true ->
  handleDownload browser aspect s s
  = (Returns tt, with_isDownloadMenuOpen false s,
     [LoadImage (String c g);
      DrawImage (cropRect (H:=Binary64.float_number) naturalWidth naturalHeight aspect);
      Download (exportName aspect)])
  /\ holds ":" (exportName aspect) = false
  /\ outputPanel (with_isDownloadMenuOpen false s) = ShowImage (String c g).
Proof.
  intros Hg Hload Hctx. split; [| split].
  - unfold handleDownload. rewrite Hg.
    unfold bind, liftIO, setDownloadMenuOpen, update. simpl.
    rewrite Hload, Hctx. destruct aspect; reflexivity.
  - destruct aspect; reflexivity.
  - unfold outputPanel. simpl. rewrite Hg. reflexivity.
Qed.

(** Whatever the browser does, a download never throws, never submits a
    request, never touches the generated image or the inputs, and exports
    either nothing or one drawing followed by one file.  Without a
    generated image it does nothing at all. *)
Theorem download_is_contained (aspect : Aspect) (st s : AppState) :
  exists (s' : AppState) (tr : list Event),
    handleDownload browser aspect st s = (Returns tt, s', tr)
    /\ requestsOf tr = []
    /\ generatedImage s' = generatedImage s
    /\ heroItem s' = heroItem s
    /\ inspirationPhoto s' = inspirationPhoto s
    /\ stylePrompt s' = stylePrompt s
    /\ itemCategory s' = itemCategory s
    /\ shotType s' = shotType s
    /\ isLoading s' = isLoading s
    /\ (exportsOf tr = []
        \/ exists (source : Rect float) (name : string),
            exportsOf tr = [DrawImage source; Download name])
    /\ (truthy (generatedImage st) = false -> s' = s /\ tr = []).
Proof.
  unfold handleDownload.
  destruct (generatedImage st) as [[| c g] |].
  - do 2 eexists. split; [reflexivity |]. repeat split. left. reflexivity.
  - unfold bind, liftIO, setDownloadMenuOpen, setError, update. simpl.
    destruct (loadImage browser (String c g)) as [[width height] | e];
      [destruct (hasContext2d browser) |];
      do 2 eexists; (split; [reflexivity |]);
        repeat (split; [reflexivity |]);
        (split; [| intros Hfalse; discriminate Hfalse]).
    + right. do 2 eexists. reflexivity.
    + left. reflexivity.
    + left. reflexivity.
  - do 2 eexists. split; [reflexivity |]. repeat split. left. reflexivity.
Qed.

(** When the stored image fails to load for a download, nothing is drawn or
    saved and the error state is set to the fixed message; but the image is
    still stored, so the output panel keeps showing it and not the
    message. *)
Theorem download_load_failure
        (aspect : Aspect) (s : AppState) (c : ascii) (g : string) (e : Thrown) :
  generatedImage s = Some (String c g) ->
  loadImage browser (String c g) = Throws e ->
  exists s' : AppState,
    handleDownload browser aspect s s = (Returns tt, s', [LoadImage (String c g)])
    /\ error s' = Some "Could not download image due to an error loading it."
    /\ isDownloadMenuOpen s' = false
    /\ generatedImage s' = Some (String c g)
    /\ outputPanel s' = ShowImage (String c g).
Proof.
  intros Hg Hload. unfold handleDownload. rewrite Hg.
  unfold bind, liftIO, setDownloadMenuOpen, setError, update. simpl.
  rewrite Hload. eexists. split; [reflexivity |].
  unfold outputPanel. simpl. rewrite Hg. repeat split.
Qed.

End DownloadMore.

(* ===================================================================== *)
(** * Worked instances *)
(* ===================================================================== *)

Lemma handleGenerate_submits_at_most_once_witness :
  (List.length
     (requestsOf (snd (handleGenerate sampleBrowser (globalsWith imageClient)
                                      refiningState refiningState))) <= 1)%nat.
Proof.
  exact (proj1 (@handleGenerate_submits_at_most_once
                  sampleBrowser (globalsWith imageClient) refiningState refiningState
                  (snd (fst (handleGenerate sampleBrowser (globalsWith imageClient)
                                            refiningState refiningState)))
                  (Returns tt)
                  (snd (handleGenerate sampleBrowser (globalsWith imageClient)
                                       refiningState refiningState))
                  eq_refl)).
Defined.

Lemma generation_success_witness :
  exists s' : AppState,
    fst (handleGenerate sampleBrowser (globalsWith imageClient) freshState freshState)
    = (Returns tt, s')
    /\ generatedImage s' = Some "data:image/png;base64,bmV3"
    /\ outputPanel s' = ShowImage "data:image/png;base64,bmV3"
    /\ buttonText s' = "Refine Lookbook".
Proof.
  destruct (@generation_success
              sampleBrowser (globalsWith imageClient) imageClient sampleHero freshState
              (freshParts freshState sampleHero)
              (ReadAsDataURL sampleHero :: inspirationReads freshState)%list
              imageResponse
              {| content :=
                   Some {| parts :=
                             Some [textPart "Here is your lookbook.";
                                   inlinePart {| data := Some "bmV3";
                                                 mimeType := Some "image/png" |}] |} |}
              []
              [textPart "Here is your lookbook.";
               inlinePart {| data := Some "bmV3"; mimeType := Some "image/png" |}]
              (inlinePart {| data := Some "bmV3"; mimeType := Some "image/png" |})
              {| data := Some "bmV3"; mimeType := Some "image/png" |}
              eq_refl eq_refl eq_refl eq_refl eq_refl eq_refl eq_refl eq_refl)
    as [s' [Hrun [Himage [_ [_ [Hpanel [Hbutton _]]]]]]].
  exists s'. split; [rewrite Hrun; reflexivity |].
  exact (conj Himage (conj Hpanel Hbutton)).
Defined.

Lemma image_in_later_candidate_is_ignored_witness :
  imageSegments laterCandidateResponse <> []
  /\ exists s' : AppState,
      fst (handleGenerate sampleBrowser (globalsWith laterCandidateClient)
                          freshState freshState)
      = (Returns tt, s')
      /\ error s' = Some noImageError
      /\ generatedImage s' = None.
Proof.
  split; [discriminate |].
  destruct (@image_in_later_candidate_is_ignored
              sampleBrowser (globalsWith laterCandidateClient) laterCandidateClient
              sampleHero freshState
              (freshParts freshState sampleHero)
              (ReadAsDataURL sampleHero :: inspirationReads freshState)%list
              laterCandidateResponse
              {| content := Some {| parts := Some [textPart "Two options follow."] |} |}
              [{| content :=
                    Some {| parts :=
                              Some [inlinePart {| data := Some "bmV3";
                                                  mimeType := Some "image/png" |}] |} |}]
              [textPart "Two options follow."]
              eq_refl eq_refl eq_refl eq_refl eq_refl eq_refl eq_refl)
    as [s' [Hrun [Herror [Hkept _]]]].
  exists s'. split; [rewrite Hrun; reflexivity |].
  exact (conj Herror Hkept).
Defined.

Lemma service_failure_is_reported_witness :
  exists s' : AppState,
    fst (handleGenerate sampleBrowser (globalsWith throwingClient) freshState freshState)
    = (Returns tt, s')
    /\ error s' = Some "503 Service Unavailable"
    /\ isLoading s' = false.
Proof.
  destruct (@service_failure_is_reported
              sampleBrowser (globalsWith throwingClient) throwingClient sampleHero freshState
              (freshParts freshState sampleHero)
              (ReadAsDataURL sampleHero :: inspirationReads freshState)%list
              (ErrorObject "503 Service Unavailable")
              eq_refl eq_refl eq_refl eq_refl)
    as [s' [Hrun [_ [Herror [_ Hloading]]]]].
  exists s'. split; [rewrite Hrun; reflexivity |].
  exact (conj Herror Hloading).
Defined.

Lemma refinement_fetch_failure_witness :
  exists s' : AppState,
    handleGenerate fetchFailingBrowser (globalsWith imageClient) refiningState refiningState
    = (Returns tt, s',
       [LoadImage priorUrl; Fetch priorUrl; ConsoleError None (ErrorObject "Failed to fetch")])
    /\ error s' = Some "Failed to fetch"
    /\ generatedImage s' = Some priorUrl
    /\ isLoading s' = false.
Proof.
  exact (@refinement_fetch_failure
           fetchFailingBrowser (globalsWith imageClient) imageClient sampleHero refiningState
           "d"%char "ata:image/png;base64,cHJpb3I=" (1024%N, 768%N)
           (ErrorObject "Failed to fetch")
           eq_refl eq_refl eq_refl eq_refl eq_refl).
Defined.

Lemma fresh_segment_order_witness :
  Reading.composeParts sampleBrowser readsComplete freshState sampleHero
  = (Reading.Settled
       (Returns
          [textPart MODEL_SHOT_SYSTEM_PROMPT;
           textPart "

---

**INPUT: HERO ITEM PHOTO**";
           inlinePart {| data := Some "aGVybw=="; mimeType := Some "image/png" |};
           textPart "

**INPUT: AESTHETIC INSPIRATION PHOTO**";
           inlinePart {| data := Some "bW9vZA=="; mimeType := Some "image/jpeg" |};
           textPart ("

**INPUT: CREATIVE BRIEF**
" ++ dq ++ "A suitable fashion lookbook scene." ++ dq);
           textPart "

---

**ACTION: Generate the final image now based on all instructions and inputs provided.**"]),
     [ReadAsDataURL sampleHero; ReadAsDataURL sampleInspiration])
  /\ Reading.composeParts sampleBrowser (unreadable sampleInspiration) freshState sampleHero
     = (Reading.Pending, [ReadAsDataURL sampleHero; ReadAsDataURL sampleInspiration]).
Proof.
  split.
  - rewrite (@fresh_segment_order sampleBrowser readsComplete freshState sampleHero eq_refl).
    vm_compute. reflexivity.
  - rewrite (@fresh_segment_order sampleBrowser (unreadable sampleInspiration)
                                  freshState sampleHero eq_refl).
    reflexivity.
Defined.

Lemma preset_fills_the_brief_witness :
  In (textPart (creativeBrief
                  "A clean, minimalist photograph with sharp lines, a neutral color palette, and a focus on modern architecture or simple backgrounds."))
     (freshParts
        (with_stylePrompt
           "A clean, minimalist photograph with sharp lines, a neutral color palette, and a focus on modern architecture or simple backgrounds."
           freshState)
        sampleHero).
Proof.
  exact (proj2 (proj2
    (@preset_fills_the_brief
       sampleBrowser freshState freshState
       "A clean, minimalist photograph with sharp lines, a neutral color palette, and a focus on modern architecture or simple backgrounds."
       sampleHero
       (freshParts
          (with_stylePrompt
             "A clean, minimalist photograph with sharp lines, a neutral color palette, and a focus on modern architecture or simple backgrounds."
             freshState)
          sampleHero)
       ltac:(vm_compute; tauto) eq_refl))).
Defined.

Lemma identification_settles_or_awaits_the_read_witness :
  (exists s' : AppState,
      Reading.identifyItemCategory sampleBrowser (globalsWith imageClient)
                                   (unreadable sampleHero) sampleHero refiningState
      = (Reading.Pending, s', [ReadAsDataURL sampleHero])
      /\ itemCategory s' = None
      /\ isIdentifying s' = true)
  /\ (exists (s' : AppState) (tr : list Event),
         Reading.identifyItemCategory sampleBrowser (globalsWith throwingClient)
                                      readsComplete sampleHero refiningState
         = (Reading.Settled (Returns tt), s', tr)
         /\ requestsOf tr
            = [{| model := "gemini-2.5-flash";
                  contents := [textPart classificationPrompt;
                               inlinePart {| data := Some "aGVybw==";
                                             mimeType := Some "image/png" |}];
                  config := None |}]
         /\ itemCategory s' = Some "Other"
         /\ isIdentifying s' = false).
Proof.
  split.
  - destruct (@identification_settles_or_awaits_the_read
                sampleBrowser (globalsWith imageClient) (unreadable sampleHero)
                imageClient sampleHero refiningState eq_refl)
      as [s' [Hrun [Hcategory [Hidentifying _]]]].
    exists s'. exact (conj Hrun (conj Hcategory Hidentifying)).
  - destruct (@identification_settles_or_awaits_the_read
                sampleBrowser (globalsWith throwingClient) readsComplete
                throwingClient sampleHero refiningState eq_refl)
      as [s' [tr [category [Hrun [Hrequest [Hcategory [_ [_ [Hidentifying _]]]]]]]]].
    exists s', tr. split; [exact Hrun |]. split; [exact Hrequest |].
    split; [| exact Hidentifying].
    rewrite Hcategory.
    assert (Hs : itemCategory s' = Some "Other").
    { vm_compute in Hrun. injection Hrun as <- _. reflexivity. }
    rewrite Hcategory in Hs. exact Hs.
Defined.

Lemma classification_stores_trimmed_text_witness :
  exists s' : AppState,
    fst (Reading.identifyItemCategory sampleBrowser (globalsWith paddedWatchClient)
                                      readsComplete sampleHero freshState)
    = (Reading.Settled (Returns tt), s')
    /\ itemCategory s' = Some "Watch".
Proof.
  destruct (@classification_stores_trimmed_text
              sampleBrowser (globalsWith paddedWatchClient) readsComplete
              paddedWatchClient sampleHero freshState
              "data:image/png;base64,aGVybw=="
              paddedWatchResponse (byteOrderMark ++ " Watch" ++ noBreakSpace ++ nl)
              eq_refl eq_refl eq_refl eq_refl eq_refl)
    as [s' [Hrun [Hcategory _]]].
  exists s'. split; [rewrite Hrun; reflexivity | exact Hcategory].
Defined.

Lemma missing_credential_blocks_classification_witness :
  selectHeroItem sampleBrowser
                 (fst (initialize (fun _ => Throws (ErrorObject "An API Key must be set."))
                                  None))
                 (Some sampleInspiration) freshState
  = (Returns tt,
     with_error (Some configurationError) (with_heroItem (Some sampleInspiration) freshState),
     []).
Proof.
  exact (proj1 (@missing_credential_blocks_classification
                  sampleBrowser (fun _ => Throws (ErrorObject "An API Key must be set."))
                  None (ErrorObject "An API Key must be set.")
                  sampleInspiration freshState eq_refl)).
Defined.

Lemma preview_urls_never_leak_witness :
  alive (unmount (afterSelections [Some sampleHero; Some sampleInspiration; None;
                                   Some sampleHero]
                                  (mounted busyStore)))
  = [0%nat].
Proof.
  exact (proj2 (proj2
    (@preview_urls_never_leak
       [Some sampleHero; Some sampleInspiration; None; Some sampleHero] busyStore
       ltac:(repeat constructor)))).
Defined.

Lemma download_exports_the_crop_witness :
  handleDownload portraitBrowser A16x9 refiningState refiningState
  = (Returns tt, with_isDownloadMenuOpen false refiningState,
     [LoadImage priorUrl;
      DrawImage (cropRect (H:=Binary64.float_number) 1080 1920 A16x9);
      Download "lookbook-16x9.png"]).
Proof.
  exact (proj1 (@download_exports_the_crop
                  portraitBrowser A16x9 refiningState "d"%char
                  "ata:image/png;base64,cHJpb3I=" 1080%N 1920%N
                  eq_refl eq_refl eq_refl)).
Defined.

Lemma download_load_failure_witness :
  exists s' : AppState,
    handleDownload brokenImageBrowser A1x1 refiningState refiningState
    = (Returns tt, s', [LoadImage priorUrl])
    /\ error s' = Some "Could not download image due to an error loading it."
    /\ isDownloadMenuOpen s' = false
    /\ generatedImage s' = Some priorUrl
    /\ outputPanel s' = ShowImage priorUrl.
Proof.
  exact (@download_load_failure
           brokenImageBrowser A1x1 refiningState "d"%char
           "ata:image/png;base64,cHJpb3I=" OtherValue eq_refl eq_refl).
Defined.

